(** * Cash-flow analysis: flow classification, metrics and mortgage layer

    A shallow embedding of the classification and calculation core of the
    cash-flow analyser:

    - [src/core/constants.py]: the flow types, the pattern tables the flow
      classifier compiles, the confidence levels and the pair-matching
      window;
    - [src/core/models.py]: [Transaction], [CategorizationResult],
      [MonthlyMetrics];
    - [src/categorization/flow_classifier.py]: [FlowTypeClassifier];
    - [src/categorization/categorizer.py]: [TransactionCategorizer];
    - [src/analysis/cashflow.py]: [CashFlowCalculator];
    - [src/analysis/enhanced_cashflow.py]: [EnhancedCashFlowCalculator];
    - [src/data/mortgage_loader.py]: [MortgageTransaction] and
      [get_monthly_interest_payments].

    Conventions of the embedding.

    - Money ([Decimal] in the source) is counted in cents, as [Z]; the
      tolerance [TRANSFER_AMOUNT_TOLERANCE = 0.01] is one cent.  The
      calculator's detour through [float] and back ([Decimal(str(...))]) is
      read as exact arithmetic.
    - Ratios, rates and confidences ([float], or a [Decimal] quotient) are
      exact rationals [Q]; the value of a computed rational is stated with
      [==], a stored constant or a copied field with [=].
    - Transactions are mutable objects: the classifier is modelled over a
      store of objects addressed by references, and a batch is a list of
      references, so that [other is transaction] is equality of references
      and a transaction marked by one call is seen marked by the next.
    - A Python [dict] is an association list in insertion order.
    - An exception is a value of [exn]; code that can raise returns a
      [result]. *)

From Stdlib Require Import ZArith QArith List String Ascii Bool Lia DecimalString.
Import ListNotations.

Local Open Scope Z_scope.

(** ** Regular expressions

    The three tables the flow classifier compiles use literal characters,
    the escape [\c], [.] and [.*] only.  Patterns are compiled with
    [re.IGNORECASE] and looked for with [search], that is at any offset.
    Descriptions are taken to be ASCII text: case is folded on the ASCII
    letters. *)

Module Regex.

Inductive item : Type :=
| Lit (c : ascii)
| Any
| AnyStar.

Definition pattern : Type := list item.

Definition upper_ascii (c : ascii) : ascii :=
  let n := nat_of_ascii c in
  if (Nat.leb 97 n && Nat.leb n 122)%bool then ascii_of_nat (n - 32) else c.

(** [str.upper] on the ASCII letters. *)
Fixpoint upper (s : string) : string :=
  match s with
  | EmptyString => EmptyString
  | String c r => String (upper_ascii c) (upper r)
  end.

Definition newline : ascii := ascii_of_nat 10.
Definition backslash : ascii := ascii_of_nat 92.
Definition dot : ascii := ascii_of_nat 46.
Definition star : ascii := ascii_of_nat 42.

Fixpoint compile_chars (l : list ascii) : pattern :=
  match l with
  | [] => []
  | c :: l' =>
      if Ascii.eqb c backslash then
        match l' with
        | d :: r => Lit d :: compile_chars r
        | [] => [Lit c]
        end
      else if Ascii.eqb c dot then
        match l' with
        | d :: r => if Ascii.eqb d star then AnyStar :: compile_chars r
                    else Any :: compile_chars l'
        | [] => [Any]
        end
      else Lit c :: compile_chars l'
  end.

(** [re.compile(pattern, re.IGNORECASE)] *)
Definition compile (p : string) : pattern :=
  compile_chars (list_ascii_of_string p).

Definition eqb_ignorecase (c d : ascii) : bool :=
  Ascii.eqb (upper_ascii c) (upper_ascii d).

(** A match of the whole pattern starting at the head of the subject. *)
Fixpoint match_here (p : pattern) : list ascii -> bool :=
  match p with
  | [] => fun _ => true
  | Lit c :: r =>
      fun s => match s with
               | [] => false
               | d :: s' => eqb_ignorecase c d && match_here r s'
               end
  | Any :: r =>
      fun s => match s with
               | [] => false
               | d :: s' => negb (Ascii.eqb d newline) && match_here r s'
               end
  | AnyStar :: r =>
      fix skip (s : list ascii) : bool :=
        match_here r s ||
        match s with
        | [] => false
        | d :: s' => negb (Ascii.eqb d newline) && skip s'
        end
  end%bool.

Fixpoint search_chars (p : pattern) (s : list ascii) : bool :=
  (match_here p s ||
   match s with
   | [] => false
   | _ :: s' => search_chars p s'
   end)%bool.

(** [pattern.search(description)], as a truth value. *)
Definition search (p : pattern) (s : string) : bool :=
  search_chars p (list_ascii_of_string s).

End Regex.

(** ** Constants ([src/core/constants.py]) *)

Module Constants.

Inductive FlowType : Type :=
| INCOME
| EXPENSE
| INTERNAL_TRANSFER
| EXCLUDED.

Definition FlowType_eqb (a b : FlowType) : bool :=
  match a, b with
  | INCOME, INCOME | EXPENSE, EXPENSE
  | INTERNAL_TRANSFER, INTERNAL_TRANSFER | EXCLUDED, EXCLUDED => true
  | _, _ => false
  end.

Local Open Scope string_scope.

Definition INCOME_CATEGORIES : list (string * list string) :=
  [ ("Salary",
     ["DIRECT DEP.*PAYROLL"; "ADP.*CREDIT"; "GUSTO"; "PAYROLL"; "SALARY";
      "SEQUOIA ONE PEO.*EDI PYMNTS"; "EDI PYMNTS"; "PEO.*PAYROLL"]);
    ("Government_Benefits",
     ["APA.*TREAS.*310.*MISC PAY"; "WA ST EMPLOY SEC.*UI BENEFIT";
      "UNEMPLOYMENT"; "UI BENEFIT"; "STATE.*BENEFIT"]);
    ("Freelance",
     ["ZELLE FROM"; "VENMO FROM"; "PAYPAL.*CREDIT"; "CASH APP.*FROM";
      "FORTE LABS.*RECEIVABLE"; "RECEIVABLE"]);
    ("Investment_Income",
     ["DIVIDEND"; "INTEREST PAYMENT"; "CAPITAL GAIN"; "INVESTMENT.*INCOME";
      "COINBASE.*INC"; "COINBASE\.COM"; "COINBASE"; "SOLIUM.*INC";
      "STOCK.*OPTION"; "RSU.*VESTING"]);
    ("Bank_Transfers",
     ["GOLDMAN SACHS.*P2P"; "FEDWIRE CREDIT"; "BOOK TRANSFER CREDIT";
      "P2P.*PAYMENT"; "SANTANDER BANK.*PAYMENT"]);
    ("Deposits",
     ["REMOTE.*ONLINE.*DEPOSIT"; "CHECK.*DEPOSIT"; "DEPOSIT.*\#";
      "ATM CASH DEPOSIT"; "DEPOSIT ID NUMBER"]);
    ("Venmo_Transfers", ["VENMO.*CASHOUT"; "VENMO.*PAYMENT.*FROM"]);
    ("Tax_Refund",
     ["IRS.*TREAS"; "STATE.*REFUND"; "TAX REF"; "TREASURY.*REFUND"]);
    ("Reimbursement",
     ["EXPENSE REIMB"; "REFUND"; "REIMB"; "RETURN"; "FEE REVERSAL"]);
    ("Gift", ["GIFT"; "BIRTHDAY"; "WEDDING"]);
    ("Other_Income", []) ].

Definition INTERNAL_TRANSFER_CATEGORIES : list (string * list string) :=
  [ ("To_Savings",
     ["TRANSFER TO.*SAV"; "ONLINE TRANSFER TO SAV"; "SAVINGS TRANSFER"]);
    ("From_Savings", ["TRANSFER FROM.*SAV"; "ONLINE TRANSFER FROM SAV"]);
    ("To_Investment",
     ["CHARLES SCHWAB"; "SCHWAB"; "FIDELITY"; "VANGUARD.*BUY"; "VANGUARD";
      "INTERACTIVE.*BROK"; "E\*TRADE"; "ETRADE"; "ROBINHOOD"; "BETTERMENT";
      "WEALTHFRONT"]);
    ("To_External_Checking",
     ["TRANSFER TO.*CHK"; "EXTERNAL TRANSFER"; "WIRE TRANSFER OUT"]);
    ("From_External_Checking",
     ["TRANSFER FROM.*CHK"; "WIRE TRANSFER IN"; "REMOTE.*ONLINE.*DEPOSIT"]);
    ("Treasury_Direct",
     ["TREASURYDIRECT"; "US TREASURY"; "TREASURY DIRECT"]);
    ("Personal_Transfers",
     ["ZELLE PAYMENT TO"; "ZELLE PAYMENT FROM"; "VENMO PAYMENT";
      "VENMO.*CASHOUT"; "P2P.*PAYMENT"]) ].

Definition EXCLUDED_CATEGORIES : list (string * list string) :=
  [ ("Credit_Card_Payment",
     ["CHASE CARD.*PAYMENT"; "CHASE CREDIT CRD"; "CHASE CREDIT CRD AUTOPAY";
      "Payment to Chase card"; "AMEX.*PAYMENT"; "AMERICAN EXPRESS.*PAYMENT";
      "DISCOVER.*PAYMENT"; "CAPITAL ONE.*PAYMENT"; "CAPITAL ONE.*PMT";
      "CAPITAL ONE.*CRCARDPMT"; "CAPITAL ONE ONLINE PMT";
      "CAPITAL ONE MOBILE PMT"; "CITI.*PAYMENT"; "BARCLAYS.*PAYMENT";
      "CREDIT CARD PAYMENT"]);
    ("Loan_Payment",
     ["LOAN PAYMENT"; "AUTO LOAN"; "CAR LOAN"; "STUDENT LOAN";
      "PERSONAL LOAN"; "NAVIENT"; "NELNET"; "SOFI.*LOAN"]);
    ("Mortgage_Payment",
     ["MORTGAGE PAYMENT"; "ONLINE PAYMENT.*TO MORTGAGE";
      "PAYMENT.*TO MORTGAGE"]) ].

Definition CONFIDENCE_HIGH : Q := 9 # 10.
Definition CONFIDENCE_MEDIUM : Q := 7 # 10.
Definition CONFIDENCE_LOW : Q := 5 # 10.

(** Look for the matching transfer within 3 days. *)
Definition TRANSFER_MATCH_DAYS : Z := 3.
(** Amounts must match within 1 cent. *)
Definition TRANSFER_AMOUNT_TOLERANCE : Z := 1.

End Constants.

(** ** [datetime]

    The part of Python's [datetime] the code relies on: subtraction and
    [timedelta.days], ordering, [strftime] with [%Y-%m] and [%Y-%m-%d].
    Microseconds are left out. *)

Module Datetime.

Record datetime : Type := mk_datetime {
  dt_year : Z;
  dt_month : Z;
  dt_day : Z;
  dt_hour : Z;
  dt_minute : Z;
  dt_second : Z
}.

Definition is_leap (y : Z) : bool :=
  ((y mod 4 =? 0) && negb (y mod 100 =? 0)) || (y mod 400 =? 0).

Definition days_before_year (y : Z) : Z :=
  let p := y - 1 in p * 365 + p / 4 - p / 100 + p / 400.

Definition days_before_month (y m : Z) : Z :=
  nth (Z.to_nat m) [0; 0; 31; 59; 90; 120; 151; 181; 212; 243; 273; 304; 334] 0
  + (if (2 <? m) && is_leap y then 1 else 0).

Definition toordinal (d : datetime) : Z :=
  days_before_year (dt_year d) + days_before_month (dt_year d) (dt_month d)
  + dt_day d.

Definition to_seconds (d : datetime) : Z :=
  toordinal d * 86400 + dt_hour d * 3600 + dt_minute d * 60 + dt_second d.

(** [(a - b).days]: a [timedelta] is normalised with its seconds in
    [0, 86400), so the days are the floor of the quotient. *)
Definition sub_days (a b : datetime) : Z :=
  (to_seconds a - to_seconds b) / 86400.

Definition ltb (a b : datetime) : bool := to_seconds a <? to_seconds b.

Definition digits (n : Z) : string :=
  NilZero.string_of_uint (N.to_uint (Z.to_N n)).

Fixpoint zeros (k : nat) : string :=
  match k with
  | O => EmptyString
  | S k' => String "0" (zeros k')
  end.

Definition zfill (width : nat) (n : Z) : string :=
  let s := digits n in
  append (zeros (width - String.length s)) s.

(** [d.strftime("%Y-%m")], for a year of four digits. *)
Definition strftime_Ym (d : datetime) : string :=
  append (zfill 4 (dt_year d)) (append "-" (zfill 2 (dt_month d))).

(** [d.strftime("%Y-%m-%d")] *)
Definition strftime_Ymd (d : datetime) : string :=
  append (strftime_Ym d) (append "-" (zfill 2 (dt_day d))).

End Datetime.

(** ** Data models ([src/core/models.py]) *)

Module Models.
Import Constants Datetime.

(** A [dict] with string keys, in insertion order. *)
Definition dict (V : Type) : Type := list (string * V).

Fixpoint dict_get {V : Type} (d : dict V) (k : string) (default : V) : V :=
  match d with
  | [] => default
  | (k', v) :: r => if String.eqb k' k then v else dict_get r k default
  end.

(** [d[k] = v]: the value of an existing key is replaced in place, a new
    key goes last. *)
Fixpoint dict_set {V : Type} (d : dict V) (k : string) (v : V) : dict V :=
  match d with
  | [] => [(k, v)]
  | (k', v') :: r =>
      if String.eqb k' k then (k, v) :: r else (k', v') :: dict_set r k v
  end.

(** [Transaction].  The flags [is_duplicate], [is_recurring], [is_anomaly]
    and the derived [day_of_week] and [quarter] are read by none of the
    functions below and are left out; [pair_id], the f-string
    ["{date}_{amount}"], is kept as the pair it is printed from. *)
Record Transaction : Type := mkTransaction {
  date : datetime;
  description : string;
  amount : Z;
  balance : Z;
  type_ : string;
  flow_type : option FlowType;
  category : option string;
  subcategory : option string;
  confidence : Q;
  has_pair : bool;
  pair_id : option (datetime * Z);
  user_verified : bool;
  user_category : option string
}.

(** The dataclass constructor with its defaults. *)
Definition new_Transaction (d : datetime) (desc : string) (amt bal : Z)
    (ty : string) : Transaction :=
  mkTransaction d desc amt bal ty None None None 0 false None false None.

(** [__post_init__]: the month key, fixed by the date. *)
Definition year_month (t : Transaction) : string := strftime_Ym (date t).

Definition set_flow_type (t : Transaction) (v : option FlowType) : Transaction :=
  mkTransaction (date t) (description t) (amount t) (balance t) (type_ t)
    v (category t) (subcategory t) (confidence t)
    (has_pair t) (pair_id t) (user_verified t) (user_category t).

Definition set_category (t : Transaction) (v : option string) : Transaction :=
  mkTransaction (date t) (description t) (amount t) (balance t) (type_ t)
    (flow_type t) v (subcategory t) (confidence t)
    (has_pair t) (pair_id t) (user_verified t) (user_category t).

Definition set_confidence (t : Transaction) (v : Q) : Transaction :=
  mkTransaction (date t) (description t) (amount t) (balance t) (type_ t)
    (flow_type t) (category t) (subcategory t) v
    (has_pair t) (pair_id t) (user_verified t) (user_category t).

Definition set_has_pair (t : Transaction) (v : bool) : Transaction :=
  mkTransaction (date t) (description t) (amount t) (balance t) (type_ t)
    (flow_type t) (category t) (subcategory t) (confidence t)
    v (pair_id t) (user_verified t) (user_category t).

Definition set_pair_id (t : Transaction) (v : option (datetime * Z)) : Transaction :=
  mkTransaction (date t) (description t) (amount t) (balance t) (type_ t)
    (flow_type t) (category t) (subcategory t) (confidence t)
    (has_pair t) v (user_verified t) (user_category t).

Definition set_user_verified (t : Transaction) (v : bool) : Transaction :=
  mkTransaction (date t) (description t) (amount t) (balance t) (type_ t)
    (flow_type t) (category t) (subcategory t) (confidence t)
    (has_pair t) (pair_id t) v (user_category t).

Module CategorizationResult.
Record t : Type := mk {
  flow_type : FlowType;
  category : string;
  subcategory : option string;
  confidence : Q;
  method : string;
  matched_pattern : option string
}.
End CategorizationResult.

Record MonthlyMetrics : Type := mkMonthlyMetrics {
  month : string;
  gross_income : Z;
  true_expenses : Z;
  net_cash_flow : Z;
  internal_transfers_out : Z;
  internal_transfers_in : Z;
  excluded_payments : Z;
  savings_rate : Q;
  expense_ratio : Q;
  income_by_category : dict Z;
  expense_by_category : dict Z;
  transaction_count : nat;
  largest_expense : Z;
  largest_income : Z;
  daily_burn_rate : Q;
  starting_balance : Z;
  ending_balance : Z;
  calculated_change : Z;
  actual_change : Z;
  reconciliation_diff : Z
}.

(** Exceptions the modelled code can raise. *)
Inductive exn : Type :=
| UnboundLocalError (name : string)
| KeyError (key : string).

Inductive result (A : Type) : Type :=
| Ok (a : A)
| Raise (e : exn).
Arguments Ok {A} a.
Arguments Raise {A} e.

Definition bind {A B : Type} (r : result A) (k : A -> result B) : result B :=
  match r with
  | Ok a => k a
  | Raise e => Raise e
  end.

(** A loop that appends one computed element per iteration and stops at
    the first exception. *)
Fixpoint for_each {A B : Type} (f : A -> result B) (l : list A)
  : result (list B) :=
  match l with
  | [] => Ok []
  | a :: r => bind (f a) (fun b => bind (for_each f r) (fun bs => Ok (b :: bs)))
  end.

End Models.

(** ** The flow classifier ([src/categorization/flow_classifier.py]) *)

Module FlowClassifier.
Import Regex Constants Datetime Models.
Local Open Scope string_scope.
Local Open Scope Z_scope.

(** Transactions are objects the classifier mutates in place.  A [store]
    gives the current state of every object; a batch is a list of
    references into it. *)
Definition ref : Type := nat.
Definition store : Type := ref -> Transaction.

Definition update (h : store) (r : ref) (t : Transaction) : store :=
  fun r' => if Nat.eqb r' r then t else h r'.

Definition _compile_patterns (category_dict : list (string * list string))
  : list (string * list pattern) :=
  map (fun cp => (fst cp, map compile (snd cp))) category_dict.

(** [__init__] *)
Definition excluded_patterns : list (string * list pattern) :=
  _compile_patterns EXCLUDED_CATEGORIES.
Definition transfer_patterns : list (string * list pattern) :=
  _compile_patterns INTERNAL_TRANSFER_CATEGORIES.

(** The loop [for category, patterns in table.items(): for pattern in
    patterns: if pattern.search(description): return ...] leaves with the
    first category, in table order, one of whose patterns is found. *)
Fixpoint first_match (table : list (string * list pattern))
    (description : string) : option string :=
  match table with
  | [] => None
  | (category, patterns) :: rest =>
      if existsb (fun p => search p description) patterns
      then Some category
      else first_match rest description
  end.

Definition _is_excluded (t : Transaction) : bool :=
  match first_match excluded_patterns (upper (description t)) with
  | Some _ => true
  | None => false
  end.

Definition _get_excluded_category (t : Transaction) : string :=
  match first_match excluded_patterns (upper (description t)) with
  | Some category => category
  | None => "Excluded_Other"
  end.

(** The tests of the scan of [_find_transfer_pair], one [continue] each:
    not the transaction itself, not already paired, within the date
    window, opposite amount within the tolerance. *)
Definition is_candidate (h : store) (transaction other : ref) : bool :=
  let target_amount := - amount (h transaction) in
  let target_date := date (h transaction) in
  negb (Nat.eqb other transaction)
  && negb (has_pair (h other))
  && (Z.abs (sub_days (date (h other)) target_date) <=? TRANSFER_MATCH_DAYS)
  && (Z.abs (amount (h other) - target_amount) <=? TRANSFER_AMOUNT_TOLERANCE).

(** The four assignments made when a match is found. *)
Definition mark_pair (h : store) (transaction other : ref) : store :=
  let h1 := update h transaction
              (set_pair_id (set_has_pair (h transaction) true)
                 (Some (date (h other), amount (h other)))) in
  update h1 other
    (set_pair_id (set_has_pair (h1 other) true)
       (Some (date (h1 transaction), amount (h1 transaction)))).

(** The first candidate of the batch is accepted; nothing is written before
    it is found.  On an empty batch the scan finds nothing, which is the
    early [return None]. *)
Definition _find_transfer_pair (all_transactions : list ref) (h : store)
    (transaction : ref) : option ref * store :=
  match find (is_candidate h transaction) all_transactions with
  | Some other => (Some other, mark_pair h transaction other)
  | None => (None, h)
  end.

Definition _check_income_patterns (t : Transaction)
  : option CategorizationResult.t :=
  match first_match (_compile_patterns INCOME_CATEGORIES)
          (upper (description t)) with
  | Some category =>
      Some (CategorizationResult.mk INCOME category None CONFIDENCE_HIGH
              "income_pattern" None)
  | None => None
  end.

Definition _check_internal_transfer (all_transactions : list ref) (h : store)
    (transaction : ref) : option CategorizationResult.t * store :=
  match first_match transfer_patterns (upper (description (h transaction))) with
  | Some category =>
      (* Method 1: a transfer pattern; a pair raises the confidence *)
      let (pair, h') := _find_transfer_pair all_transactions h transaction in
      match pair with
      | Some _ =>
          (Some (CategorizationResult.mk INTERNAL_TRANSFER category None
                   CONFIDENCE_HIGH "transfer_pattern_with_pair" None), h')
      | None =>
          (Some (CategorizationResult.mk INTERNAL_TRANSFER category None
                   CONFIDENCE_MEDIUM "transfer_pattern" None), h')
      end
  | None =>
      (* Method 2: a pair without a pattern *)
      let (pair, h') := _find_transfer_pair all_transactions h transaction in
      match pair with
      | Some _ =>
          let category := if amount (h' transaction) <? 0
                          then "To_Unknown_Account"
                          else "From_Unknown_Account" in
          (Some (CategorizationResult.mk INTERNAL_TRANSFER category None
                   CONFIDENCE_MEDIUM "transfer_pair_only" None), h')
      | None => (None, h')
      end
  end.

Definition classify (all_transactions : list ref) (h : store)
    (transaction : ref) : CategorizationResult.t * store :=
  (* Step 1: EXCLUDED, highest priority *)
  if _is_excluded (h transaction) then
    (CategorizationResult.mk EXCLUDED (_get_excluded_category (h transaction))
       None CONFIDENCE_HIGH "excluded_pattern" None, h)
  else
    (* Step 2: income patterns, before the transfer check *)
    match (if 0 <? amount (h transaction)
           then _check_income_patterns (h transaction) else None) with
    | Some income_result => (income_result, h)
    | None =>
        (* Step 3: INTERNAL_TRANSFER *)
        let (transfer_result, h') :=
          _check_internal_transfer all_transactions h transaction in
        match transfer_result with
        | Some r => (r, h')
        | None =>
            (* Step 4: the sign of the amount *)
            if 0 <? amount (h' transaction) then
              (CategorizationResult.mk INCOME "Uncategorized_Income" None
                 CONFIDENCE_HIGH "amount_positive" None, h')
            else
              (CategorizationResult.mk EXPENSE "Uncategorized_Expense" None
                 CONFIDENCE_HIGH "amount_negative" None, h')
        end
    end.

(** One iteration of the loop of [classify_all]. *)
Definition classify_step (all_transactions : list ref) (h : store)
    (transaction : ref) : store :=
  let (result, h1) := classify all_transactions h transaction in
  update h1 transaction
    (set_confidence
       (set_category
          (set_flow_type (h1 transaction)
             (Some (CategorizationResult.flow_type result)))
          (Some (CategorizationResult.category result)))
       (CategorizationResult.confidence result)).

(** [classify_all]: the batch is its own pair-matching context.  The
    per-type counts and [_validate_classification] only log. *)
Definition classify_all (h : store) (transactions : list ref) : store :=
  fold_left (classify_step transactions) transactions h.

Definition reclassify_transaction (h : store) (transaction : ref)
    (new_flow_type : FlowType) : store :=
  update h transaction
    (set_confidence
       (set_user_verified
          (set_flow_type (h transaction) (Some new_flow_type)) true)
       1).

End FlowClassifier.

(** ** The categorizer ([src/categorization/categorizer.py]) *)

Module Categorizer.
Import Constants Models.

Definition Qltb (x y : Q) : bool := negb (Qle_bool y x).

(** [[t for t in transactions if t.confidence < threshold]]; the default
    threshold is [CONFIDENCE_MEDIUM]. *)
Definition get_low_confidence_transactions (transactions : list Transaction)
    (threshold : Q) : list Transaction :=
  filter (fun t => Qltb (confidence t) threshold) transactions.

End Categorizer.

(** ** The cash-flow calculator ([src/analysis/cashflow.py])

    The calculator only reads its transactions: it works on a list of
    transaction values.  Its DataFrame has one row per transaction, in
    order, with the columns [date], [description], [amount], [balance],
    [flow_type], [category], [year_month] and [confidence]; a masked frame
    is the filtered list. *)

Module CashFlow.
Import Constants Datetime Models.
Local Open Scope string_scope.
Local Open Scope Z_scope.

(** [df['flow_type'] == f.value] *)
Definition has_flow (f : FlowType) (t : Transaction) : bool :=
  match flow_type t with
  | Some g => FlowType_eqb g f
  | None => false
  end.

(** [df['amount'].sum()] *)
Definition sum_amounts (df : list Transaction) : Z :=
  fold_right (fun t acc => amount t + acc) 0 df.

(** [df['amount'].min()] and [.max()] of a frame with at least one row. *)
Definition min_amount (df : list Transaction) : Z :=
  match df with
  | [] => 0
  | t :: r => fold_left (fun m u => Z.min m (amount u)) r (amount t)
  end.

Definition max_amount (df : list Transaction) : Z :=
  match df with
  | [] => 0
  | t :: r => fold_left (fun m u => Z.max m (amount u)) r (amount t)
  end.

Definition option_string_eqb (a b : option string) : bool :=
  match a, b with
  | Some x, Some y => String.eqb x y
  | None, None => true
  | _, _ => false
  end.

(** [Series.unique()]: the distinct values in order of first appearance. *)
Fixpoint unique_from {A : Type} (eqb : A -> A -> bool) (seen l : list A)
  : list A :=
  match l with
  | [] => []
  | x :: r =>
      if existsb (eqb x) seen then unique_from eqb seen r
      else x :: unique_from eqb (x :: seen) r
  end.

Definition unique {A : Type} (eqb : A -> A -> bool) (l : list A) : list A :=
  unique_from eqb [] l.

Fixpoint insert_sorted (s : string) (l : list string) : list string :=
  match l with
  | [] => [s]
  | x :: r => if String.leb s x then s :: l else x :: insert_sorted s r
  end.

(** [sorted] on strings. *)
Definition sorted (l : list string) : list string :=
  fold_right insert_sorted [] l.

Definition _get_category_breakdown (df : list Transaction) : dict Z :=
  match df with
  | [] => []
  | _ =>
      fold_left
        (fun breakdown category =>
           match category with
           | Some c =>
               let category_df :=
                 filter (fun t => option_string_eqb (Models.category t) (Some c)) df in
               dict_set breakdown c (Z.abs (sum_amounts category_df))
           | None => breakdown
           end)
        (unique option_string_eqb (map Models.category df)) []
  end.

(** [s.split('-')] *)
Fixpoint split_dash (s : string) : list string :=
  match s with
  | EmptyString => [EmptyString]
  | String c r =>
      if Ascii.eqb c "-"%char then EmptyString :: split_dash r
      else match split_dash r with
           | [] => [String c EmptyString]
           | w :: ws => String c w :: ws
           end
  end.

Fixpoint int_digits (acc : Z) (s : string) : option Z :=
  match s with
  | EmptyString => Some acc
  | String c r =>
      let n := nat_of_ascii c in
      if (Nat.leb 48 n && Nat.leb n 57)%bool
      then int_digits (10 * acc + Z.of_nat (n - 48)) r
      else None
  end.

(** [int(s)] on a string of decimal digits, as [strftime] prints a year;
    [None] stands for [ValueError]. *)
Definition int_of_string (s : string) : option Z :=
  match s with
  | EmptyString => None
  | _ => int_digits 0 s
  end.

Definition _get_days_in_month (year_month : string) : Z :=
  match split_dash year_month with
  | [year; month] =>
      if String.eqb month "02" then
        match int_of_string year with
        | Some year_int =>
            if ((year_int mod 4 =? 0) && negb (year_int mod 100 =? 0))
               || (year_int mod 400 =? 0)
            then 29 else 28
        | None => 30
        end
      else if existsb (String.eqb month) ["04"; "06"; "09"; "11"] then 30
      else 31
  | _ => 30
  end.

(** The row at [df['date'].idxmin()] and at [idxmax()]: the first row
    holding the least, respectively the greatest, date. *)
Definition earliest_row (df : list Transaction) : option Transaction :=
  match df with
  | [] => None
  | t :: r =>
      Some (fold_left (fun best u => if ltb (date u) (date best) then u else best)
              r t)
  end.

Definition latest_row (df : list Transaction) : option Transaction :=
  match df with
  | [] => None
  | t :: r =>
      Some (fold_left (fun best u => if ltb (date best) (date u) then u else best)
              r t)
  end.

Definition _get_starting_balance_from_csv (month_df : list Transaction) : Z :=
  match earliest_row month_df with
  | None => 0
  | Some earliest => balance earliest - amount earliest
  end.

Definition _get_ending_balance_from_csv (month_df : list Transaction) : Z :=
  match latest_row month_df with
  | None => 0
  | Some latest => balance latest
  end.

(** [(a / b) * 100 if b > 0 else 0] *)
Definition percent_of (a b : Z) : Q :=
  if 0 <? b then (inject_Z a / inject_Z b * 100)%Q else 0%Q.

(** [_calculate_month_metrics].  The locals [starting_balance],
    [ending_balance] and [actual_change] are assigned in the first branch
    of the balance test only: [balance_locals] is [None] where they are
    unbound, and the constructor call, which reads [starting_balance]
    first, then raises [UnboundLocalError]. *)
Definition _calculate_month_metrics (month_df : list Transaction)
    (year_month : string) : result MonthlyMetrics :=
  let income_df := filter (has_flow INCOME) month_df in
  let expense_df := filter (has_flow EXPENSE) month_df in
  let transfer_out_df :=
    filter (fun t => has_flow INTERNAL_TRANSFER t && (amount t <? 0)) month_df in
  let transfer_in_df :=
    filter (fun t => has_flow INTERNAL_TRANSFER t && (0 <? amount t)) month_df in
  let excluded_df := filter (has_flow EXCLUDED) month_df in
  let gross_income := sum_amounts income_df in
  let true_expenses := Z.abs (sum_amounts expense_df) in
  let internal_transfers_out := Z.abs (sum_amounts transfer_out_df) in
  let internal_transfers_in := sum_amounts transfer_in_df in
  let excluded_payments := Z.abs (sum_amounts excluded_df) in
  (* THE CRITICAL CALCULATION *)
  let net_cash_flow := gross_income - true_expenses in
  let savings_rate := percent_of internal_transfers_out gross_income in
  let expense_ratio := percent_of true_expenses gross_income in
  let income_by_category := _get_category_breakdown income_df in
  let expense_by_category := _get_category_breakdown expense_df in
  let transaction_count := List.length month_df in
  let largest_expense :=
    match expense_df with [] => 0 | _ => Z.abs (min_amount expense_df) end in
  let largest_income :=
    match income_df with [] => 0 | _ => max_amount income_df end in
  let days_in_month := _get_days_in_month year_month in
  let daily_burn_rate :=
    if 0 <? days_in_month
    then (inject_Z true_expenses / inject_Z days_in_month)%Q else 0%Q in
  let calculated_change := sum_amounts month_df in
  let csv_balance_available :=
    existsb (fun _ => true) month_df
    && existsb (fun t => negb (balance t =? 0)) month_df in
  let '(balance_locals, reconciliation_diff) :=
    if csv_balance_available then
      let starting_balance := _get_starting_balance_from_csv month_df in
      let ending_balance := _get_ending_balance_from_csv month_df in
      let actual_change := ending_balance - starting_balance in
      (Some (starting_balance, ending_balance, actual_change),
       Z.abs (calculated_change - actual_change))
    else (None, 0) in
  match balance_locals with
  | None => Raise (UnboundLocalError "starting_balance")
  | Some (starting_balance, ending_balance, actual_change) =>
      Ok (mkMonthlyMetrics year_month gross_income true_expenses net_cash_flow
            internal_transfers_out internal_transfers_in excluded_payments
            savings_rate expense_ratio income_by_category expense_by_category
            transaction_count largest_expense largest_income daily_burn_rate
            starting_balance ending_balance calculated_change actual_change
            reconciliation_diff)
  end.

(** The rows of one month. *)
Definition month_rows (df : list Transaction) (ym : string) : list Transaction :=
  filter (fun t => String.eqb (year_month t) ym) df.

(** [calculate_monthly_metrics].  Over no transaction at all the frame
    built by [_create_dataframe] is [pd.DataFrame([])], which has no
    column, and [self.df['year_month']] raises [KeyError]. *)
Definition calculate_monthly_metrics (transactions : list Transaction)
  : result (list MonthlyMetrics) :=
  match transactions with
  | [] => Raise (KeyError "year_month")
  | _ =>
      for_each
        (fun ym => _calculate_month_metrics (month_rows transactions ym) ym)
        (sorted (unique String.eqb (map year_month transactions)))
  end.

(** The dictionary [get_summary_metrics] returns; its key
    [transaction_count] is [summary_transaction_count] here, the name
    being taken by [MonthlyMetrics]. *)
Record Summary : Type := mkSummary {
  period : string;
  total_income : Z;
  total_expenses : Z;
  total_net_cash_flow : Z;
  total_transfers_out : Z;
  total_excluded : Z;
  avg_monthly_income : Q;
  avg_monthly_expenses : Q;
  avg_monthly_net_cash_flow : Q;
  avg_monthly_savings : Q;
  overall_savings_rate : Q;
  overall_expense_ratio : Q;
  summary_transaction_count : nat;
  months_span : Z
}.

(** The four running totals of the loop of [get_summary_metrics]. *)
Record Totals : Type := mkTotals {
  acc_income : Z;
  acc_expenses : Z;
  acc_transfers_out : Z;
  acc_excluded : Z
}.

(** One iteration: the [if]/[elif] chain on the flow type. *)
Definition add_to_totals (acc : Totals) (trans : Transaction) : Totals :=
  match flow_type trans with
  | Some INCOME =>
      mkTotals (acc_income acc + amount trans) (acc_expenses acc)
        (acc_transfers_out acc) (acc_excluded acc)
  | Some EXPENSE =>
      mkTotals (acc_income acc) (acc_expenses acc + Z.abs (amount trans))
        (acc_transfers_out acc) (acc_excluded acc)
  | Some INTERNAL_TRANSFER =>
      if amount trans <? 0 then
        mkTotals (acc_income acc) (acc_expenses acc)
          (acc_transfers_out acc + Z.abs (amount trans)) (acc_excluded acc)
      else acc
  | Some EXCLUDED =>
      mkTotals (acc_income acc) (acc_expenses acc)
        (acc_transfers_out acc) (acc_excluded acc + Z.abs (amount trans))
  | None => acc
  end.

(** [min(dates)] and [max(dates)]: the first least and the first greatest. *)
Definition min_date (dates : list datetime) : option datetime :=
  match dates with
  | [] => None
  | d :: r => Some (fold_left (fun m u => if ltb u m then u else m) r d)
  end.

Definition max_date (dates : list datetime) : option datetime :=
  match dates with
  | [] => None
  | d :: r => Some (fold_left (fun m u => if ltb m u then u else m) r d)
  end.

Definition _calculate_months_span (start_date end_date : datetime) : Z :=
  let months := (dt_year end_date - dt_year start_date) * 12
                + (dt_month end_date - dt_month start_date) in
  Z.max 1 (months + 1).

Definition get_summary_metrics (transactions : list Transaction) : Summary :=
  let totals := fold_left add_to_totals transactions (mkTotals 0 0 0 0) in
  let total_income := acc_income totals in
  let total_expenses := acc_expenses totals in
  let total_transfers_out := acc_transfers_out totals in
  let total_excluded := acc_excluded totals in
  let total_net_cash_flow := total_income - total_expenses in
  let dates := map date transactions in
  let date_range :=
    match min_date dates, max_date dates with
    | Some d0, Some d1 => Some (d0, d1)
    | _, _ => None
    end in
  let months_span :=
    match date_range with
    | Some (d0, d1) => _calculate_months_span d0 d1
    | None => 1
    end in
  mkSummary
    (match date_range with
     | Some (d0, d1) =>
         append (strftime_Ymd d0) (append " to " (strftime_Ymd d1))
     | None => "N/A"
     end)
    total_income total_expenses total_net_cash_flow total_transfers_out
    total_excluded
    (inject_Z total_income / inject_Z months_span)%Q
    (inject_Z total_expenses / inject_Z months_span)%Q
    (inject_Z total_net_cash_flow / inject_Z months_span)%Q
    (inject_Z total_transfers_out / inject_Z months_span)%Q
    (percent_of total_transfers_out total_income)
    (percent_of total_expenses total_income)
    (List.length transactions)
    months_span.

End CashFlow.

(** ** The mortgage-enhancement layer ([src/analysis/enhanced_cashflow.py])

    [monthly_mortgage_interest], the month-to-interest mapping the
    mortgage loader hands over, is an argument. *)

Module EnhancedCashFlow.
Import Constants Datetime Models CashFlow.
Local Open Scope string_scope.
Local Open Scope Z_scope.

Definition _add_mortgage_to_expenses (expense_categories : dict Z)
    (mortgage_interest : Z) : dict Z :=
  if mortgage_interest <=? 0 then expense_categories
  else
    dict_set expense_categories "Housing_Interest"
      (dict_get expense_categories "Housing_Interest" 0 + mortgage_interest).

(** The body of the loop of [calculate_enhanced_monthly_metrics]. *)
Definition enhance (monthly_mortgage_interest : dict Z)
    (metrics : MonthlyMetrics) : MonthlyMetrics :=
  let mortgage_interest := dict_get monthly_mortgage_interest (month metrics) 0 in
  let enhanced_true_expenses := true_expenses metrics + mortgage_interest in
  let enhanced_net_cash_flow := gross_income metrics - enhanced_true_expenses in
  (* Recalculate ratios *)
  let enhanced_savings_rate :=
    if 0 <? gross_income metrics
    then (inject_Z enhanced_net_cash_flow / inject_Z (gross_income metrics) * 100)%Q
    else 0%Q in
  let enhanced_expense_ratio :=
    if 0 <? gross_income metrics
    then (inject_Z enhanced_true_expenses / inject_Z (gross_income metrics) * 100)%Q
    else 0%Q in
  mkMonthlyMetrics
    (month metrics)
    (gross_income metrics)
    enhanced_true_expenses
    enhanced_net_cash_flow
    (internal_transfers_out metrics)
    (internal_transfers_in metrics)
    (excluded_payments metrics)
    enhanced_savings_rate
    enhanced_expense_ratio
    (income_by_category metrics)
    (_add_mortgage_to_expenses (expense_by_category metrics) mortgage_interest)
    (transaction_count metrics)
    (if 0 <? mortgage_interest
     then Z.max (largest_expense metrics) mortgage_interest
     else largest_expense metrics)
    (largest_income metrics)
    (inject_Z enhanced_true_expenses / 30)%Q
    (starting_balance metrics)
    (ending_balance metrics)
    (calculated_change metrics)
    (actual_change metrics)
    (reconciliation_diff metrics).

Definition calculate_enhanced_monthly_metrics (transactions : list Transaction)
    (monthly_mortgage_interest : dict Z) : result (list MonthlyMetrics) :=
  bind (calculate_monthly_metrics transactions)
    (fun base_metrics => Ok (map (enhance monthly_mortgage_interest) base_metrics)).

End EnhancedCashFlow.

(** ** Notions used in the statements *)

Module Notions.
Import Regex Constants Datetime Models FlowClassifier CashFlow EnhancedCashFlow.
Local Open Scope string_scope.
Local Open Scope list_scope.
Local Open Scope Z_scope.

(** The sum of the absolute amounts of a frame, the expense total as the
    specification words it (and as [get_summary_metrics] accumulates it). *)
Definition sum_abs_amounts (df : list Transaction) : Z :=
  fold_right (fun t acc => Z.abs (amount t) + acc) 0 df.

(** Pair matching writes [has_pair] and [pair_id] and nothing else: the
    relation between the store before and after. *)
Definition marks_only (h h' : store) : Prop :=
  forall r, h' r = set_pair_id (set_has_pair (h r) (has_pair (h' r))) (pair_id (h' r)).

(** A transfer or an excluded payment is in neither the income frame nor
    the expense frame. *)
Definition outside_formula (x : Transaction) : Prop :=
  flow_type x = Some INTERNAL_TRANSFER \/ flow_type x = Some EXCLUDED.

(** The fields [enhance] copies, and the burn rate it recomputes. *)
Definition passes_through (b e : MonthlyMetrics) : Prop :=
  month e = month b
  /\ gross_income e = gross_income b
  /\ internal_transfers_out e = internal_transfers_out b
  /\ internal_transfers_in e = internal_transfers_in b
  /\ excluded_payments e = excluded_payments b
  /\ income_by_category e = income_by_category b
  /\ transaction_count e = transaction_count b
  /\ largest_income e = largest_income b
  /\ starting_balance e = starting_balance b
  /\ ending_balance e = ending_balance b
  /\ calculated_change e = calculated_change b
  /\ actual_change e = actual_change b
  /\ reconciliation_diff e = reconciliation_diff b
  /\ daily_burn_rate e = (inject_Z (true_expenses e) / 30)%Q.

End Notions.

(** ** Example data *)

Module Examples.
Import Regex Constants Datetime Models FlowClassifier CashFlow.
Local Open Scope string_scope.
Local Open Scope list_scope.
Local Open Scope Z_scope.

Definition jan (day : Z) : datetime := mk_datetime 2024 1 day 0 0 0.

(** A classified transaction, as the calculator receives it. *)
Definition classified (d : datetime) (desc : string) (amt bal : Z)
    (f : FlowType) (cat : string) : Transaction :=
  set_category (set_flow_type (new_Transaction d desc amt bal "DEBIT") (Some f))
    (Some cat).

(** Three unclassified transactions of 100.00: out on the 15th, in on the
    16th, out on the 17th.  No description matches a pattern. *)
Definition three_way : store :=
  fun r =>
    match r with
    | O => new_Transaction (jan 15) "ACCOUNT MOVE A" (-10000) 50000 "DEBIT"
    | S O => new_Transaction (jan 16) "ACCOUNT MOVE B" 10000 60000 "CREDIT"
    | _ => new_Transaction (jan 17) "ACCOUNT MOVE C" (-10000) 50000 "DEBIT"
    end.

(** One transfer to savings. *)
Definition savings_store : store :=
  fun _ => new_Transaction (jan 15) "TRANSFER TO SAVINGS" (-100000) 100000 "TRANSFER".

(** The ambiguous description of the priority test. *)
Definition ambiguous_store : store :=
  fun _ => new_Transaction (jan 15) "CHASE CARD PAYMENT TRANSFER" (-100000) 200000
             "ACH_DEBIT".

Definition with_confidence (c : Q) : Transaction :=
  set_confidence (new_Transaction (jan 15) "COFFEE" (-450) 0 "DEBIT") c.

(** A month whose expense rows have both signs: a purchase of 200.00 and a
    refund of 50.00 filed as an expense. *)
Definition refund_month : list Transaction :=
  [ classified (jan 2) "SALARY" 100000 100000 INCOME "Salary";
    classified (jan 5) "STORE PURCHASE" (-20000) 80000 EXPENSE "Shopping";
    classified (jan 9) "STORE CREDIT" 5000 85000 EXPENSE "Shopping" ].

(** A month with no balance column: the loader fills in zero. *)
Definition no_balance_month : list Transaction :=
  [ classified (jan 2) "SALARY" 500000 0 INCOME "Salary";
    classified (jan 5) "RENT" (-180000) 0 EXPENSE "Housing" ].

(** The month of the savings-rate test: income 5000.00, expenses 3000.00,
    1000.00 moved to savings. *)
Definition savings_month : list Transaction :=
  [ classified (jan 1) "SALARY" 500000 500000 INCOME "Salary";
    classified (jan 15) "EXPENSES" (-300000) 200000 EXPENSE "Various";
    classified (jan 20) "SAVINGS" (-100000) 100000 INTERNAL_TRANSFER "To_Savings" ].

(** January with expenses of 930.00. *)
Definition january_930 : list Transaction :=
  [ classified (jan 1) "SALARY" 500000 500000 INCOME "Salary";
    classified (jan 15) "RENT" (-93000) 407000 EXPENSE "Housing" ].

(** The transactions of [test_basic_cash_flow_formula]. *)
Definition basic_formula_transactions : list Transaction :=
  [ classified (jan 15) "SALARY" 500000 500000 INCOME "Salary";
    classified (jan 16) "RENT" (-180000) 320000 EXPENSE "Housing";
    classified (jan 17) "GROCERIES" (-20000) 300000 EXPENSE "Groceries";
    classified (jan 18) "SAVINGS TRANSFER" (-100000) 200000 INTERNAL_TRANSFER
      "To_Savings";
    classified (jan 19) "CREDIT CARD PAYMENT" (-50000) 150000 EXCLUDED
      "Credit_Card_Payment" ].

(** The transactions of [test_monthly_metrics_calculation]. *)
Definition two_months : list Transaction :=
  [ classified (jan 1) "SALARY JAN" 400000 400000 INCOME "Salary";
    classified (jan 15) "RENT JAN" (-150000) 250000 EXPENSE "Housing";
    classified (jan 20) "SAVINGS JAN" (-100000) 150000 INTERNAL_TRANSFER
      "To_Savings";
    classified (mk_datetime 2024 2 1 0 0 0) "SALARY FEB" 450000 600000 INCOME
      "Salary";
    classified (mk_datetime 2024 2 15 0 0 0) "RENT FEB" (-150000) 450000 EXPENSE
      "Housing";
    classified (mk_datetime 2024 2 20 0 0 0) "FOOD FEB" (-30000) 420000 EXPENSE
      "Groceries" ].

(** The two transactions of [test_transfer_pair_detection]. *)
Definition transfer_pair_store : store :=
  fun r =>
    match r with
    | O => new_Transaction (jan 15) "TRANSFER OUT UNKNOWN" (-50000) 200000 "TRANSFER"
    | _ => new_Transaction (jan 16) "TRANSFER IN UNKNOWN" 50000 250000 "TRANSFER"
    end.

End Examples.

(** ** The calculator's reports ([src/analysis/cashflow.py], continued) *)

Module CashFlowReports.
Import Constants Datetime Models CashFlow.
Local Open Scope string_scope.
Local Open Scope list_scope.
Local Open Scope Z_scope.

(** [FlowType.value] *)
Definition flow_value (f : FlowType) : string :=
  match f with
  | INCOME => "INCOME"
  | EXPENSE => "EXPENSE"
  | INTERNAL_TRANSFER => "INTERNAL_TRANSFER"
  | EXCLUDED => "EXCLUDED"
  end.

(** [f"{x:.2f}"] for an amount held in cents. *)
Definition format_2f (cents : Z) : string :=
  append (if cents <? 0 then "-" else "")
    (append (digits (Z.abs cents / 100))
       (append "." (zfill 2 (Z.abs cents mod 100)))).





(** The dictionary [validate_cash_flow_calculation] returns; its
    [balance_check] entry stays empty. *)
Record Validation : Type := mkValidation {
  is_valid : bool;
  warnings : list string;
  errors : list string;
  flow_type_counts : dict nat
}.

Definition count_flow (f : FlowType) (transactions : list Transaction) : nat :=
  List.length (filter (has_flow f) transactions).

Definition large_discrepancy (metrics : MonthlyMetrics) : bool :=
  10000 <? reconciliation_diff metrics.

Definition discrepancy_warning (metrics : MonthlyMetrics) : string :=
  append "Large CSV balance discrepancy in "
    (append (month metrics)
       (append ": $"
          (append (format_2f (reconciliation_diff metrics))
             " (This is normal if CSV balance data is unreliable)"))).

Definition validate_cash_flow_calculation (transactions : list Transaction)
  : result Validation :=
  let counts :=
    map (fun f => (flow_value f, count_flow f transactions))
      [INCOME; EXPENSE; INTERNAL_TRANSFER; EXCLUDED] in
  let warnings1 :=
    if (dict_get counts "INCOME" 0 =? 0)%nat
    then ["No INCOME transactions found"] else [] in
  let warnings2 :=
    if (dict_get counts "EXPENSE" 0 =? 0)%nat
    then ["No EXPENSE transactions found"] else [] in
  bind (calculate_monthly_metrics transactions) (fun monthly_metrics =>
    let large := filter large_discrepancy monthly_metrics in
    let large_discrepancies := List.length large in
    let warnings3 := map discrepancy_warning large in
    let warnings4 :=
      if ((0 <? large_discrepancies)%nat
          && (large_discrepancies =? List.length monthly_metrics)%nat)%bool
      then ["All months show CSV balance discrepancies. This suggests the CSV balance field is unreliable, but transaction-based calculations should still be accurate."]
      else [] in
    let errors : list string := [] in
    Ok (mkValidation (List.length errors =? 0)%nat
          (warnings1 ++ warnings2 ++ warnings3 ++ warnings4) errors counts)).

End CashFlowReports.

(** ** The mortgage ledger ([src/data/mortgage_loader.py]) *)

Module MortgageTransaction.
Import Datetime.
Record t : Type := mk {
  date : datetime;
  transaction_type : string;
  total_amount : Z;
  principal : Z;
  interest : Z;
  escrow : Z;
  fees : Z;
  balance : Z;
  raw_details : string
}.

(** The property [year_month]. *)
Definition year_month (m : t) : string := strftime_Ym (date m).
End MortgageTransaction.

Module MortgageLoader.
Import Constants Datetime Models.
Local Open Scope string_scope.
Local Open Scope list_scope.
Local Open Scope Z_scope.

(** [k in d] *)
Definition dict_has {V : Type} (d : dict V) (k : string) : bool :=
  existsb (fun kv => String.eqb (fst kv) k) d.

(** One iteration of the loop of [get_monthly_interest_payments]. *)
Definition add_interest (monthly_interest : dict Z)
    (transaction : MortgageTransaction.t) : dict Z :=
  if (String.eqb (MortgageTransaction.transaction_type transaction)
        "MONTHLY PAYMENT"
      && (0 <? MortgageTransaction.interest transaction))%bool
  then
    let month := MortgageTransaction.year_month transaction in
    let monthly_interest :=
      if dict_has monthly_interest month then monthly_interest
      else dict_set monthly_interest month 0 in
    dict_set monthly_interest month
      (dict_get monthly_interest month 0
       + MortgageTransaction.interest transaction)
  else monthly_interest.

Definition get_monthly_interest_payments
    (transactions : list MortgageTransaction.t) : dict Z :=
  fold_left add_interest transactions [].

End MortgageLoader.

(** ** The enhanced summary ([src/analysis/enhanced_cashflow.py], continued) *)

Module EnhancedSummary.
Import Constants Datetime Models CashFlow EnhancedCashFlow.
Local Open Scope string_scope.
Local Open Scope list_scope.
Local Open Scope Z_scope.

(** How a call ends: with a value, with an exception of the base
    calculator, or with the [ZeroDivisionError] of a float division. *)
Inductive outcome (A : Type) : Type :=
| Returns (a : A)
| Raises (e : exn)
| RaisesZeroDivision.
Arguments Returns {A} a.
Arguments Raises {A} e.
Arguments RaisesZeroDivision {A}.

(** The dictionary [_get_comparison_metrics] returns. *)
Record Comparison : Type := mkComparison {
  base_avg_monthly_expenses : Q;
  enhanced_avg_monthly_expenses : Q;
  expense_increase_dollars : Q;
  expense_increase_percentage : Q;
  base_savings_rate : Q;
  enhanced_savings_rate : Q;
  savings_rate_change : Q
}.

(** The dictionary [get_enhanced_summary_metrics] returns. *)
Record Summary : Type := mkSummary {
  period : string;
  total_months : nat;
  avg_monthly_income : Q;
  avg_monthly_expenses : Q;
  avg_monthly_net_cash_flow : Q;
  avg_monthly_mortgage_interest : Q;
  overall_savings_rate : Q;
  overall_expense_ratio : Q;
  mortgage_percentage_of_expenses : Q;
  total_income : Z;
  total_expenses : Z;
  total_mortgage_interest : Z;
  comparison_with_base : option Comparison
}.

(** [sum(f(m) for m in metrics)] *)
Definition sum_metric (f : MonthlyMetrics -> Z) (metrics : list MonthlyMetrics)
  : Z :=
  fold_right (fun m acc => f m + acc) 0 metrics.

(** [a / n if n > 0 else 0], for a count [n]. *)
Definition per_month (a : Z) (n : nat) : Q :=
  if (0 <? n)%nat then (inject_Z a / inject_Z (Z.of_nat n))%Q else 0%Q.

(** [_get_comparison_metrics]; [None] is the empty dictionary.  The base
    summary always holds the key [avg_monthly_expenses], so the default 1
    of the [get] in the division is never used, and the division of two
    floats raises where the base average is zero. *)
Definition _get_comparison_metrics (transactions : list Transaction)
    (monthly_mortgage_interest : dict Z) : outcome (option Comparison) :=
  let base_summary := get_summary_metrics transactions in
  match calculate_enhanced_monthly_metrics transactions monthly_mortgage_interest with
  | Raise e => Raises e
  | Ok [] => Returns None
  | Ok enhanced_monthly =>
      let total_months := List.length enhanced_monthly in
      let total_income := sum_metric gross_income enhanced_monthly in
      let total_expenses := sum_metric true_expenses enhanced_monthly in
      let avg_monthly_expenses := per_month total_expenses total_months in
      let overall_savings_rate :=
        if 0 <? total_income
        then (inject_Z (total_income - total_expenses) / inject_Z total_income
              * 100)%Q
        else 0%Q in
      let base_avg := CashFlow.avg_monthly_expenses base_summary in
      if Qeq_bool base_avg 0 then RaisesZeroDivision
      else
        Returns (Some (mkComparison
          base_avg
          avg_monthly_expenses
          (avg_monthly_expenses - base_avg)%Q
          ((avg_monthly_expenses / base_avg - 1) * 100)%Q
          (CashFlow.overall_savings_rate base_summary)
          overall_savings_rate
          (overall_savings_rate - CashFlow.overall_savings_rate base_summary)%Q))
  end.

(** [get_enhanced_summary_metrics]; [None] is the empty dictionary. *)
Definition get_enhanced_summary_metrics (transactions : list Transaction)
    (monthly_mortgage_interest : dict Z) : outcome (option Summary) :=
  match calculate_enhanced_monthly_metrics transactions monthly_mortgage_interest with
  | Raise e => Raises e
  | Ok [] => Returns None
  | Ok (first :: rest) =>
      let enhanced_monthly := first :: rest in
      let total_months := List.length enhanced_monthly in
      let total_income := sum_metric gross_income enhanced_monthly in
      let total_expenses := sum_metric true_expenses enhanced_monthly in
      let total_net_flow := sum_metric net_cash_flow enhanced_monthly in
      let overall_savings_rate :=
        if 0 <? total_income
        then (inject_Z total_net_flow / inject_Z total_income * 100)%Q else 0%Q in
      let overall_expense_ratio :=
        if 0 <? total_income
        then (inject_Z total_expenses / inject_Z total_income * 100)%Q else 0%Q in
      let total_mortgage_interest :=
        fold_right (fun kv acc => snd kv + acc) 0 monthly_mortgage_interest in
      let mortgage_percentage_of_expenses :=
        if 0 <? total_expenses
        then (inject_Z total_mortgage_interest / inject_Z total_expenses * 100)%Q
        else 0%Q in
      match _get_comparison_metrics transactions monthly_mortgage_interest with
      | Raises e => Raises e
      | RaisesZeroDivision => RaisesZeroDivision
      | Returns comparison =>
          Returns (Some (mkSummary
            (append (month first)
               (append " to " (month (last rest first))))
            total_months
            (per_month total_income total_months)
            (per_month total_expenses total_months)
            (per_month total_net_flow total_months)
            (per_month total_mortgage_interest total_months)
            overall_savings_rate
            overall_expense_ratio
            mortgage_percentage_of_expenses
            total_income
            total_expenses
            total_mortgage_interest
            comparison))
      end
  end.

End EnhancedSummary.

(** ** The expense table ([src/core/constants.py], continued) *)

Module ExpenseConstants.
Local Open Scope string_scope.

Definition EXPENSE_CATEGORIES : list (string * list string) :=
  [
    ("Housing",
     ["RENT"; "MORTGAGE"; "HOA FEE"; "PROPERTY TAX"; "HOME.*INSURANCE"]);
    ("Utilities",
     ["ELECTRIC"; "GAS COMP"; "WATER"; "INTERNET"; "CABLE"; "TRASH"; "SEWER";
      "UTILITY"; "FIRSTENERGY.*OPCO"; "PUGET SOUND ENER"; "COMCAST";
      "VERIZON.*PAYMENTREC"]);
    ("Banking_Fees",
     ["NON-CHASE ATM FEE"; "ATM.*FEE"; "WIRE.*FEE"; "INCOMING.*WIRE.*FEE";
      "DOMESTIC.*WIRE.*FEE"; "INTERNATIONAL.*WIRE.*FEE"; "OVERDRAFT.*FEE";
      "MONTHLY.*SERVICE.*FEE"]);
    ("Insurance",
     ["INSURANCE"; "GEICO"; "STATE FARM"; "ALLSTATE"; "PROGRESSIVE";
      "LIBERTY MUTUAL"; "LEMONADE"]);
    ("Taxes",
     ["IRS.*USATAXPYMT"; "TAX.*PAYMENT"; "ESTIMATED.*TAX"; "FEDERAL.*TAX";
      "STATE.*TAX"; "TOWNSHIP.*TAX"; "TAX BILL"; "PROPERTY.*TAX";
      "NC DEPT REVENUE"; "STATE.*REVENUE.*TAX"]);
    ("Subscriptions",
     ["NETFLIX"; "SPOTIFY"; "AMAZON.*PRIME"; "APPLE\.COM.*BILL";
      "PAYPAL.*INST.*XFER.*APPLE\.COM"; "YOUTUBE"; "HULU"; "DISNEY\+"; "HBO";
      "ADOBE"; "MICROSOFT"; "SG\*V\*"; "PAYPAL.*INST.*XFER.*ECONOMISTNE"]);
    ("Business_Services",
     ["SAMMPLAT.*BILL PAY"; "REPUBLICSERVICES.*RSIBILLPAY";
      "BUSINESS.*SERVICE"; "PROFESSIONAL.*SERVICE"; "LINELEADER";
      "ANGELLIST.*PAYMENT"; "SHOPIFY.*PAYMENTS"]);
    ("Healthcare",
     ["CVS"; "WALGREENS"; "RITE AID"; "PHARMACY"; "MEDICAL"; "DENTAL";
      "DOCTOR"; "HOSPITAL"; "CLINIC"; "LABCORP"; "QUEST"; "PERIODONTICS"]);
    ("Groceries",
     ["SAFEWAY"; "WHOLE FOODS"; "TRADER JOE"; "KROGER"; "WALMART.*GROCERY";
      "TARGET.*GROCERY"; "COSTCO"; "SAMS CLUB"]);
    ("Dining",
     ["RESTAURANT"; "UBER.*EATS"; "DOORDASH"; "GRUBHUB"; "POSTMATES";
      "SEAMLESS"; "STARBUCKS"; "COFFEE"; "CAFE"; "PIZZA"; "MCDONALD"; "SUBWAY";
      "CHIPOTLE"]);
    ("Transportation",
     ["UBER(?!.*EATS)"; "LYFT"; "SHELL"; "CHEVRON"; "EXXON"; "BP"; "PARKING";
      "TOLL"; "PUBLIC TRANS"; "METRO"; "BUS"]);
    ("Shopping",
     ["AMAZON(?!.*PRIME)"; "TARGET(?!.*GROCERY)"; "WALMART(?!.*GROCERY)";
      "BEST BUY"; "HOME DEPOT"; "LOWES"; "IKEA"; "MACYS"; "NORDSTROM"]);
    ("Entertainment",
     ["MOVIE"; "THEATER"; "CONCERT"; "TICKETMASTER"; "STUBHUB"; "STEAM";
      "PLAYSTATION"; "XBOX"; "NINTENDO"]);
    ("Personal_Care",
     ["HAIRCUT"; "SALON"; "SPA"; "BARBER"; "NAILS"; "MASSAGE"]);
    ("Fitness",
     ["GYM"; "FITNESS"; "PLANET FITNESS"; "ANYTIME FITNESS"; "CROSSFIT";
      "YOGA"; "PILATES"]);
    ("Crypto_Purchases",
     ["COINBASE.*RTL"; "COINBASE.*BUY"; "CRYPTO.*PURCHASE"]);
    ("Education",
     ["TUITION"; "COURSE"; "UDEMY"; "COURSERA"; "BOOKS"; "SCHOOL"]);
    ("Government_Services",
     ["WA STATE DOL"; "STATE.*DMV"; "DMV"; "DEPARTMENT OF LICENSING";
      "GOVERNMENT.*FEE"; "STATE.*FEE"]);
    ("Pets",
     ["PETCO"; "PETSMART"; "VET"; "VETERINARY"; "PET.*FOOD"]);
    ("Large_Withdrawals",
     ["WITHDRAWAL.*\d{2}/\d{2}"; "CHECK.*\d{3,}"; "ATM WITHDRAWAL"]);
    ("Other_Expense",
     []) ].
End ExpenseConstants.

(** ** The transaction categorizer ([src/categorization/categorizer.py],
    continued)

    The categorizer calls two libraries.  Its tables and the custom rules
    of a configuration hold patterns of Python's [re] beyond the fragment
    of [Regex] (look-ahead, counted repetition), and merchants are matched
    with fuzzywuzzy.  Both are parameters of the model: [re_search p s] is
    the truth value of [re.search(p, s, re.IGNORECASE)], which is also that
    of [re.compile(p, re.IGNORECASE).search(s)], and [token_sort_ratio q c]
    is the score [process.extractOne] gives the choice [c] for the query
    [q] with the scorer [fuzz.token_sort_ratio]. *)

Module TransactionCategorizer.
Import Regex Constants Models FlowClassifier ExpenseConstants.
Local Open Scope string_scope.
Local Open Scope list_scope.
Local Open Scope Z_scope.

Definition set_subcategory (t : Transaction) (v : option string) : Transaction :=
  mkTransaction (date t) (description t) (amount t) (balance t) (type_ t)
    (flow_type t) (category t) v (confidence t)
    (has_pair t) (pair_id t) (user_verified t) (user_category t).

(** [CategorizationResult] as the categorizer builds it: the flow type is
    copied from the transaction, set or not. *)
Record Result : Type := mkResult {
  result_flow_type : option FlowType;
  result_category : string;
  result_subcategory : option string;
  result_confidence : Q;
  method : string;
  matched_pattern : option string
}.

(** A custom rule of the configuration: a dictionary with the optional keys
    [description_contains], [pattern], [category], [subcategory] and
    [confidence]. *)
Record Rule : Type := mkRule {
  description_contains : option string;
  pattern : option string;
  rule_category : option string;
  rule_subcategory : option string;
  rule_confidence : option Q
}.

(** The entries of [config['categorization']] the categorizer reads; a
    configuration without that section, or no configuration, has none of
    them. *)
Record Config : Type := mkConfig {
  fuzzy_match_threshold : option Z;
  custom_rules : option (list Rule);
  merchant_aliases : option (dict string)
}.

(** An entry of the merchant database. *)
Record Merchant : Type := mkMerchant {
  merchant_category : string;
  merchant_subcategory : option string;
  merchant_flow_type : FlowType
}.

(** [self.stats] *)
Record Stats : Type := mkStats {
  total : nat;
  categorized : nat;
  uncategorized : nat;
  by_method : dict nat
}.

Definition new_stats : Stats := mkStats 0 0 0 [].

(** [d.get(k)] *)
Fixpoint dict_lookup {V : Type} (d : dict V) (k : string) : option V :=
  match d with
  | [] => None
  | (k', v) :: r => if String.eqb k' k then Some v else dict_lookup r k
  end.

(** [needle in haystack] *)
Fixpoint contains (needle haystack : string) : bool :=
  (prefix needle haystack
   || match haystack with
      | EmptyString => false
      | String _ r => contains needle r
      end)%bool.

Definition merchant_mappings : dict Merchant :=
  [ ("WHOLE FOODS", mkMerchant "Groceries" None EXPENSE);
    ("TRADER JOES", mkMerchant "Groceries" None EXPENSE);
    ("SAFEWAY", mkMerchant "Groceries" None EXPENSE);
    ("KROGER", mkMerchant "Groceries" None EXPENSE);
    ("STARBUCKS", mkMerchant "Dining" (Some "Coffee") EXPENSE);
    ("CHIPOTLE", mkMerchant "Dining" (Some "Fast Food") EXPENSE);
    ("MCDONALDS", mkMerchant "Dining" (Some "Fast Food") EXPENSE);
    ("UBER EATS", mkMerchant "Dining" (Some "Delivery") EXPENSE);
    ("DOORDASH", mkMerchant "Dining" (Some "Delivery") EXPENSE);
    ("AMAZON", mkMerchant "Shopping" (Some "Online") EXPENSE);
    ("TARGET", mkMerchant "Shopping" (Some "General") EXPENSE);
    ("WALMART", mkMerchant "Shopping" (Some "General") EXPENSE);
    ("BEST BUY", mkMerchant "Shopping" (Some "Electronics") EXPENSE);
    ("SHELL", mkMerchant "Transportation" (Some "Gas") EXPENSE);
    ("CHEVRON", mkMerchant "Transportation" (Some "Gas") EXPENSE);
    ("UBER", mkMerchant "Transportation" (Some "Rideshare") EXPENSE);
    ("LYFT", mkMerchant "Transportation" (Some "Rideshare") EXPENSE);
    ("NETFLIX", mkMerchant "Subscriptions" (Some "Entertainment") EXPENSE);
    ("SPOTIFY", mkMerchant "Subscriptions" (Some "Music") EXPENSE);
    ("AMAZON PRIME", mkMerchant "Subscriptions" (Some "Shopping") EXPENSE) ].

(** One iteration of the alias loop of [_build_merchant_database]. *)
Definition add_alias (database : dict Merchant) (entry : string * string)
  : dict Merchant :=
  let (alias, standard) := entry in
  match dict_lookup merchant_mappings standard with
  | Some info => dict_set database alias info
  | None => database
  end.

(** [database.update(other)] *)
Definition dict_update {V : Type} (database other : dict V) : dict V :=
  fold_left (fun d kv => dict_set d (fst kv) (snd kv)) other database.

Definition _build_merchant_database (config : Config) : dict Merchant :=
  let database :=
    match merchant_aliases config with
    | Some aliases => fold_left add_alias aliases []
    | None => []
    end in
  dict_update database merchant_mappings.

Definition _load_custom_rules (config : Config) : list Rule :=
  match custom_rules config with
  | Some rules => rules
  | None => []
  end.

Definition _get_default_category (flow_type : option FlowType) : string :=
  match flow_type with
  | Some INCOME => "Other_Income"
  | Some EXPENSE => "Other_Expense"
  | Some INTERNAL_TRANSFER => "Other_Transfer"
  | Some EXCLUDED => "Other_Excluded"
  | None => "Unknown"
  end.

Definition _track_method (stats : Stats) (method : string) : Stats :=
  let counts :=
    if MortgageLoader.dict_has (by_method stats) method then by_method stats
    else dict_set (by_method stats) method 0%nat in
  mkStats (total stats) (categorized stats) (uncategorized stats)
    (dict_set counts method (dict_get counts method 0%nat + 1)%nat).

(** [self.patterns]: the table of a flow type. *)
Definition patterns (f : FlowType) : list (string * list string) :=
  match f with
  | INCOME => INCOME_CATEGORIES
  | EXPENSE => EXPENSE_CATEGORIES
  | INTERNAL_TRANSFER => INTERNAL_TRANSFER_CATEGORIES
  | EXCLUDED => EXCLUDED_CATEGORIES
  end.

(** The truth value of [transaction.user_verified and
    transaction.user_category]: the user's category, where the transaction
    is verified and the category is a string that is not empty. *)
Definition user_override (transaction : Transaction) : option string :=
  if user_verified transaction then
    match user_category transaction with
    | Some c => if String.eqb c "" then None else Some c
    | None => None
    end
  else None.

(** [max(best_list, key=lambda i: i[1])]: the first element of the highest
    score. *)
Definition max_by_score (best_list : list (string * Z)) : option (string * Z) :=
  match best_list with
  | [] => None
  | x :: r =>
      Some (fold_left (fun best y => if snd best <? snd y then y else best) r x)
  end.

Section Libraries.

Variable re_search : string -> string -> bool.
Variable token_sort_ratio : string -> string -> Z.

(** [process.extractOne(query, choices, scorer=fuzz.token_sort_ratio)]:
    the choices are scored in order, those below the default cutoff 0 are
    dropped, and the best of the rest is returned with its score; [None]
    where nothing is left. *)
Definition extractOne (query : string) (choices : list string)
  : option (string * Z) :=
  max_by_score
    (filter (fun cs => 0 <=? snd cs)
       (map (fun c => (c, token_sort_ratio query c)) choices)).

(** The two tests of one rule, in order; the result is the text that
    matched. *)
Definition rule_match (description : string) (rule : Rule) : option string :=
  match
    match description_contains rule with
    | Some s => if contains (upper s) description then Some s else None
    | None => None
    end
  with
  | Some s => Some s
  | None =>
      match pattern rule with
      | Some p => if re_search p description then Some p else None
      | None => None
      end
  end.

Fixpoint first_rule (rules : list Rule) (description : string)
  : option (Rule * string) :=
  match rules with
  | [] => None
  | rule :: rest =>
      match rule_match description rule with
      | Some matched => Some (rule, matched)
      | None => first_rule rest description
      end
  end.

(** The loop over the categories of a table and their patterns leaves with
    the first pattern found, in table order. *)
Fixpoint first_pattern (table : list (string * list string))
    (description : string) : option (string * string) :=
  match table with
  | [] => None
  | (category, pats) :: rest =>
      match find (fun p => re_search p description) pats with
      | Some p => Some (category, p)
      | None => first_pattern rest description
      end
  end.

Variable config : Config.

(** [__init__] *)
Definition merchant_database : dict Merchant := _build_merchant_database config.
Definition rules : list Rule := _load_custom_rules config.

Definition _check_custom_rules (transaction : Transaction) : option Result :=
  match first_rule rules (upper (description transaction)) with
  | Some (rule, matched) =>
      Some (mkResult (flow_type transaction)
              (match rule_category rule with Some c => c | None => "Custom" end)
              (rule_subcategory rule)
              (match rule_confidence rule with
               | Some c => c
               | None => CONFIDENCE_HIGH
               end)
              "custom_rule" (Some matched))
  | None => None
  end.

Definition _check_patterns (transaction : Transaction) : option Result :=
  match flow_type transaction with
  | None => None
  | Some f =>
      match first_pattern (patterns f) (upper (description transaction)) with
      | Some (category, p) =>
          Some (mkResult (flow_type transaction) category None CONFIDENCE_HIGH
                  "regex_pattern" (Some p))
      | None => None
      end
  end.

(** The best match is one of the keys of the database, so the lookup of
    its entry finds it; the last branch is never taken. *)
Definition _fuzzy_match_merchant (transaction : Transaction) : option Result :=
  match merchant_database with
  | [] => None
  | _ =>
      let threshold :=
        match fuzzy_match_threshold config with Some n => n | None => 85 end in
      let description := upper (description transaction) in
      match extractOne description (map fst merchant_database) with
      | Some (matched_merchant, score) =>
          if threshold <=? score then
            match dict_lookup merchant_database matched_merchant with
            | Some category_info =>
                Some (mkResult (flow_type transaction)
                        (merchant_category category_info)
                        (merchant_subcategory category_info)
                        (if 95 <=? score then CONFIDENCE_HIGH
                         else CONFIDENCE_MEDIUM)
                        "fuzzy_match" (Some matched_merchant))
            | None => None
            end
          else None
      | None => None
      end
  end.

Definition count_categorized (stats : Stats) : Stats :=
  mkStats (total stats) (categorized stats + 1) (uncategorized stats)
    (by_method stats).

(** [categorize]: the result and the statistics after the call. *)
Definition categorize (stats : Stats) (transaction : Transaction)
  : Result * Stats :=
  let stats := mkStats (total stats + 1) (categorized stats)
                 (uncategorized stats) (by_method stats) in
  match user_override transaction with
  | Some c =>
      (mkResult (flow_type transaction) c None 1 "user_override" None, stats)
  | None =>
      match _check_custom_rules transaction with
      | Some custom_result =>
          (custom_result, _track_method (count_categorized stats) "custom_rule")
      | None =>
          match _check_patterns transaction with
          | Some pattern_result =>
              (pattern_result,
               _track_method (count_categorized stats) "regex_pattern")
          | None =>
              match _fuzzy_match_merchant transaction with
              | Some fuzzy_result =>
                  (fuzzy_result,
                   _track_method (count_categorized stats) "fuzzy_match")
              | None =>
                  (mkResult (flow_type transaction)
                     (_get_default_category (flow_type transaction)) None
                     CONFIDENCE_LOW "default" None,
                   _track_method
                     (mkStats (total stats) (categorized stats)
                        (uncategorized stats + 1) (by_method stats))
                     "uncategorized")
              end
          end
      end
  end.

(** One iteration of the loop of [categorize_all]; a transaction without a
    flow type is skipped.  The category counts are only logged. *)
Definition categorize_step (state : store * Stats) (transaction : ref)
  : store * Stats :=
  let (h, stats) := state in
  match flow_type (h transaction) with
  | None => state
  | Some _ =>
      let (result, stats') := categorize stats (h transaction) in
      (update h transaction
         (set_confidence
            (set_subcategory
               (set_category (h transaction) (Some (result_category result)))
               (result_subcategory result))
            (result_confidence result)),
       stats')
  end.

(** [categorize_all]: the statistics start afresh. *)
Definition categorize_all (h : store) (transactions : list ref)
  : store * Stats :=
  fold_left categorize_step transactions (h, new_stats).

End Libraries.

End TransactionCategorizer.

(** ** Further notions and example data *)

Module MoreExamples.
Import Regex Constants Datetime Models FlowClassifier CashFlow EnhancedCashFlow
  Examples.
Local Open Scope string_scope.
Local Open Scope list_scope.
Local Open Scope Z_scope.

(** The fields no stage of the pipeline writes after the transaction is
    built, and the two the user sets. *)
Definition same_source (t t' : Transaction) : Prop :=
  date t' = date t
  /\ description t' = description t
  /\ amount t' = amount t
  /\ balance t' = balance t
  /\ type_ t' = type_ t
  /\ user_verified t' = user_verified t
  /\ user_category t' = user_category t.







(** The sum of a weight over the entries of a dictionary. *)
Definition weigh {V : Type} (w : string -> V -> Z) (d : dict V) : Z :=
  fold_right (fun kv acc => w (fst kv) (snd kv) + acc) 0 d.



(** The interest of the monthly payments of one month: the entries of the
    ledger that [get_monthly_interest_payments] counts. *)
Definition counts_as_interest (m : MortgageTransaction.t) : bool :=
  (String.eqb (MortgageTransaction.transaction_type m) "MONTHLY PAYMENT"
   && (0 <? MortgageTransaction.interest m))%bool.

Definition interest_of_month (ym : string) (ledger : list MortgageTransaction.t)
  : Z :=
  fold_right
    (fun m acc =>
       (if (counts_as_interest m
            && String.eqb (MortgageTransaction.year_month m) ym)%bool
        then MortgageTransaction.interest m else 0) + acc)
    0 ledger.

(** A ledger of three entries: two monthly payments in March 2024 and a
    principal payment. *)
Definition march_ledger : list MortgageTransaction.t :=
  [ MortgageTransaction.mk (mk_datetime 2024 3 1 0 0 0) "MONTHLY PAYMENT"
      250000 130000 120000 0 0 40000000 "PAYMENT Principal$1,300.00 Interest$1,200.00";
    MortgageTransaction.mk (mk_datetime 2024 3 15 0 0 0) "PRINCIPAL PAYMENT"
      100000 100000 0 0 0 39900000 "PRINCIPAL PAYMENT";
    MortgageTransaction.mk (mk_datetime 2024 4 1 0 0 0) "MONTHLY PAYMENT"
      250000 130500 119500 0 0 39769500 "PAYMENT Principal$1,305.00 Interest$1,195.00" ].

(** Month keys in strictly ascending order, neighbour by neighbour. *)
Fixpoint ascending (keys : list string) : Prop :=
  match keys with
  | a :: (b :: _) as rest => String.ltb a b = true /\ ascending rest
  | _ => True
  end.

(** The length of a month by the calendar of [datetime]: the days from its
    first to the first of the next month. *)
Definition calendar_days (y m : Z) : Z :=
  (if m =? 12 then toordinal (mk_datetime (y + 1) 1 1 0 0 0)
   else toordinal (mk_datetime y (m + 1) 1 0 0 0))
  - toordinal (mk_datetime y m 1 0 0 0).

Definition days_agree (y m : Z) : bool :=
  _get_days_in_month (strftime_Ym (mk_datetime y m 1 0 0 0)) =? calendar_days y m.

(** A dividend paid in through a brokerage: the description matches the
    income pattern [DIVIDEND] and the transfer pattern [VANGUARD]. *)
Definition dividend_store : store :=
  fun _ => new_Transaction (jan 10) "VANGUARD DIVIDEND PAYMENT" 12500 512500 "ACH_CREDIT".

(** A transfer to savings on the 15th and the matching credit on the 16th. *)
Definition savings_pair_store : store :=
  fun r =>
    match r with
    | O => new_Transaction (jan 15) "TRANSFER TO SAVINGS" (-10000) 50000 "DEBIT"
    | _ => new_Transaction (jan 16) "ACCOUNT MOVE B" 10000 60000 "CREDIT"
    end.

(** [sum(d.values())], for amounts. *)
Definition sum_of_values (d : dict Z) : Z :=
  fold_right (fun kv acc => snd kv + acc) 0 d.

(** The interest of all the entries of a ledger that
    [get_monthly_interest_payments] counts. *)
Definition interest_of_ledger (ledger : list MortgageTransaction.t) : Z :=
  fold_right
    (fun m acc =>
       (if counts_as_interest m then MortgageTransaction.interest m else 0)
       + acc)
    0 ledger.

(** A ledger with monthly payments in February and March 2024. *)
Definition winter_ledger : list MortgageTransaction.t :=
  [ MortgageTransaction.mk (mk_datetime 2024 2 1 0 0 0) "MONTHLY PAYMENT"
      250000 129500 120500 0 0 40130000 "PAYMENT Principal$1,295.00 Interest$1,205.00";
    MortgageTransaction.mk (mk_datetime 2024 3 1 0 0 0) "MONTHLY PAYMENT"
      250000 130000 120000 0 0 40000000 "PAYMENT Principal$1,300.00 Interest$1,200.00" ].

End MoreExamples.

(** ** Notions and example data for the categorizer *)

Module CategorizerNotions.
Import Regex Constants Datetime Models FlowClassifier TransactionCategorizer
  Examples.
Local Open Scope string_scope.
Local Open Scope list_scope.
Local Open Scope Z_scope.

(** The three fields [categorize_all] writes from a result. *)
Definition with_result (t : Transaction) (r : Result) : Transaction :=
  set_confidence
    (set_subcategory (set_category t (Some (result_category r)))
       (result_subcategory r))
    (result_confidence r).

(** What the categorizer reads of a transaction. *)
Definition reads_alike (t t' : Transaction) : Prop :=
  description t' = description t
  /\ flow_type t' = flow_type t
  /\ user_verified t' = user_verified t
  /\ user_category t' = user_category t.

(** What the categorizer leaves as classified and paired. *)
Definition same_classification (t t' : Transaction) : Prop :=
  flow_type t' = flow_type t
  /\ has_pair t' = has_pair t
  /\ pair_id t' = pair_id t.

Definition has_flow_type (t : Transaction) : bool :=
  match flow_type t with
  | Some _ => true
  | None => false
  end.

Definition has_user_category (t : Transaction) : bool :=
  match user_override t with
  | Some _ => true
  | None => false
  end.

(** [sum(d.values())] *)
Definition sum_values (d : dict nat) : nat :=
  fold_right (fun kv acc => (snd kv + acc)%nat) 0%nat d.

(** A configuration with a threshold, one rule and three aliases: one for
    a standard merchant, one that takes the name of a standard merchant,
    and one whose standard name is unknown. *)
Definition coffee_config : Config :=
  mkConfig (Some 90)
    (Some [mkRule (Some "coffee") None (Some "Dining") (Some "Coffee") None])
    (Some [("SBUX", "STARBUCKS"); ("AMAZON", "SPOTIFY");
           ("CORNER SHOP", "NOWHERE")]).

(** Instances of the two library functions for the examples: patterns of
    the fragment of [Regex], and a scorer that knows equal strings only. *)
Definition fragment_search (p s : string) : bool := search (compile p) s.

Definition equal_score (q c : string) : Z := if String.eqb q c then 100 else 0.

(** A verified purchase with a category of the user, a coffee, a payment
    no table knows, and transactions nobody has classified. *)
Definition reviewed_store : store :=
  fun r =>
    match r with
    | O =>
        mkTransaction (jan 5) "WHOLE FOODS MARKET" (-8550) 291450 "DEBIT_CARD"
          (Some EXPENSE) (Some "Uncategorized_Expense") None CONFIDENCE_HIGH
          false None true (Some "Household")
    | S O =>
        mkTransaction (jan 6) "Corner Coffee Bar" (-450) 291000 "DEBIT_CARD"
          (Some EXPENSE) (Some "Uncategorized_Expense") None CONFIDENCE_HIGH
          false None false None
    | S (S O) =>
        mkTransaction (jan 7) "QX 4471" (-1200) 289800 "ACH_DEBIT"
          (Some EXPENSE) (Some "Uncategorized_Expense") None CONFIDENCE_HIGH
          false None false None
    | _ => new_Transaction (jan 8) "STARBUCKS" (-500) 289300 "DEBIT_CARD"
    end.

End CategorizerNotions.

(** * Properties *)

Import Regex Constants Datetime Models FlowClassifier Categorizer CashFlow
  EnhancedCashFlow Notions Examples.
Local Open Scope string_scope.
Local Open Scope list_scope.
Local Open Scope Z_scope.

(** ** The store *)

Lemma update_same (h : store) (r : ref) (t : Transaction) :
  update h r t r = t.
Proof. unfold update. now rewrite Nat.eqb_refl. Qed.

Lemma update_other (h : store) (r r' : ref) (t : Transaction) :
  r' <> r -> update h r t r' = h r'.
Proof.
  intros Hne. unfold update.
  destruct (Nat.eqb_spec r' r) as [E | _]; [contradiction | reflexivity].
Qed.

(** ** What the classifier writes

    Pair matching writes [has_pair] and [pair_id], of two objects, and
    nothing else. *)

Lemma marks_only_refl (h : store) : marks_only h h.
Proof. intros r. now destruct (h r). Qed.

Lemma marks_only_trans (h1 h2 h3 : store) :
  marks_only h1 h2 -> marks_only h2 h3 -> marks_only h1 h3.
Proof.
  intros H12 H23 r. rewrite (H23 r) at 1. rewrite (H12 r) at 1.
  now destruct (h1 r).
Qed.

Lemma marks_only_update (h : store) (r : ref) (b : bool) (p : option (datetime * Z)) :
  marks_only h (update h r (set_pair_id (set_has_pair (h r) b) p)).
Proof.
  intros r'. destruct (Nat.eq_dec r' r) as [-> | Hne].
  - rewrite update_same. now destruct (h r).
  - rewrite (update_other _ _ _ _ Hne). now destruct (h r').
Qed.

Lemma mark_pair_marks_only (h : store) (t o : ref) :
  marks_only h (mark_pair h t o).
Proof.
  unfold mark_pair.
  eapply marks_only_trans; [apply marks_only_update |].
  apply marks_only_update.
Qed.

Lemma find_transfer_pair_marks_only (all : list ref) (h : store) (t : ref) :
  marks_only h (snd (_find_transfer_pair all h t)).
Proof.
  unfold _find_transfer_pair.
  destruct (find (is_candidate h t) all); cbn [snd].
  - apply mark_pair_marks_only.
  - apply marks_only_refl.
Qed.

Lemma check_internal_transfer_marks_only (all : list ref) (h : store) (t : ref) :
  marks_only h (snd (_check_internal_transfer all h t)).
Proof.
  unfold _check_internal_transfer.
  pose proof (find_transfer_pair_marks_only all h t) as Hm.
  destruct (_find_transfer_pair all h t) as [pair h']. cbn [snd] in Hm.
  destruct (first_match transfer_patterns _); destruct pair; exact Hm.
Qed.

Lemma classify_marks_only (all : list ref) (h : store) (t : ref) :
  marks_only h (snd (classify all h t)).
Proof.
  unfold classify.
  destruct (_is_excluded (h t)); [apply marks_only_refl |].
  destruct (if 0 <? amount (h t) then _check_income_patterns (h t) else None);
    [apply marks_only_refl |].
  pose proof (check_internal_transfer_marks_only all h t) as Hm.
  destruct (_check_internal_transfer all h t) as [res h']. cbn [snd] in Hm.
  destruct res; [exact Hm |].
  destruct (0 <? amount (h' t)); exact Hm.
Qed.

(** The fields pair matching leaves alone. *)
Lemma marks_only_fields (h h' : store) (r : ref) :
  marks_only h h' ->
  flow_type (h' r) = flow_type (h r)
  /\ category (h' r) = category (h r)
  /\ confidence (h' r) = confidence (h r)
  /\ user_verified (h' r) = user_verified (h r)
  /\ amount (h' r) = amount (h r)
  /\ date (h' r) = date (h r)
  /\ description (h' r) = description (h r).
Proof. intros Hm. rewrite (Hm r). now destruct (h r). Qed.

(** The result [classify] returns carries one of the two automatic
    confidence levels. *)
Lemma classify_confidence (all : list ref) (h : store) (t : ref) :
  let c := CategorizationResult.confidence (fst (classify all h t)) in
  c = CONFIDENCE_HIGH \/ c = CONFIDENCE_MEDIUM.
Proof.
  unfold classify.
  destruct (_is_excluded (h t)); [now left |].
  destruct (0 <? amount (h t)).
  - unfold _check_income_patterns.
    destruct (first_match (_compile_patterns INCOME_CATEGORIES) _); [now left |].
    unfold _check_internal_transfer.
    destruct (_find_transfer_pair all h t) as [pair h'].
    destruct (first_match transfer_patterns _); destruct pair; cbn;
      try (now left); try (now right).
    destruct (0 <? amount (h' t)); now left.
  - unfold _check_internal_transfer.
    destruct (_find_transfer_pair all h t) as [pair h'].
    destruct (first_match transfer_patterns _); destruct pair; cbn;
      try (now left); try (now right).
    destruct (0 <? amount (h' t)); now left.
Qed.

(** One iteration of [classify_all] writes the result into the transaction
    it classifies, and only marks among the others. *)
Lemma classify_step_self (all : list ref) (h : store) (t : ref) :
  let res := fst (classify all h t) in
  let t' := classify_step all h t t in
  flow_type t' = Some (CategorizationResult.flow_type res)
  /\ category t' = Some (CategorizationResult.category res)
  /\ confidence t' = CategorizationResult.confidence res
  /\ user_verified t' = user_verified (h t).
Proof.
  unfold classify_step.
  pose proof (classify_marks_only all h t) as Hm.
  destruct (classify all h t) as [res h1]. cbn [fst snd] in *.
  rewrite update_same.
  destruct (marks_only_fields h h1 t Hm) as (_ & _ & _ & Hu & _).
  rewrite <- Hu. now destruct (h1 t).
Qed.

Lemma classify_step_other (all : list ref) (h : store) (t r : ref) :
  r <> t ->
  flow_type (classify_step all h t r) = flow_type (h r)
  /\ category (classify_step all h t r) = category (h r)
  /\ confidence (classify_step all h t r) = confidence (h r)
  /\ user_verified (classify_step all h t r) = user_verified (h r).
Proof.
  intros Hne. unfold classify_step.
  pose proof (classify_marks_only all h t) as Hm.
  destruct (classify all h t) as [res h1]. cbn [snd] in Hm.
  rewrite (update_other _ _ _ _ Hne).
  destruct (marks_only_fields h h1 r Hm) as (H1 & H2 & H3 & H4 & _).
  now rewrite H1, H2, H3, H4.
Qed.

Lemma classify_step_user_verified (all : list ref) (h : store) (t r : ref) :
  user_verified (classify_step all h t r) = user_verified (h r).
Proof.
  destruct (Nat.eq_dec r t) as [-> | Hne].
  - apply (classify_step_self all h t).
  - apply (classify_step_other all h t r Hne).
Qed.

(** A run of iterations over transactions other than [r] leaves the
    classification of [r] as it was. *)
Lemma classify_steps_other (all l : list ref) (h : store) (r : ref) :
  ~ In r l ->
  let h' := fold_left (classify_step all) l h in
  flow_type (h' r) = flow_type (h r)
  /\ category (h' r) = category (h r)
  /\ confidence (h' r) = confidence (h r).
Proof.
  revert h. induction l as [| t l IH]; intros h Hnin; cbn.
  - auto.
  - assert (Hne : r <> t) by (intros ->; apply Hnin; now left).
    assert (Hnin' : ~ In r l) by (intros Hin; apply Hnin; now right).
    destruct (IH (classify_step all h t) Hnin') as (H1 & H2 & H3).
    destruct (classify_step_other all h t r Hne) as (K1 & K2 & K3 & _).
    cbn in H1, H2, H3. rewrite H1, H2, H3. auto.
Qed.

Lemma classify_steps_user_verified (all l : list ref) (h : store) (r : ref) :
  user_verified (fold_left (classify_step all) l h r) = user_verified (h r).
Proof.
  revert h. induction l as [| t l IH]; intros h; cbn; [reflexivity |].
  rewrite IH. apply classify_step_user_verified.
Qed.

(** The last occurrence of a member of a list. *)
Lemma in_split_last (r : ref) (l : list ref) :
  In r l -> exists l1 l2, l = l1 ++ r :: l2 /\ ~ In r l2.
Proof.
  induction l as [| x l IH]; intros Hin; [destruct Hin |].
  destruct (in_dec Nat.eq_dec r l) as [Hl | Hl].
  - destruct (IH Hl) as (l1 & l2 & -> & Hn).
    exists (x :: l1), l2. split; [reflexivity | exact Hn].
  - destruct Hin as [-> | Hin]; [| contradiction].
    exists [], l. split; [reflexivity | exact Hl].
Qed.

(** What [classify_all] leaves in a transaction of the batch is the result
    [classify] gave at its (last) turn. *)
Lemma classify_all_assigns (h : store) (l1 l2 : list ref) (r : ref) :
  ~ In r l2 ->
  let ts := l1 ++ r :: l2 in
  let res := fst (classify ts (fold_left (classify_step ts) l1 h) r) in
  flow_type (classify_all h ts r) = Some (CategorizationResult.flow_type res)
  /\ category (classify_all h ts r) = Some (CategorizationResult.category res)
  /\ confidence (classify_all h ts r) = CategorizationResult.confidence res.
Proof.
  intros Hnin ts res. unfold classify_all.
  change (fold_left (classify_step ts) ts h)
    with (fold_left (classify_step ts) (l1 ++ r :: l2) h).
  rewrite fold_left_app. cbn [fold_left].
  set (hk := fold_left (classify_step ts) l1 h) in *.
  destruct (classify_steps_other ts l2 (classify_step ts hk r) r Hnin)
    as (H1 & H2 & H3).
  cbn in H1, H2, H3. rewrite H1, H2, H3.
  destruct (classify_step_self ts hk r) as (K1 & K2 & K3 & _).
  auto.
Qed.

(** ** The repository's tests, on the model *)

(** [test_basic_cash_flow_formula] *)
Example basic_cash_flow_formula :
  let summary := get_summary_metrics basic_formula_transactions in
  total_income summary = 500000
  /\ total_expenses summary = 200000
  /\ total_net_cash_flow summary = 300000
  /\ total_transfers_out summary = 100000
  /\ total_excluded summary = 50000.
Proof. vm_compute. repeat split; reflexivity. Qed.

(** [test_monthly_metrics_calculation] *)
Example monthly_metrics_calculation :
  exists jan_metrics feb_metrics : MonthlyMetrics,
    calculate_monthly_metrics two_months = Ok [jan_metrics; feb_metrics]
    /\ month jan_metrics = "2024-01"
    /\ gross_income jan_metrics = 400000
    /\ true_expenses jan_metrics = 150000
    /\ net_cash_flow jan_metrics = 250000
    /\ internal_transfers_out jan_metrics = 100000
    /\ month feb_metrics = "2024-02"
    /\ gross_income feb_metrics = 450000
    /\ true_expenses feb_metrics = 180000
    /\ net_cash_flow feb_metrics = 270000.
Proof.
  do 2 eexists. split; [vm_compute; reflexivity |].
  vm_compute. repeat split; reflexivity.
Qed.

(** [test_classification_priority] *)
Example classification_priority :
  CategorizationResult.flow_type (fst (classify [] ambiguous_store 0%nat))
  = EXCLUDED.
Proof. vm_compute. reflexivity. Qed.

(** [test_transfer_pair_detection]: the first transaction is classified a
    transfer and both are marked; the second, found marked, gets no pair
    of its own and falls through to the sign of its amount, where the test
    expects a transfer. *)
Example transfer_pair_detection :
  let batch := [0; 1]%nat in
  let (result1, h1) := classify batch transfer_pair_store 0%nat in
  let (result2, h2) := classify batch h1 1%nat in
  CategorizationResult.flow_type result1 = INTERNAL_TRANSFER
  /\ has_pair (h2 0%nat) = true
  /\ has_pair (h2 1%nat) = true
  /\ CategorizationResult.flow_type result2 = INCOME
  /\ CategorizationResult.method result2 = "amount_positive".
Proof. vm_compute. repeat split; reflexivity. Qed.

(** ** Classification is total *)

(** C2. After [classify_all], every transaction of the batch has its
    [flow_type] set, to one of the four values of [FlowType]; none is left
    at [None]. *)
Theorem classify_all_total (h : store) (transactions : list ref) (r : ref) :
  In r transactions ->
  exists f : FlowType, flow_type (classify_all h transactions r) = Some f.
Proof.
  intros Hin.
  destruct (in_split_last r transactions Hin) as (l1 & l2 & -> & Hnin).
  destruct (classify_all_assigns h l1 l2 r Hnin) as (Hf & _).
  eexists. exact Hf.
Qed.

Lemma classify_all_total_witness :
  exists f : FlowType,
    flow_type (classify_all three_way [0; 1; 2]%nat 2%nat) = Some f.
Proof.
  apply (classify_all_total three_way [0; 1; 2]%nat 2%nat).
  cbn. right. right. left. reflexivity.
Defined.

(** ** EXCLUDED has priority *)

Lemma first_match_found (table : list (string * list pattern))
    (description : string) (category : string) (patterns : list pattern)
    (p : pattern) :
  In (category, patterns) table -> In p patterns ->
  search p description = true ->
  exists c, first_match table description = Some c.
Proof.
  intros Hin Hp Hs.
  induction table as [| [c ps] rest IH]; [destruct Hin |].
  cbn [first_match].
  destruct (existsb (fun q => search q description) ps) eqn:E;
    [eexists; reflexivity |].
  destruct Hin as [Heq | Hin]; [| exact (IH Hin)].
  inversion Heq; subst.
  assert (existsb (fun q => search q description) patterns = true) as E'
    by (apply existsb_exists; exists p; auto).
  congruence.
Qed.

(** C6. A transaction whose description matches one of the EXCLUDED
    patterns is classified EXCLUDED with confidence 0.9, whatever its
    amount, whatever else its description matches and whatever the batch
    holds; no pair matching is attempted, so the store is left as it was. *)
Theorem excluded_pattern_wins (all_transactions : list ref) (h : store)
    (transaction : ref) (category : string) (patterns : list pattern)
    (p : pattern) :
  In (category, patterns) excluded_patterns ->
  In p patterns ->
  search p (upper (description (h transaction))) = true ->
  let res := fst (classify all_transactions h transaction) in
  CategorizationResult.flow_type res = EXCLUDED
  /\ CategorizationResult.confidence res = 9 # 10
  /\ snd (classify all_transactions h transaction) = h.
Proof.
  intros Hin Hp Hs.
  destruct (first_match_found _ _ _ _ _ Hin Hp Hs) as [c Hc].
  unfold classify, _is_excluded. rewrite Hc. cbn. auto.
Qed.

Lemma excluded_pattern_wins_witness :
  let res := fst (classify [0; 1]%nat ambiguous_store 0%nat) in
  CategorizationResult.flow_type res = EXCLUDED
  /\ CategorizationResult.confidence res = 9 # 10
  /\ snd (classify [0; 1]%nat ambiguous_store 0%nat) = ambiguous_store.
Proof.
  apply (excluded_pattern_wins [0; 1]%nat ambiguous_store 0%nat
           "Credit_Card_Payment"
           (map compile (snd (hd ("", []) EXCLUDED_CATEGORIES)))
           (compile "CHASE CARD.*PAYMENT")).
  - left. reflexivity.
  - left. reflexivity.
  - vm_compute. reflexivity.
Defined.

(** ** Pair matching *)

(** A found pair is marked on both sides; the partner is another
    transaction of the batch and was not marked before. *)
Lemma find_transfer_pair_marks_both (all_transactions : list ref) (h h' : store)
    (transaction other : ref) :
  _find_transfer_pair all_transactions h transaction = (Some other, h') ->
  In other all_transactions
  /\ other <> transaction
  /\ has_pair (h other) = false
  /\ has_pair (h' transaction) = true
  /\ has_pair (h' other) = true.
Proof.
  unfold _find_transfer_pair.
  destruct (find (is_candidate h transaction) all_transactions) as [o |] eqn:F;
    [| discriminate].
  intros Heq. inversion Heq; subst o h'. clear Heq.
  apply find_some in F. destruct F as [Hin Hc].
  unfold is_candidate in Hc.
  apply andb_prop in Hc. destruct Hc as [Hc _].
  apply andb_prop in Hc. destruct Hc as [Hc _].
  apply andb_prop in Hc. destruct Hc as [Hne Hnp].
  apply negb_true_iff in Hne. apply Nat.eqb_neq in Hne.
  apply negb_true_iff in Hnp.
  repeat split; try assumption.
  - unfold mark_pair. rewrite update_other by congruence.
    rewrite update_same. reflexivity.
  - unfold mark_pair. rewrite update_same. reflexivity.
Qed.

(** The scan never asks whether the transaction it is called for is itself
    already paired: its own [has_pair] plays no part in the choice. *)
Lemma is_candidate_ignores_own_mark (h : store) (transaction other : ref)
    (b : bool) :
  other <> transaction ->
  is_candidate (update h transaction (set_has_pair (h transaction) b))
    transaction other
  = is_candidate h transaction other.
Proof.
  intros Hne. unfold is_candidate.
  rewrite update_same, (update_other _ _ _ _ Hne).
  now destruct (h transaction).
Qed.

(** C4. On the batch [three_way], the first iteration pairs A (15th, out)
    with B (16th, in) and marks both.  The second iteration, for B, which
    is marked and linked to A, pairs B again, with C (17th, out): at the
    end B and C are linked to each other, A is still linked to B, and B has
    taken part in two pairs. *)
Theorem paired_transaction_is_paired_again :
  let batch := [0; 1; 2]%nat in
  let A := three_way 0%nat in
  let B := three_way 1%nat in
  let C := three_way 2%nat in
  let h1 := classify_step batch three_way 0%nat in
  let h3 := classify_all three_way batch in
  fst (_find_transfer_pair batch three_way 0%nat) = Some 1%nat
  /\ has_pair (h1 0%nat) = true
  /\ has_pair (h1 1%nat) = true
  /\ pair_id (h1 1%nat) = Some (date A, amount A)
  /\ fst (_find_transfer_pair batch h1 1%nat) = Some 2%nat
  /\ pair_id (h3 0%nat) = Some (date B, amount B)
  /\ pair_id (h3 1%nat) = Some (date C, amount C)
  /\ pair_id (h3 2%nat) = Some (date B, amount B)
  /\ flow_type (h3 1%nat) = Some INTERNAL_TRANSFER
  /\ flow_type (h3 2%nat) = Some EXPENSE.
Proof. vm_compute. repeat split; reflexivity. Qed.

(** ** Manual override and the automatic pass *)

(** C5, as stated, fails: a transfer to savings the user has reclassified
    as an expense is a transfer again, with confidence 0.7, after
    [classify_all]. *)
Lemma reclassified_is_overwritten :
  let h1 := reclassify_transaction savings_store 0%nat EXPENSE in
  let h2 := classify_all h1 [0%nat] in
  user_verified (h1 0%nat) = true
  /\ flow_type (h1 0%nat) = Some EXPENSE
  /\ category (h1 0%nat) = None
  /\ confidence (h1 0%nat) = 1%Q
  /\ flow_type (h2 0%nat) = Some INTERNAL_TRANSFER
  /\ category (h2 0%nat) = Some "To_Savings"
  /\ confidence (h2 0%nat) = 7 # 10
  /\ flow_type (h2 0%nat) <> flow_type (h1 0%nat)
  /\ ~ (confidence (h2 0%nat) == confidence (h1 0%nat))%Q.
Proof.
  vm_compute. repeat split; try reflexivity; discriminate.
Qed.

(** C5, amended. [classify_all] does not consult [user_verified].  For a
    reclassified transaction of the batch it leaves [user_verified] true
    and overwrites [flow_type], [category] and [confidence] with the result
    [classify] gives at the transaction's last turn in the batch; the
    confidence is then 0.9 or 0.7, no longer 1.0. *)
Theorem classify_all_overwrites_reclassified (h0 : store)
    (transactions : list ref) (r : ref) (new_flow_type : FlowType) :
  In r transactions ->
  let h := reclassify_transaction h0 r new_flow_type in
  let h' := classify_all h transactions in
  user_verified (h' r) = true
  /\ (confidence (h' r) = CONFIDENCE_HIGH \/ confidence (h' r) = CONFIDENCE_MEDIUM)
  /\ exists l1 l2,
       transactions = l1 ++ r :: l2 /\ ~ In r l2
       /\ let res := fst (classify transactions
                            (fold_left (classify_step transactions) l1 h) r) in
          flow_type (h' r) = Some (CategorizationResult.flow_type res)
          /\ category (h' r) = Some (CategorizationResult.category res)
          /\ confidence (h' r) = CategorizationResult.confidence res.
Proof.
  intros Hin h h'.
  destruct (in_split_last r transactions Hin) as (l1 & l2 & E & Hnin).
  pose proof (classify_all_assigns h l1 l2 r Hnin) as Ha.
  cbn zeta in Ha. rewrite <- E in Ha. fold h' in Ha.
  destruct Ha as (Hf & Hc & Hq).
  split; [| split].
  - unfold h', classify_all. rewrite classify_steps_user_verified.
    unfold h, reclassify_transaction. rewrite update_same. reflexivity.
  - rewrite Hq. apply classify_confidence.
  - exists l1, l2. cbn zeta. auto.
Qed.

Lemma classify_all_overwrites_reclassified_witness :
  let h := reclassify_transaction savings_store 0%nat EXPENSE in
  let h' := classify_all h [0%nat] in
  user_verified (h' 0%nat) = true
  /\ (confidence (h' 0%nat) = CONFIDENCE_HIGH
      \/ confidence (h' 0%nat) = CONFIDENCE_MEDIUM)
  /\ exists l1 l2,
       [0%nat] = l1 ++ 0%nat :: l2 /\ ~ In 0%nat l2
       /\ let res := fst (classify [0%nat]
                            (fold_left (classify_step [0%nat]) l1 h) 0%nat) in
          flow_type (h' 0%nat) = Some (CategorizationResult.flow_type res)
          /\ category (h' 0%nat) = Some (CategorizationResult.category res)
          /\ confidence (h' 0%nat) = CategorizationResult.confidence res.
Proof.
  apply (classify_all_overwrites_reclassified savings_store [0%nat] 0%nat EXPENSE).
  left. reflexivity.
Defined.

(** ** Low-confidence transactions *)

Lemma Qltb_lt (x y : Q) : Qltb x y = true <-> (x < y)%Q.
Proof.
  unfold Qltb. rewrite negb_true_iff. split.
  - intros H. apply Qnot_le_lt. intros Hle.
    apply Qle_bool_iff in Hle. congruence.
  - intros H. destruct (Qle_bool y x) eqn:E; [| reflexivity].
    apply Qle_bool_iff in E. exfalso. exact (Qlt_not_le _ _ H E).
Qed.

(** C9, as stated, fails: a transaction whose confidence is exactly the
    threshold is not returned. *)
Lemma confidence_at_threshold_not_returned :
  let t := with_confidence (7 # 10) in
  (confidence t <= 7 # 10)%Q
  /\ get_low_confidence_transactions
       [with_confidence (5 # 10); t; with_confidence (9 # 10)] (7 # 10)
     = [with_confidence (5 # 10)]
  /\ ~ In t (get_low_confidence_transactions
               [with_confidence (5 # 10); t; with_confidence (9 # 10)] (7 # 10)).
Proof.
  cbn zeta. split; [| split].
  - vm_compute. discriminate.
  - reflexivity.
  - vm_compute. intros [H | []]. discriminate H.
Qed.

(** C9, amended. [get_low_confidence_transactions] returns exactly the
    transactions whose confidence is strictly below the threshold; one
    whose confidence equals the threshold is left out. *)
Theorem low_confidence_is_strictly_below (transactions : list Transaction)
    (threshold : Q) (t : Transaction) :
  (In t (get_low_confidence_transactions transactions threshold)
   <-> In t transactions /\ (confidence t < threshold)%Q)
  /\ ((confidence t == threshold)%Q ->
      ~ In t (get_low_confidence_transactions transactions threshold)).
Proof.
  assert (Hiff : In t (get_low_confidence_transactions transactions threshold)
                 <-> In t transactions /\ (confidence t < threshold)%Q).
  { unfold get_low_confidence_transactions.
    rewrite filter_In, Qltb_lt. reflexivity. }
  split; [exact Hiff |].
  intros Heq Hin. apply Hiff in Hin. destruct Hin as [_ Hlt].
  rewrite Heq in Hlt. exact (Qlt_irrefl _ Hlt).
Qed.

Lemma low_confidence_is_strictly_below_witness :
  ~ In (with_confidence (7 # 10))
      (get_low_confidence_transactions
         [with_confidence (5 # 10); with_confidence (7 # 10)] (7 # 10)).
Proof.
  apply (low_confidence_is_strictly_below
           [with_confidence (5 # 10); with_confidence (7 # 10)] (7 # 10)
           (with_confidence (7 # 10))).
  reflexivity.
Defined.

(** ** The monthly formula *)

(** Every [MonthlyMetrics] the calculator builds has
    [net_cash_flow = gross_income - true_expenses], with the income the sum
    of the INCOME amounts and the expenses the absolute value of the sum of
    the EXPENSE amounts. *)
Lemma month_metrics_formula (month_df : list Transaction) (ym : string)
    (m : MonthlyMetrics) :
  _calculate_month_metrics month_df ym = Ok m ->
  month m = ym
  /\ net_cash_flow m = gross_income m - true_expenses m
  /\ gross_income m = sum_amounts (filter (has_flow INCOME) month_df)
  /\ true_expenses m = Z.abs (sum_amounts (filter (has_flow EXPENSE) month_df))
  /\ calculated_change m = sum_amounts month_df.
Proof.
  unfold _calculate_month_metrics.
  destruct (existsb (fun _ => true) month_df
            && existsb (fun t => negb (balance t =? 0)) month_df);
    [| discriminate].
  intros H. inversion H. cbn. auto.
Qed.

Lemma sum_amounts_cons (t : Transaction) (df : list Transaction) :
  sum_amounts (t :: df) = amount t + sum_amounts df.
Proof. reflexivity. Qed.

Lemma sum_abs_amounts_cons (t : Transaction) (df : list Transaction) :
  sum_abs_amounts (t :: df) = Z.abs (amount t) + sum_abs_amounts df.
Proof. reflexivity. Qed.



Lemma outside_formula_masks (x : Transaction) :
  outside_formula x ->
  has_flow INCOME x = false /\ has_flow EXPENSE x = false.
Proof. unfold has_flow. intros [-> | ->]; split; reflexivity. Qed.

Lemma filter_without {A : Type} (f : A -> bool) (l1 l2 : list A) (x : A) :
  f x = false -> filter f (l1 ++ x :: l2) = filter f (l1 ++ l2).
Proof.
  intros Hx. rewrite !filter_app. cbn [filter]. now rewrite Hx.
Qed.

(** The month's net cash flow does not see a transfer or an excluded
    payment added to, or taken from, the month's rows. *)
Lemma month_net_ignores_transfers (l1 l2 : list Transaction) (x : Transaction)
    (ym : string) (m m' : MonthlyMetrics) :
  outside_formula x ->
  _calculate_month_metrics (l1 ++ x :: l2) ym = Ok m ->
  _calculate_month_metrics (l1 ++ l2) ym = Ok m' ->
  net_cash_flow m = net_cash_flow m'
  /\ gross_income m = gross_income m'
  /\ true_expenses m = true_expenses m'.
Proof.
  intros Hx Hm Hm'.
  destruct (outside_formula_masks x Hx) as [Hi He].
  destruct (month_metrics_formula _ _ _ Hm) as (_ & Hn & Hg & Ht & _).
  destruct (month_metrics_formula _ _ _ Hm') as (_ & Hn' & Hg' & Ht' & _).
  rewrite (filter_without _ _ _ _ Hi) in Hg.
  rewrite (filter_without _ _ _ _ He) in Ht.
  lia.
Qed.

(** The totals of [get_summary_metrics]. *)
Lemma summary_totals (l : list Transaction) (acc : Totals) :
  let r := fold_left add_to_totals l acc in
  acc_income r = acc_income acc + sum_amounts (filter (has_flow INCOME) l)
  /\ acc_expenses r
     = acc_expenses acc + sum_abs_amounts (filter (has_flow EXPENSE) l).
Proof.
  revert acc. induction l as [| t l IH]; intros acc; [cbn; lia |].
  cbn [fold_left filter]. cbn zeta.
  destruct (IH (add_to_totals acc t)) as [H1 H2]. cbn zeta in H1, H2.
  rewrite H1, H2. unfold add_to_totals, has_flow.
  destruct (flow_type t) as [[| | |] |]; cbn [FlowType_eqb];
    rewrite ?sum_amounts_cons, ?sum_abs_amounts_cons;
    try destruct (amount t <? 0);
    cbn [acc_income acc_expenses]; lia.
Qed.

Lemma summary_formula (transactions : list Transaction) :
  let s := get_summary_metrics transactions in
  total_net_cash_flow s = total_income s - total_expenses s
  /\ total_income s = sum_amounts (filter (has_flow INCOME) transactions)
  /\ total_expenses s
     = sum_abs_amounts (filter (has_flow EXPENSE) transactions).
Proof.
  cbn. destruct (summary_totals transactions (mkTotals 0 0 0 0)) as [H1 H2].
  cbn in H1, H2. rewrite H1, H2. auto.
Qed.

Lemma summary_net_ignores_transfers (l1 l2 : list Transaction) (x : Transaction) :
  outside_formula x ->
  total_net_cash_flow (get_summary_metrics (l1 ++ x :: l2))
  = total_net_cash_flow (get_summary_metrics (l1 ++ l2)).
Proof.
  intros Hx. destruct (outside_formula_masks x Hx) as [Hi He].
  destruct (summary_formula (l1 ++ x :: l2)) as (Hn & Hg & Ht).
  destruct (summary_formula (l1 ++ l2)) as (Hn' & Hg' & Ht').
  cbn zeta in *. rewrite Hn, Hn', Hg, Hg', Ht, Ht'.
  now rewrite (filter_without _ _ _ _ Hi), (filter_without _ _ _ _ He).
Qed.

(** C1. On [refund_month] the month's expense rows are -200.00 and +50.00:
    [calculate_monthly_metrics] reports [true_expenses] 150.00, the
    absolute value of their sum, and a net cash flow of 850.00, where the
    sum of the absolute amounts is 250.00, the figure
    [get_summary_metrics] reports for the same transactions, with a net
    cash flow of 750.00. *)
Theorem monthly_expenses_net_signed_amounts :
  exists m : MonthlyMetrics,
    calculate_monthly_metrics refund_month = Ok [m]
    /\ month m = "2024-01"
    /\ gross_income m = 100000
    /\ true_expenses m = 15000
    /\ net_cash_flow m = 85000
    /\ sum_abs_amounts
         (filter (has_flow EXPENSE) (month_rows refund_month "2024-01")) = 25000
    /\ total_expenses (get_summary_metrics refund_month) = 25000
    /\ total_net_cash_flow (get_summary_metrics refund_month) = 75000.
Proof.
  eexists. split; [vm_compute; reflexivity |].
  vm_compute. repeat split; reflexivity.
Qed.

(** ** Months without a balance *)

Lemma no_balance_raises (month_df : list Transaction) (ym : string) :
  (forall t, In t month_df -> balance t = 0) ->
  _calculate_month_metrics month_df ym
  = Raise (UnboundLocalError "starting_balance").
Proof.
  intros Hz.
  assert (E : existsb (fun t => negb (balance t =? 0)) month_df = false).
  { induction month_df as [| t l IH]; cbn; [reflexivity |].
    rewrite (Hz t) by now left. cbn.
    apply IH. intros u Hu. apply Hz. now right. }
  unfold _calculate_month_metrics. rewrite E, andb_false_r. reflexivity.
Qed.

Lemma insert_sorted_nonempty (s : string) (l : list string) :
  insert_sorted s l <> [].
Proof. destruct l as [| x r]; cbn; [| destruct (String.leb s x)]; discriminate. Qed.

(** A calculator none of whose transactions carries a balance raises on
    its first month, and so returns no metrics at all. *)
Lemma no_balance_no_metrics (t : Transaction) (transactions : list Transaction) :
  (forall u, In u (t :: transactions) -> balance u = 0) ->
  calculate_monthly_metrics (t :: transactions)
  = Raise (UnboundLocalError "starting_balance").
Proof.
  intros Hz. unfold calculate_monthly_metrics.
  destruct (sorted (unique String.eqb (map year_month (t :: transactions))))
    as [| ym rest] eqn:E.
  - exfalso. cbn in E. exact (insert_sorted_nonempty _ _ E).
  - cbn [for_each]. rewrite no_balance_raises; [reflexivity |].
    intros u Hu. apply Hz. unfold month_rows in Hu.
    apply filter_In in Hu. tauto.
Qed.

(** C3. The month of [no_balance_month] has a zero balance on every row:
    [calculate_monthly_metrics] returns no [MonthlyMetrics] for it but
    raises [UnboundLocalError] on [starting_balance]. *)
Theorem month_without_balance_raises :
  (forall t, In t no_balance_month -> balance t = 0)
  /\ calculate_monthly_metrics no_balance_month
     = Raise (UnboundLocalError "starting_balance").
Proof.
  split.
  - intros t [<- | [<- | []]]; reflexivity.
  - vm_compute. reflexivity.
Qed.

Lemma for_each_member {A B : Type} (f : A -> result B) (l : list A)
    (bs : list B) (b : B) :
  for_each f l = Ok bs -> In b bs -> exists a, In a l /\ f a = Ok b.
Proof.
  revert bs. induction l as [| a l IH]; intros bs; cbn.
  - intros H. inversion H. intros [].
  - destruct (f a) as [b0 |] eqn:Fa; cbn; [| discriminate].
    destruct (for_each f l) as [bs0 |]; cbn; [| discriminate].
    intros H. inversion H; subst. intros [<- | Hin].
    + exists a. auto.
    + destruct (IH bs0 eq_refl Hin) as (a' & Ha & Hf). exists a'. auto.
Qed.

(** Each record of a run is the record of one month's rows. *)
Lemma monthly_member (transactions : list Transaction)
    (ms : list MonthlyMetrics) (m : MonthlyMetrics) :
  calculate_monthly_metrics transactions = Ok ms -> In m ms ->
  exists ym, _calculate_month_metrics (month_rows transactions ym) ym = Ok m.
Proof.
  unfold calculate_monthly_metrics.
  destruct transactions as [| t l]; [discriminate |].
  intros Hms Hm.
  destruct (for_each_member _ _ _ _ Hms Hm) as (ym & _ & Hf).
  exists ym. exact Hf.
Qed.

Lemma month_rows_app (l1 l2 : list Transaction) (ym : string) :
  month_rows (l1 ++ l2) ym = month_rows l1 ym ++ month_rows l2 ym.
Proof. apply filter_app. Qed.

(** Across a whole run: the records of one month, computed with and
    without a transfer or an excluded payment, show the same net cash
    flow. *)
Lemma monthly_net_ignores_transfers (l1 l2 : list Transaction) (x : Transaction)
    (ms ms' : list MonthlyMetrics) (m m' : MonthlyMetrics) :
  outside_formula x ->
  calculate_monthly_metrics (l1 ++ x :: l2) = Ok ms ->
  calculate_monthly_metrics (l1 ++ l2) = Ok ms' ->
  In m ms -> In m' ms' -> month m = month m' ->
  net_cash_flow m = net_cash_flow m'.
Proof.
  intros Hx Hms Hms' Hm Hm' Hmonth.
  destruct (monthly_member _ _ _ Hms Hm) as (ym & Hf).
  destruct (monthly_member _ _ _ Hms' Hm') as (ym' & Hf').
  destruct (month_metrics_formula _ _ _ Hf) as (Ey & _).
  destruct (month_metrics_formula _ _ _ Hf') as (Ey' & _).
  assert (E : ym' = ym) by congruence.
  rewrite E in Hf'. clear Ey Ey' E Hmonth.
  rewrite month_rows_app in Hf, Hf'.
  unfold month_rows at 2 in Hf. cbn [filter] in Hf.
  fold (month_rows l2 ym) in Hf.
  destruct (String.eqb (year_month x) ym).
  - apply (month_net_ignores_transfers _ _ _ _ _ _ Hx Hf Hf').
  - congruence.
Qed.

(** ** The mortgage-enhancement layer *)

(** The expense ratio of the enhanced record is the base formula on the
    enhanced figures, and both rates are 0 without income. *)
Lemma enhance_expense_ratio (interest : dict Z) (b : MonthlyMetrics) :
  let e := enhance interest b in
  expense_ratio e = percent_of (true_expenses e) (gross_income e)
  /\ savings_rate e = percent_of (net_cash_flow e) (gross_income e)
  /\ net_cash_flow e = gross_income e - true_expenses e
  /\ true_expenses e = true_expenses b + dict_get interest (month b) 0.
Proof. cbn. unfold percent_of. auto. Qed.

Lemma enhance_zero_income (interest : dict Z) (b : MonthlyMetrics) :
  gross_income b <= 0 ->
  savings_rate (enhance interest b) = 0%Q
  /\ expense_ratio (enhance interest b) = 0%Q.
Proof.
  intros H. cbn.
  destruct (Z.ltb_spec 0 (gross_income b)); [lia | auto].
Qed.

(** C7. On [savings_month] (income 5000.00, expenses 3000.00, 1000.00
    moved to savings) and with no mortgage interest at all, the base
    savings rate is 20, that is [internal_transfers_out / gross_income]
    times 100, and the enhanced savings rate is 40, that is the enhanced
    net cash flow over the income times 100.  The expense ratio is 60 in
    both. *)
Theorem enhanced_savings_rate_is_net_share :
  exists b e : MonthlyMetrics,
    calculate_monthly_metrics savings_month = Ok [b]
    /\ calculate_enhanced_monthly_metrics savings_month [] = Ok [e]
    /\ gross_income e = 500000
    /\ internal_transfers_out e = 100000
    /\ true_expenses e = 300000
    /\ (savings_rate b == 20)%Q
    /\ (inject_Z (internal_transfers_out e) / inject_Z (gross_income e) * 100
        == 20)%Q
    /\ (savings_rate e == 40)%Q
    /\ (expense_ratio b == 60)%Q
    /\ (expense_ratio e == 60)%Q.
Proof.
  do 2 eexists. split; [vm_compute; reflexivity |].
  split; [vm_compute; reflexivity |].
  vm_compute. repeat split; reflexivity.
Qed.

(** C8, as stated, fails on [daily_burn_rate]: for January with expenses of
    930.00 and no mortgage interest, the base rate is 30.00 a day (31
    days) and the enhanced rate 31.00 a day (30 days). *)
Lemma enhanced_daily_burn_rate_differs :
  exists b e : MonthlyMetrics,
    calculate_monthly_metrics january_930 = Ok [b]
    /\ calculate_enhanced_monthly_metrics january_930 [] = Ok [e]
    /\ true_expenses e = true_expenses b
    /\ (daily_burn_rate b == 3000)%Q
    /\ (daily_burn_rate e == 3100)%Q
    /\ ~ (daily_burn_rate e == daily_burn_rate b)%Q.
Proof.
  do 2 eexists. split; [vm_compute; reflexivity |].
  split; [vm_compute; reflexivity |].
  vm_compute. repeat split; try reflexivity. discriminate.
Qed.

Lemma enhance_passes_through (interest : dict Z) (b : MonthlyMetrics) :
  passes_through b (enhance interest b).
Proof. unfold passes_through. cbn. repeat split. Qed.

(** C8, amended. Where the base calculator returns its monthly metrics,
    the enhanced calculator returns one record per base record, in the
    same order, and in each the month, the income, the transfer and
    excluded totals, the income breakdown, the transaction count, the
    largest income and the five balance fields are those of the base
    record; [daily_burn_rate] is not copied but recomputed as the enhanced
    expenses over 30 days. *)
Theorem enhanced_passes_other_fields (transactions : list Transaction)
    (interest : dict Z) (base : list MonthlyMetrics) :
  calculate_monthly_metrics transactions = Ok base ->
  exists enhanced : list MonthlyMetrics,
    calculate_enhanced_monthly_metrics transactions interest = Ok enhanced
    /\ Forall2 passes_through base enhanced.
Proof.
  intros Hb. exists (map (enhance interest) base). split.
  - unfold calculate_enhanced_monthly_metrics. rewrite Hb. reflexivity.
  - clear Hb. induction base as [| b base IH]; cbn; constructor.
    + apply enhance_passes_through.
    + exact IH.
Qed.

Lemma enhanced_passes_other_fields_witness :
  match calculate_monthly_metrics january_930 with
  | Ok base =>
      exists enhanced : list MonthlyMetrics,
        calculate_enhanced_monthly_metrics january_930 [("2024-01", 120000)]
        = Ok enhanced
        /\ Forall2 passes_through base enhanced
  | Raise _ => False
  end.
Proof.
  destruct (calculate_monthly_metrics january_930) as [base | e] eqn:E.
  - apply (enhanced_passes_other_fields january_930 [("2024-01", 120000)] base E).
  - vm_compute in E. discriminate E.
Defined.

(** ** The summary of an empty calculator *)

(** C10. Over an empty transaction list [get_summary_metrics] returns a
    summary (it has no failing path) with period "N/A", a span of one
    month, no transaction, and every total, average and ratio 0. *)
Theorem empty_summary :
  let s := get_summary_metrics [] in
  period s = "N/A"
  /\ months_span s = 1
  /\ summary_transaction_count s = 0%nat
  /\ total_income s = 0
  /\ total_expenses s = 0
  /\ total_net_cash_flow s = 0
  /\ total_transfers_out s = 0
  /\ total_excluded s = 0
  /\ (avg_monthly_income s == 0)%Q
  /\ (avg_monthly_expenses s == 0)%Q
  /\ (avg_monthly_net_cash_flow s == 0)%Q
  /\ (avg_monthly_savings s == 0)%Q
  /\ (overall_savings_rate s == 0)%Q
  /\ (overall_expense_ratio s == 0)%Q.
Proof. vm_compute. repeat split; reflexivity. Qed.

(** * Further properties of the classifier *)

Import MoreExamples.

(** X1. A credit whose description matches an income pattern, and no
    excluded pattern, is classified INCOME with confidence 0.9 by the
    income step: the transfer patterns and the batch are not consulted,
    and the store is left as it was. *)
Theorem income_pattern_precedes_transfer (all_transactions : list ref)
    (h : store) (transaction : ref) (category : string)
    (patterns : list pattern) (p : pattern) :
  _is_excluded (h transaction) = false ->
  0 < amount (h transaction) ->
  In (category, patterns) (_compile_patterns INCOME_CATEGORIES) ->
  In p patterns ->
  search p (upper (description (h transaction))) = true ->
  let res := fst (classify all_transactions h transaction) in
  CategorizationResult.flow_type res = INCOME
  /\ CategorizationResult.confidence res = 9 # 10
  /\ CategorizationResult.method res = "income_pattern"
  /\ snd (classify all_transactions h transaction) = h.
Proof.
  intros Hex Hpos Hin Hp Hs.
  destruct (first_match_found _ _ _ _ _ Hin Hp Hs) as [c Hc].
  unfold classify. rewrite Hex.
  apply Z.ltb_lt in Hpos. rewrite Hpos.
  unfold _check_income_patterns. rewrite Hc. cbn. auto.
Qed.

Lemma income_pattern_precedes_transfer_witness :
  let res := fst (classify [0; 1]%nat dividend_store 0%nat) in
  CategorizationResult.flow_type res = INCOME
  /\ CategorizationResult.confidence res = 9 # 10
  /\ CategorizationResult.method res = "income_pattern"
  /\ snd (classify [0; 1]%nat dividend_store 0%nat) = dividend_store.
Proof.
  apply (income_pattern_precedes_transfer [0; 1]%nat dividend_store 0%nat
           "Investment_Income"
           (map compile ["DIVIDEND"; "INTEREST PAYMENT"; "CAPITAL GAIN";
                         "INVESTMENT.*INCOME"; "COINBASE.*INC"; "COINBASE\.COM";
                         "COINBASE"; "SOLIUM.*INC"; "STOCK.*OPTION";
                         "RSU.*VESTING"])
           (compile "DIVIDEND")).
  - vm_compute. reflexivity.
  - vm_compute. reflexivity.
  - do 3 right. left. reflexivity.
  - left. reflexivity.
  - vm_compute. reflexivity.
Defined.

Lemma check_internal_transfer_flow (all : list ref) (h : store) (t : ref)
    (r : CategorizationResult.t) :
  fst (_check_internal_transfer all h t) = Some r ->
  CategorizationResult.flow_type r = INTERNAL_TRANSFER.
Proof.
  unfold _check_internal_transfer.
  destruct (_find_transfer_pair all h t) as [pair h'].
  destruct (first_match transfer_patterns _); destruct pair; cbn;
    intros H; inversion H; reflexivity.
Qed.

(** The sign of the amount behind an INCOME or an EXPENSE result. *)
Lemma classify_sign (all : list ref) (h : store) (t : ref) :
  let res := fst (classify all h t) in
  (CategorizationResult.flow_type res = INCOME -> 0 < amount (h t))
  /\ (CategorizationResult.flow_type res = EXPENSE -> amount (h t) <= 0).
Proof.
  unfold classify.
  destruct (_is_excluded (h t)); [cbn; split; discriminate |].
  assert (Hstep : forall res h',
             _check_internal_transfer all h t = (res, h') ->
             let out := fst (match res with
                             | Some r => (r, h')
                             | None =>
                                 if 0 <? amount (h' t)
                                 then (CategorizationResult.mk INCOME
                                         "Uncategorized_Income" None
                                         CONFIDENCE_HIGH "amount_positive" None, h')
                                 else (CategorizationResult.mk EXPENSE
                                         "Uncategorized_Expense" None
                                         CONFIDENCE_HIGH "amount_negative" None, h')
                             end) in
             (CategorizationResult.flow_type out = INCOME -> 0 < amount (h t))
             /\ (CategorizationResult.flow_type out = EXPENSE -> amount (h t) <= 0)).
  { intros res h' E.
    pose proof (check_internal_transfer_marks_only all h t) as Hm.
    pose proof (check_internal_transfer_flow all h t) as Hfl.
    rewrite E in Hm, Hfl. cbn [fst snd] in Hm, Hfl.
    destruct (marks_only_fields h h' t Hm) as (_ & _ & _ & _ & Ha & _).
    destruct res as [r |]; cbn [fst].
    - rewrite (Hfl r eq_refl). split; discriminate.
    - rewrite Ha. destruct (Z.ltb_spec 0 (amount (h t))); cbn;
        split; intros; try discriminate; lia. }
  destruct (Z.ltb_spec 0 (amount (h t))) as [Hpos | Hneg].
  - unfold _check_income_patterns.
    destruct (first_match (_compile_patterns INCOME_CATEGORIES) _);
      [cbn; split; [auto | discriminate] |].
    destruct (_check_internal_transfer all h t) as [res h'] eqn:E.
    apply (Hstep res h' eq_refl).
  - destruct (_check_internal_transfer all h t) as [res h'] eqn:E.
    apply (Hstep res h' eq_refl).
Qed.

Lemma same_source_refl (t : Transaction) : same_source t t.
Proof. unfold same_source. auto 10. Qed.

Lemma same_source_trans (t1 t2 t3 : Transaction) :
  same_source t1 t2 -> same_source t2 t3 -> same_source t1 t3.
Proof. unfold same_source. intuition congruence. Qed.

Lemma marks_only_source (h h' : store) (r : ref) :
  marks_only h h' -> same_source (h r) (h' r).
Proof. intros Hm. rewrite (Hm r). unfold same_source. now destruct (h r). Qed.

Lemma classify_step_source (all : list ref) (h : store) (t r : ref) :
  same_source (h r) (classify_step all h t r).
Proof.
  unfold classify_step.
  pose proof (classify_marks_only all h t) as Hm.
  destruct (classify all h t) as [res h1]. cbn [snd] in Hm.
  apply (same_source_trans _ (h1 r)); [apply marks_only_source, Hm |].
  destruct (Nat.eq_dec r t) as [-> | Hne].
  - rewrite update_same. unfold same_source. now destruct (h1 t).
  - rewrite (update_other _ _ _ _ Hne). apply same_source_refl.
Qed.

(** What a call of [_find_transfer_pair] leaves alone: every object but
    the transaction and the partner, which is one of the batch. *)
Lemma find_transfer_pair_elsewhere (all : list ref) (h : store) (t r : ref) :
  r <> t -> ~ In r all -> snd (_find_transfer_pair all h t) r = h r.
Proof.
  intros Hne Hnin. unfold _find_transfer_pair.
  destruct (find (is_candidate h t) all) as [o |] eqn:F; cbn [snd]; [| reflexivity].
  apply find_some in F. destruct F as [Hin _].
  unfold mark_pair.
  rewrite update_other by (intros ->; contradiction).
  now rewrite update_other.
Qed.

Lemma classify_elsewhere (all : list ref) (h : store) (t r : ref) :
  r <> t -> ~ In r all -> snd (classify all h t) r = h r.
Proof.
  intros Hne Hnin. unfold classify.
  destruct (_is_excluded (h t)); [reflexivity |].
  destruct (if 0 <? amount (h t) then _check_income_patterns (h t) else None);
    [reflexivity |].
  unfold _check_internal_transfer.
  pose proof (find_transfer_pair_elsewhere all h t r Hne Hnin) as Hf.
  destruct (_find_transfer_pair all h t) as [pair h']. cbn [snd] in Hf.
  destruct (first_match transfer_patterns _); destruct pair; cbn [snd];
    try exact Hf.
  destruct (0 <? amount (h' t)); exact Hf.
Qed.

Lemma classify_all_writes_in_batch (h : store) (transactions : list ref) (r : ref) :
  same_source (h r) (classify_all h transactions r)
  /\ (~ In r transactions -> classify_all h transactions r = h r).
Proof.
  unfold classify_all. split.
  - generalize transactions at 1 as all. intros all. revert h.
    induction transactions as [| t l IH]; intros h; cbn [fold_left].
    + apply same_source_refl.
    + eapply same_source_trans; [apply (classify_step_source all h t r) |].
      apply IH.
  - intros Hnin.
    assert (G : forall all l h0, ~ In r all -> ~ In r l ->
                fold_left (classify_step all) l h0 r = h0 r).
    { intros all l. induction l as [| t l IH]; intros h0 Hall Hl; cbn [fold_left];
        [reflexivity |].
      rewrite IH; [| exact Hall | intros Hin; apply Hl; now right].
      assert (Hne : r <> t) by (intros ->; apply Hl; now left).
      unfold classify_step.
      pose proof (classify_elsewhere all h0 t r Hne Hall) as He.
      destruct (classify all h0 t) as [res h1]. cbn [snd] in He.
      now rewrite (update_other _ _ _ _ Hne). }
    apply G; exact Hnin.
Qed.

(** X2. [classify_all] writes only into the transactions of its batch, and
    in those it never touches the date, the description, the amount, the
    balance, the type tag or the user's fields. *)
Theorem classify_all_frame (h : store) (transactions : list ref) (r : ref) :
  same_source (h r) (classify_all h transactions r)
  /\ (~ In r transactions -> classify_all h transactions r = h r).
Proof. exact (classify_all_writes_in_batch h transactions r). Qed.

(** A mark, once set, stays. *)
Lemma find_transfer_pair_keeps_marks (all : list ref) (h : store) (t r : ref) :
  has_pair (h r) = true -> has_pair (snd (_find_transfer_pair all h t) r) = true.
Proof.
  intros Hp. unfold _find_transfer_pair.
  destruct (find (is_candidate h t) all) as [o |]; cbn [snd]; [| exact Hp].
  unfold mark_pair.
  destruct (Nat.eq_dec r o) as [-> | Hno]; [now rewrite update_same |].
  rewrite (update_other _ _ _ _ Hno).
  destruct (Nat.eq_dec r t) as [-> | Hnt]; [now rewrite update_same |].
  now rewrite (update_other _ _ _ _ Hnt).
Qed.

Lemma classify_keeps_marks (all : list ref) (h : store) (t r : ref) :
  has_pair (h r) = true -> has_pair (snd (classify all h t) r) = true.
Proof.
  intros Hp. unfold classify.
  destruct (_is_excluded (h t)); [exact Hp |].
  destruct (if 0 <? amount (h t) then _check_income_patterns (h t) else None);
    [exact Hp |].
  unfold _check_internal_transfer.
  pose proof (find_transfer_pair_keeps_marks all h t r Hp) as Hf.
  destruct (_find_transfer_pair all h t) as [pair h']. cbn [snd] in Hf.
  destruct (first_match transfer_patterns _); destruct pair; cbn [snd];
    try exact Hf.
  destruct (0 <? amount (h' t)); exact Hf.
Qed.

Lemma classify_step_keeps_marks (all : list ref) (h : store) (t r : ref) :
  has_pair (h r) = true -> has_pair (classify_step all h t r) = true.
Proof.
  intros Hp. unfold classify_step.
  pose proof (classify_keeps_marks all h t r Hp) as Hk.
  destruct (classify all h t) as [res h1]. cbn [snd] in Hk.
  destruct (Nat.eq_dec r t) as [-> | Hne].
  - rewrite update_same. cbn. exact Hk.
  - now rewrite (update_other _ _ _ _ Hne).
Qed.

(** X3. [classify_all] never clears a pairing mark: a transaction that is
    marked as paired when the pass starts is marked when it ends. *)
Theorem classify_all_keeps_marks (h : store) (transactions : list ref) (r : ref) :
  has_pair (h r) = true -> has_pair (classify_all h transactions r) = true.
Proof.
  unfold classify_all. generalize transactions at 1 as all. intros all.
  revert h. induction transactions as [| t l IH]; intros h Hp; cbn [fold_left].
  - exact Hp.
  - apply IH. now apply classify_step_keeps_marks.
Qed.

Lemma classify_all_keeps_marks_witness :
  has_pair (classify_all (snd (classify [0; 1; 2]%nat three_way 0%nat))
              [1; 2]%nat 0%nat) = true.
Proof.
  apply (classify_all_keeps_marks (snd (classify [0; 1; 2]%nat three_way 0%nat))
           [1; 2]%nat 0%nat).
  vm_compute. reflexivity.
Defined.

Lemma find_transfer_pair_spec (all_transactions : list ref) (h h' : store)
    (transaction other : ref) :
  _find_transfer_pair all_transactions h transaction = (Some other, h') ->
  In other all_transactions
  /\ other <> transaction
  /\ has_pair (h other) = false
  /\ Z.abs (amount (h other) + amount (h transaction)) <= 1
  /\ Z.abs (sub_days (date (h other)) (date (h transaction))) <= 3
  /\ has_pair (h' transaction) = true
  /\ has_pair (h' other) = true
  /\ pair_id (h' transaction) = Some (date (h other), amount (h other))
  /\ pair_id (h' other) = Some (date (h transaction), amount (h transaction))
  /\ (forall r, r <> transaction -> r <> other -> h' r = h r).
Proof.
  unfold _find_transfer_pair.
  destruct (find (is_candidate h transaction) all_transactions) as [o |] eqn:F;
    [| discriminate].
  intros Heq. inversion Heq; subst o h'. clear Heq.
  apply find_some in F. destruct F as [Hin Hc].
  unfold is_candidate in Hc.
  apply andb_prop in Hc. destruct Hc as [Hc Hamt].
  apply andb_prop in Hc. destruct Hc as [Hc Hday].
  apply andb_prop in Hc. destruct Hc as [Hne Hnp].
  apply negb_true_iff in Hne. apply Nat.eqb_neq in Hne.
  apply negb_true_iff in Hnp.
  apply Z.leb_le in Hamt. apply Z.leb_le in Hday.
  unfold TRANSFER_AMOUNT_TOLERANCE in Hamt. unfold TRANSFER_MATCH_DAYS in Hday.
  assert (Hne' : transaction <> other) by congruence.
  repeat split; try assumption.
  - replace (amount (h other) + amount (h transaction))
      with (amount (h other) - - amount (h transaction)) by lia.
    exact Hamt.
  - unfold mark_pair. rewrite (update_other _ _ _ _ Hne'), update_same.
    reflexivity.
  - unfold mark_pair. rewrite update_same. reflexivity.
  - unfold mark_pair. rewrite (update_other _ _ _ _ Hne'), update_same.
    reflexivity.
  - unfold mark_pair. rewrite update_same, update_same.
    rewrite (update_other _ _ _ _ Hne). cbn. now destruct (h transaction).
  - intros r Hrt Hro. unfold mark_pair.
    now rewrite (update_other _ _ _ _ Hro), (update_other _ _ _ _ Hrt).
Qed.

(** X4. When [_find_transfer_pair] returns a partner, the partner is
    another transaction of the batch that was not marked; its amount is
    the opposite of the transaction's within one cent and its date lies
    within three days; afterwards both are marked, each holds the other's
    date and amount as [pair_id], and no other object has changed. *)
Theorem transfer_pair_is_symmetric (all_transactions : list ref) (h h' : store)
    (transaction other : ref) :
  _find_transfer_pair all_transactions h transaction = (Some other, h') ->
  In other all_transactions
  /\ other <> transaction
  /\ has_pair (h other) = false
  /\ Z.abs (amount (h other) + amount (h transaction)) <= 1
  /\ Z.abs (sub_days (date (h other)) (date (h transaction))) <= 3
  /\ has_pair (h' transaction) = true
  /\ has_pair (h' other) = true
  /\ pair_id (h' transaction) = Some (date (h other), amount (h other))
  /\ pair_id (h' other) = Some (date (h transaction), amount (h transaction))
  /\ (forall r, r <> transaction -> r <> other -> h' r = h r).
Proof. exact (find_transfer_pair_spec all_transactions h h' transaction other). Qed.

Lemma transfer_pair_is_symmetric_witness :
  let h' := snd (_find_transfer_pair [0; 1; 2]%nat three_way 0%nat) in
  has_pair (h' 0%nat) = true
  /\ has_pair (h' 1%nat) = true
  /\ pair_id (h' 0%nat) = Some (date (three_way 1%nat), amount (three_way 1%nat))
  /\ pair_id (h' 1%nat) = Some (date (three_way 0%nat), amount (three_way 0%nat)).
Proof.
  destruct (transfer_pair_is_symmetric [0; 1; 2]%nat three_way
              (snd (_find_transfer_pair [0; 1; 2]%nat three_way 0%nat))
              0%nat 1%nat eq_refl)
    as (_ & _ & _ & _ & _ & H1 & H2 & H3 & H4 & _).
  cbn zeta. auto.
Defined.

(** X5. A transfer reported with confidence 0.9 has a partner: after the
    call the transaction is marked as paired. *)
Theorem confident_transfer_is_paired (all_transactions : list ref) (h : store)
    (transaction : ref) :
  let res := fst (classify all_transactions h transaction) in
  let h' := snd (classify all_transactions h transaction) in
  CategorizationResult.flow_type res = INTERNAL_TRANSFER ->
  CategorizationResult.confidence res = CONFIDENCE_HIGH ->
  has_pair (h' transaction) = true.
Proof.
  unfold classify.
  destruct (_is_excluded (h transaction)); [cbn; discriminate |].
  destruct (if 0 <? amount (h transaction)
            then _check_income_patterns (h transaction) else None) as [r |] eqn:E.
  - destruct (0 <? amount (h transaction)); [| discriminate].
    unfold _check_income_patterns in E.
    destruct (first_match (_compile_patterns INCOME_CATEGORIES) _);
      [| discriminate].
    inversion E. cbn. discriminate.
  - unfold _check_internal_transfer.
    destruct (_find_transfer_pair all_transactions h transaction)
      as [pair h'] eqn:F.
    destruct pair as [o |].
    + destruct (find_transfer_pair_spec _ _ _ _ _ F)
        as (_ & _ & _ & _ & _ & Hp & _).
      destruct (first_match transfer_patterns _); cbn; intros; exact Hp.
    + destruct (first_match transfer_patterns _); cbn; [discriminate |].
      destruct (0 <? amount (h' transaction)); cbn; discriminate.
Qed.

Lemma confident_transfer_is_paired_witness :
  has_pair (snd (classify [0; 1]%nat savings_pair_store 0%nat) 0%nat) = true.
Proof.
  apply (confident_transfer_is_paired [0; 1]%nat savings_pair_store 0%nat);
    vm_compute; reflexivity.
Defined.

Lemma classify_all_signs (h : store) (transactions : list ref)
    (r : ref) :
  In r transactions ->
  let t := classify_all h transactions r in
  (flow_type t = Some INCOME -> 0 < amount t)
  /\ (flow_type t = Some EXPENSE -> amount t <= 0).
Proof.
  intros Hin.
  destruct (in_split_last r transactions Hin) as (l1 & l2 & E & Hnin).
  pose proof (classify_all_assigns h l1 l2 r Hnin) as Ha.
  cbn zeta in Ha. rewrite <- E in Ha. destruct Ha as (Hf & _).
  set (hk := fold_left (classify_step transactions) l1 h) in *.
  pose proof (classify_sign transactions hk r) as Hs. cbn zeta in Hs.
  assert (Hamt : amount (classify_all h transactions r) = amount (hk r)).
  { destruct (classify_all_writes_in_batch h transactions r) as [(_ & _ & A1 & _) _].
    assert (A2 : same_source (h r) (hk r)).
    { unfold hk. clear. revert h.
      induction l1 as [| t l IH]; intros h; cbn [fold_left];
        [apply same_source_refl |].
      eapply same_source_trans; [apply classify_step_source | apply IH]. }
    destruct A2 as (_ & _ & A2 & _). congruence. }
  cbn zeta. rewrite Hf, Hamt. destruct Hs as [Hi He].
  split; intros H; inversion H; auto.
Qed.

(** X6. After [classify_all], a transaction of the batch filed as INCOME
    has a positive amount, and one filed as EXPENSE has a negative or zero
    amount. *)
Theorem classify_all_sign_discipline (h : store) (transactions : list ref)
    (r : ref) :
  In r transactions ->
  let t := classify_all h transactions r in
  (flow_type t = Some INCOME -> 0 < amount t)
  /\ (flow_type t = Some EXPENSE -> amount t <= 0).
Proof. exact (classify_all_signs h transactions r). Qed.

Lemma classify_all_sign_discipline_witness :
  let t := classify_all three_way [0; 1; 2]%nat 2%nat in
  (flow_type t = Some INCOME -> 0 < amount t)
  /\ (flow_type t = Some EXPENSE -> amount t <= 0).
Proof.
  apply (classify_all_sign_discipline three_way [0; 1; 2]%nat 2%nat).
  cbn. auto.
Defined.

(** * Further properties of the calculator *)

Import CashFlowReports MortgageLoader.

Lemma all_days_agree_holds :
  forallb (fun y => forallb (days_agree (Z.of_nat y))
                      [1; 2; 3; 4; 5; 6; 7; 8; 9; 10; 11; 12])
    (seq (Z.to_nat 1000) (Z.to_nat 9000)) = true.
Proof. vm_compute. reflexivity. Qed.


(** X7. For the month key of any date of the years 1000 to 9999,
    [_get_days_in_month] is the length of that month by the calendar of
    [datetime], leap years included. *)
Theorem days_in_month_is_calendar (d : datetime) :
  1000 <= dt_year d <= 9999 ->
  1 <= dt_month d <= 12 ->
  _get_days_in_month (strftime_Ym d) = calendar_days (dt_year d) (dt_month d).
Proof.
  intros Hy Hm.
  assert (Hin : In (Z.to_nat (dt_year d)) (seq (Z.to_nat 1000) (Z.to_nat 9000))).
  { apply in_seq. lia. }
  assert (Hmin : In (dt_month d) [1; 2; 3; 4; 5; 6; 7; 8; 9; 10; 11; 12]).
  { cbn [In]. lia. }
  pose proof (proj1 (forallb_forall _ _)
                (proj1 (forallb_forall _ _) all_days_agree_holds _ Hin)
                _ Hmin) as H.
  rewrite Z2Nat.id in H by lia.
  apply Z.eqb_eq. exact H.
Qed.

Lemma days_in_month_is_calendar_witness :
  _get_days_in_month (strftime_Ym (mk_datetime 2024 2 29 13 5 0))
  = calendar_days 2024 2.
Proof.
  apply (days_in_month_is_calendar (mk_datetime 2024 2 29 13 5 0)); cbn; lia.
Defined.

(** *** The months of a run *)

Lemma existsb_eqb_In (x : string) (l : list string) :
  existsb (String.eqb x) l = true <-> In x l.
Proof.
  rewrite existsb_exists. split.
  - intros (y & Hy & E). apply String.eqb_eq in E. now subst.
  - intros H. exists x. split; [exact H | apply String.eqb_refl].
Qed.

Lemma unique_from_spec (seen l : list string) :
  NoDup (unique_from String.eqb seen l)
  /\ (forall x, In x (unique_from String.eqb seen l) <-> In x l /\ ~ In x seen).
Proof.
  revert seen. induction l as [| a l IH]; intros seen; cbn.
  - split; [constructor | intros x; tauto].
  - destruct (existsb (String.eqb a) seen) eqn:E.
    + apply existsb_eqb_In in E. destruct (IH seen) as [Hn Hi].
      split; [exact Hn |]. intros x. rewrite Hi.
      split; [tauto |]. intros [[-> | Hx] Hs]; [contradiction | tauto].
    + assert (Ha : ~ In a seen).
      { intros Hin. apply existsb_eqb_In in Hin. congruence. }
      destruct (IH (a :: seen)) as [Hn Hi]. split.
      * constructor; [| exact Hn]. rewrite Hi. cbn. tauto.
      * intros x. cbn. rewrite Hi. cbn.
        destruct (String.string_dec a x) as [-> | Hne]; tauto.
Qed.

Lemma insert_sorted_In (s x : string) (l : list string) :
  In x (insert_sorted s l) <-> x = s \/ In x l.
Proof.
  induction l as [| a l IH]; cbn; [intuition |].
  destruct (String.leb s a); cbn; [intuition | rewrite IH; intuition].
Qed.

Lemma ltb_of_leb (a b : string) :
  String.leb a b = true -> a <> b -> String.ltb a b = true.
Proof.
  unfold String.leb, String.ltb. intros H Hne.
  destruct (String.compare a b) eqn:C; try reflexivity; try discriminate.
  apply String.compare_eq_iff in C. contradiction.
Qed.

Lemma ltb_of_not_leb (a b : string) :
  String.leb a b = false -> String.ltb b a = true.
Proof.
  unfold String.leb, String.ltb. intros H.
  rewrite String.compare_antisym.
  destruct (String.compare a b); try discriminate. reflexivity.
Qed.

Lemma insert_sorted_ascending (s : string) (l : list string) :
  ~ In s l -> NoDup l -> ascending l ->
  NoDup (insert_sorted s l) /\ ascending (insert_sorted s l).
Proof.
  induction l as [| a l IH]; intros Hs Hn Ha.
  - cbn. split; [constructor; [intros [] | constructor] | exact I].
  - cbn [insert_sorted]. destruct (String.leb s a) eqn:E.
    + split; [constructor; assumption |].
      cbn. split; [| exact Ha].
      apply ltb_of_leb; [exact E |]. intros ->. apply Hs. now left.
    + inversion Hn as [| ? ? Hal Hnl]; subst.
      assert (Hs' : ~ In s l) by (intros H; apply Hs; now right).
      assert (Ha' : ascending l) by (destruct l; [exact I | apply Ha]).
      destruct (IH Hs' Hnl Ha') as [IHn IHa].
      split.
      * constructor; [| exact IHn]. rewrite insert_sorted_In.
        intros [-> | Hin]; [apply Hs; now left | contradiction].
      * pose proof (ltb_of_not_leb _ _ E) as Hlt.
        destruct l as [| b l'].
        -- cbn. auto.
        -- cbn [insert_sorted] in *. destruct (String.leb s b).
           ++ cbn. cbn in IHa. tauto.
           ++ cbn in Ha. cbn. cbn in IHa. split; [tauto | exact IHa].
Qed.

Lemma sorted_spec (l : list string) :
  NoDup l ->
  NoDup (sorted l) /\ ascending (sorted l)
  /\ (forall x, In x (sorted l) <-> In x l).
Proof.
  unfold sorted. induction l as [| a l IH]; intros Hn; cbn.
  - split; [constructor | split; [exact I | tauto]].
  - inversion Hn as [| ? ? Ha Hl]; subst.
    destruct (IH Hl) as (IHn & IHa & IHi).
    assert (Ha' : ~ In a (fold_right insert_sorted [] l)) by now rewrite IHi.
    destruct (insert_sorted_ascending a _ Ha' IHn IHa) as [H1 H2].
    split; [exact H1 | split; [exact H2 |]].
    intros x. rewrite insert_sorted_In, IHi. intuition.
Qed.

Lemma for_each_keys {A B : Type} (f : A -> result B) (g : B -> A)
    (l : list A) (bs : list B) :
  (forall a b, f a = Ok b -> g b = a) ->
  for_each f l = Ok bs -> map g bs = l.
Proof.
  intros Hg. revert bs. induction l as [| a l IH]; intros bs; cbn.
  - intros H. now inversion H.
  - destruct (f a) as [b |] eqn:Fa; cbn; [| discriminate].
    destruct (for_each f l) as [bs0 |]; cbn; [| discriminate].
    intros H. inversion H; subst. cbn.
    now rewrite (Hg a b Fa), (IH bs0 eq_refl).
Qed.

(** The month keys of the records of a run. *)
Lemma monthly_keys (transactions : list Transaction) (ms : list MonthlyMetrics) :
  calculate_monthly_metrics transactions = Ok ms ->
  transactions <> []
  /\ map month ms = sorted (unique String.eqb (map year_month transactions))
  /\ for_each (fun ym => _calculate_month_metrics (month_rows transactions ym) ym)
       (sorted (unique String.eqb (map year_month transactions))) = Ok ms.
Proof.
  unfold calculate_monthly_metrics.
  destruct transactions as [| t l]; [discriminate |].
  intros H. split; [discriminate |]. split; [| exact H].
  apply (for_each_keys _ month _ _) in H; [exact H |].
  intros ym m Hm. now destruct (month_metrics_formula _ _ _ Hm).
Qed.

(** X8. When [calculate_monthly_metrics] returns, it returns at least one
    record, exactly one for each month in which there is a transaction,
    and the records are in strictly ascending order of their month
    keys. *)
Theorem one_record_per_month (transactions : list Transaction)
    (ms : list MonthlyMetrics) :
  calculate_monthly_metrics transactions = Ok ms ->
  ms <> []
  /\ NoDup (map month ms)
  /\ ascending (map month ms)
  /\ (forall ym, In ym (map month ms) <-> In ym (map year_month transactions)).
Proof.
  intros H. destruct (monthly_keys _ _ H) as (Hne & Hk & _).
  destruct (unique_from_spec [] (map year_month transactions)) as [Hn Hi].
  fold (unique String.eqb (map year_month transactions)) in Hn, Hi.
  destruct (sorted_spec _ Hn) as (Sn & Sa & Si).
  rewrite Hk. repeat split; try assumption.
  - intros ->. cbn in Hk. symmetry in Hk.
    destruct transactions as [| t l]; [contradiction |].
    assert (Hin : In (year_month t) (sorted (unique String.eqb (map year_month (t :: l))))).
    { apply Si, Hi. cbn. tauto. }
    rewrite Hk in Hin. destruct Hin.
  - intros Hin. apply Si, Hi in Hin. tauto.
  - intros Hin. apply Si, Hi. cbn. tauto.
Qed.

Lemma one_record_per_month_witness :
  match calculate_monthly_metrics two_months with
  | Ok ms => ms <> [] /\ NoDup (map month ms) /\ ascending (map month ms)
  | Raise _ => False
  end.
Proof.
  destruct (calculate_monthly_metrics two_months) as [ms | e] eqn:E.
  - destruct (one_record_per_month two_months ms E) as (H1 & H2 & H3 & _).
    auto.
  - vm_compute in E. discriminate E.
Defined.

(** *** Monthly figures and the summary *)

















(** *** Signs and guards of a month's record *)





(** *** Reconciliation against a running balance *)








(** *** The averages of the summary *)

Lemma summary_average_products (transactions : list Transaction) :
  let s := get_summary_metrics transactions in
  1 <= months_span s
  /\ (avg_monthly_income s * inject_Z (months_span s) == inject_Z (total_income s))%Q
  /\ (avg_monthly_expenses s * inject_Z (months_span s)
      == inject_Z (total_expenses s))%Q
  /\ (avg_monthly_net_cash_flow s * inject_Z (months_span s)
      == inject_Z (total_net_cash_flow s))%Q
  /\ (avg_monthly_savings s * inject_Z (months_span s)
      == inject_Z (total_transfers_out s))%Q.
Proof.
  cbn zeta.
  assert (Hspan : 1 <= months_span (get_summary_metrics transactions)).
  { unfold get_summary_metrics. cbn [months_span].
    destruct (min_date (map date transactions)); [| lia].
    destruct (max_date (map date transactions)); [| lia].
    unfold _calculate_months_span. lia. }
  split; [exact Hspan |].
  assert (Hq : ~ (inject_Z (months_span (get_summary_metrics transactions)) == 0)%Q).
  { unfold Qeq, inject_Z. cbn [Qnum Qden]. lia. }
  unfold get_summary_metrics in *. cbn [months_span avg_monthly_income
    avg_monthly_expenses avg_monthly_net_cash_flow avg_monthly_savings
    total_income total_expenses total_net_cash_flow total_transfers_out] in *.
  repeat split; rewrite Qmult_comm; apply Qmult_div_r; exact Hq.
Qed.


(** *** The validation report *)

(** X15. [validate_cash_flow_calculation] raises exactly when
    [calculate_monthly_metrics] does, with the same exception.  When it
    returns, the report is always valid, with no error; it warns of
    missing income exactly when no transaction is INCOME, and of missing
    expenses exactly when none is EXPENSE. *)
Theorem validation_never_fails (transactions : list Transaction) :
  match validate_cash_flow_calculation transactions with
  | Ok v =>
      is_valid v = true
      /\ errors v = []
      /\ (In "No INCOME transactions found" (warnings v)
          <-> filter (has_flow INCOME) transactions = [])
      /\ (In "No EXPENSE transactions found" (warnings v)
          <-> filter (has_flow EXPENSE) transactions = [])
      /\ exists ms, calculate_monthly_metrics transactions = Ok ms
  | Raise e => calculate_monthly_metrics transactions = Raise e
  end.
Proof.
  unfold validate_cash_flow_calculation.
  destruct (calculate_monthly_metrics transactions) as [ms | e]; cbn [bind];
    [| reflexivity].
  cbn [is_valid errors warnings List.length Nat.eqb].
  split; [reflexivity |]. split; [reflexivity |].
  assert (Hw : forall m, In m (filter large_discrepancy ms) ->
                discrepancy_warning m <> "No INCOME transactions found"
                /\ discrepancy_warning m <> "No EXPENSE transactions found").
  { intros m _. unfold discrepancy_warning. cbn. split; discriminate. }
  set (w4 := if ((0 <? List.length (filter large_discrepancy ms))%nat
                 && (List.length (filter large_discrepancy ms) =? List.length ms)%nat)%bool
             then _ else []).
  assert (H4 : ~ In "No INCOME transactions found" w4
               /\ ~ In "No EXPENSE transactions found" w4).
  { unfold w4. destruct (_ && _)%bool; cbn; split; intros H; try tauto;
      destruct H as [H | []]; discriminate H. }
  assert (H3 : ~ In "No INCOME transactions found"
                 (map discrepancy_warning (filter large_discrepancy ms))
               /\ ~ In "No EXPENSE transactions found"
                    (map discrepancy_warning (filter large_discrepancy ms))).
  { split; intros H; apply in_map_iff in H; destruct H as (m & E & Hm);
      destruct (Hw m Hm); congruence. }
  change (dict_get _ "INCOME" 0%nat) with (count_flow INCOME transactions).
  change (dict_get _ "EXPENSE" 0%nat) with (count_flow EXPENSE transactions).
  unfold count_flow.
  split; [| split; [| eexists; reflexivity]].
  - rewrite !in_app_iff.
    destruct (filter (has_flow INCOME) transactions) as [| a l]; cbn [List.length Nat.eqb].
    + split; [reflexivity |]. intros _. left. now left.
    + split; [| discriminate]. intros [[] | [H | [H | H]]]; try tauto.
      destruct (filter (has_flow EXPENSE) transactions); cbn in H;
        [destruct H as [H | []]; discriminate H | destruct H].
  - rewrite !in_app_iff.
    destruct (filter (has_flow EXPENSE) transactions) as [| a l]; cbn [List.length Nat.eqb].
    + split; [reflexivity |]. intros _. right. left. now left.
    + split; [| discriminate]. intros [H | [[] | [H | H]]]; try tauto.
      destruct (filter (has_flow INCOME) transactions); cbn in H;
        [destruct H as [H | []]; discriminate H | destruct H].
Qed.

(** *** The category analysis *)

(** Writing a key: the sum of a weight changes by the new weight less
    the weight of the value read before at that key. *)
Lemma weigh_dict_set {V : Type} (w : string -> V -> Z) (dv : V) (d : dict V)
    (k : string) (v : V) :
  w k dv = 0 ->
  weigh w (dict_set d k v) = weigh w d - w k (dict_get d k dv) + w k v.
Proof.
  intros H0. induction d as [| [k' v'] r IH]; cbn [dict_set dict_get].
  - cbn. lia.
  - destruct (String.eqb_spec k' k) as [-> | _].
    + unfold weigh. cbn. lia.
    + unfold weigh in *. cbn [fold_right fst snd]. rewrite IH. lia.
Qed.






(** * Further properties of the mortgage layer *)

Lemma dict_get_set {V : Type} (d : dict V) (k k' : string) (v dv : V) :
  dict_get (dict_set d k v) k' dv
  = if String.eqb k k' then v else dict_get d k' dv.
Proof.
  induction d as [| [a b] r IH]; cbn [dict_set dict_get].
  - reflexivity.
  - destruct (String.eqb_spec a k) as [-> | Hak]; cbn [dict_get].
    + destruct (String.eqb k k'); reflexivity.
    + rewrite IH. destruct (String.eqb_spec a k') as [-> | Hak'];
        [| reflexivity].
      destruct (String.eqb_spec k k') as [-> | _]; [contradiction | reflexivity].
Qed.

Lemma dict_get_absent {V : Type} (d : dict V) (k : string) (dv : V) :
  dict_has d k = false -> dict_get d k dv = dv.
Proof.
  unfold dict_has. induction d as [| [a b] r IH]; cbn; [reflexivity |].
  destruct (String.eqb a k); cbn; [discriminate | exact IH].
Qed.

Lemma add_interest_get (d : dict Z) (m : MortgageTransaction.t) (ym : string) :
  dict_get (add_interest d m) ym 0
  = dict_get d ym 0
    + (if (counts_as_interest m
           && String.eqb (MortgageTransaction.year_month m) ym)%bool
       then MortgageTransaction.interest m else 0).
Proof.
  unfold add_interest, counts_as_interest.
  destruct (String.eqb (MortgageTransaction.transaction_type m) "MONTHLY PAYMENT"
            && (0 <? MortgageTransaction.interest m))%bool; cbn [andb]; [| lia].
  set (k := MortgageTransaction.year_month m).
  assert (E : forall k', dict_get (if dict_has d k then d else dict_set d k 0) k' 0
                         = dict_get d k' 0).
  { intros k'. destruct (dict_has d k) eqn:Hh; [reflexivity |].
    rewrite dict_get_set. destruct (String.eqb_spec k k') as [<- | _];
      [| reflexivity].
    now rewrite (dict_get_absent d k 0 Hh). }
  rewrite dict_get_set, !E.
  destruct (String.eqb_spec k ym) as [<- | _]; lia.
Qed.

(** The mapping of [get_monthly_interest_payments], read at a month. *)
Lemma monthly_interest_get (ledger : list MortgageTransaction.t) (ym : string) :
  dict_get (get_monthly_interest_payments ledger) ym 0
  = interest_of_month ym ledger.
Proof.
  unfold get_monthly_interest_payments.
  assert (G : forall d, dict_get (fold_left add_interest ledger d) ym 0
                        = dict_get d ym 0 + interest_of_month ym ledger).
  { induction ledger as [| m l IH]; intros d; cbn [fold_left].
    - cbn. lia.
    - rewrite IH, add_interest_get. unfold interest_of_month. cbn [fold_right].
      lia. }
  rewrite G. cbn. lia.
Qed.

Lemma interest_of_month_sign (ym : string) (ledger : list MortgageTransaction.t) :
  0 <= interest_of_month ym ledger
  /\ (interest_of_month ym ledger = 0 <->
      forall m, In m ledger -> counts_as_interest m = true ->
                MortgageTransaction.year_month m <> ym).
Proof.
  induction ledger as [| a l (IH1 & IH2)].
  - cbn. split; [lia |]. split; [intros _ m [] | reflexivity].
  - unfold interest_of_month in *. cbn [fold_right].
    destruct (counts_as_interest a) eqn:C; cbn [andb].
    + destruct (String.eqb_spec (MortgageTransaction.year_month a) ym) as [E | E].
      * assert (0 < MortgageTransaction.interest a).
        { unfold counts_as_interest in C. apply andb_prop in C.
          destruct C as [_ C]. now apply Z.ltb_lt in C. }
        split; [lia |]. split; [lia |].
        intros H0. exfalso. apply (H0 a); auto. now left.
      * split; [lia |]. rewrite Z.add_0_l, IH2. split.
        -- intros H0 m [<- | Hm] Hc; [exact E | now apply H0].
        -- intros H0 m Hm. apply H0. now right.
    + split; [lia |]. rewrite Z.add_0_l, IH2. split.
      * intros H0 m [<- | Hm] Hc; [congruence | now apply H0].
      * intros H0 m Hm. apply H0. now right.
Qed.

(** X17. [get_monthly_interest_payments] maps each month to the sum of the
    interest of that month's MONTHLY PAYMENT entries with positive
    interest; a month without such an entry reads as 0, every other month
    as a positive amount. *)
Theorem monthly_interest_is_sum (ledger : list MortgageTransaction.t)
    (ym : string) :
  let interest := dict_get (get_monthly_interest_payments ledger) ym 0 in
  interest = interest_of_month ym ledger
  /\ 0 <= interest
  /\ (interest = 0 <->
      forall m, In m ledger -> counts_as_interest m = true ->
                MortgageTransaction.year_month m <> ym).
Proof.
  cbn zeta. rewrite monthly_interest_get.
  destruct (interest_of_month_sign ym ledger) as [H1 H2]. auto.
Qed.

(** X18. With the mapping the mortgage loader builds, enhancement never
    lowers the expenses of a month and never raises its net cash flow;
    the expenses stay the same exactly when the ledger has no MONTHLY
    PAYMENT entry with positive interest in that month. *)
Theorem enhancement_is_monotone (ledger : list MortgageTransaction.t)
    (b : MonthlyMetrics) :
  let e := enhance (get_monthly_interest_payments ledger) b in
  true_expenses b <= true_expenses e
  /\ net_cash_flow e <= gross_income b - true_expenses b
  /\ (true_expenses e = true_expenses b <->
      forall m, In m ledger -> counts_as_interest m = true ->
                MortgageTransaction.year_month m <> month b).
Proof.
  cbn zeta. cbn [enhance true_expenses net_cash_flow].
  rewrite monthly_interest_get.
  destruct (interest_of_month_sign (month b) ledger) as [H1 H2].
  split; [lia |]. split; [lia |].
  rewrite <- H2. lia.
Qed.

(** X19. The expense breakdown of the enhanced record: with a positive
    interest for the month, the bucket [Housing_Interest] holds what it
    held before plus the interest, every other bucket reads as before and
    the largest expense is the greater of the base one and the interest;
    with no interest, or a non-positive one, the breakdown and the largest
    expense are those of the base record. *)
Theorem enhanced_breakdown (interest : dict Z) (b : MonthlyMetrics) :
  let mi := dict_get interest (month b) 0 in
  let e := enhance interest b in
  (0 < mi ->
   dict_get (expense_by_category e) "Housing_Interest" 0
   = dict_get (expense_by_category b) "Housing_Interest" 0 + mi
   /\ (forall k, k <> "Housing_Interest" ->
                 dict_get (expense_by_category e) k 0
                 = dict_get (expense_by_category b) k 0)
   /\ largest_expense e = Z.max (largest_expense b) mi)
  /\ (mi <= 0 ->
      expense_by_category e = expense_by_category b
      /\ largest_expense e = largest_expense b).
Proof.
  cbn zeta. cbn [enhance expense_by_category largest_expense].
  unfold _add_mortgage_to_expenses.
  set (mi := dict_get interest (month b) 0). split.
  - intros Hpos.
    destruct (Z.leb_spec mi 0); [lia |].
    destruct (Z.ltb_spec 0 mi); [| lia].
    split; [| split; [| reflexivity]].
    + rewrite dict_get_set. now rewrite String.eqb_refl.
    + intros k Hk. rewrite dict_get_set.
      destruct (String.eqb_spec "Housing_Interest" k); [congruence | reflexivity].
  - intros Hneg.
    destruct (Z.leb_spec mi 0); [| lia].
    destruct (Z.ltb_spec 0 mi); [lia |]. auto.
Qed.

(** *** The enhanced summary *)

Lemma monthly_nonempty (transactions : list Transaction)
    (ms : list MonthlyMetrics) :
  calculate_monthly_metrics transactions = Ok ms -> ms <> [].
Proof.
  intros H. destruct (monthly_keys _ _ H) as (Hne & Hk & _).
  destruct (unique_from_spec [] (map year_month transactions)) as [Hn Hi].
  fold (unique String.eqb (map year_month transactions)) in Hn, Hi.
  destruct (sorted_spec _ Hn) as (_ & _ & Si).
  intros ->. cbn in Hk.
  destruct transactions as [| t l]; [contradiction |].
  assert (Hin : In (year_month t)
                  (sorted (unique String.eqb (map year_month (t :: l))))).
  { apply Si, Hi. cbn. tauto. }
  rewrite <- Hk in Hin. destruct Hin.
Qed.

Lemma sum_abs_amounts_nonneg (df : list Transaction) : 0 <= sum_abs_amounts df.
Proof.
  induction df as [| t df IH]; [cbn; lia |].
  rewrite sum_abs_amounts_cons. pose proof (Z.abs_nonneg (amount t)). lia.
Qed.

(** The base average of the expenses is zero exactly when the base total
    is. *)
Lemma base_average_zero (transactions : list Transaction) :
  Qeq_bool (CashFlow.avg_monthly_expenses (get_summary_metrics transactions)) 0
  = true
  <-> CashFlow.total_expenses (get_summary_metrics transactions) = 0.
Proof.
  rewrite Qeq_bool_iff.
  destruct (summary_average_products transactions) as (Hspan & _ & He & _).
  cbn zeta in *.
  set (s := get_summary_metrics transactions) in *.
  split.
  - intros H0. rewrite H0 in He. rewrite Qmult_0_l in He.
    unfold Qeq, inject_Z in He. cbn [Qnum Qden] in He. lia.
  - intros H0. rewrite H0 in He.
    assert (Hq : ~ (inject_Z (months_span s) == 0)%Q).
    { unfold Qeq, inject_Z. cbn [Qnum Qden]. lia. }
    destruct (Qmult_integral _ _ He) as [H | H]; [exact H | contradiction].
Qed.

(** X20. [get_enhanced_summary_metrics] never returns the empty
    dictionary.  It raises what [calculate_monthly_metrics] raises; where
    that returns and the transactions hold no expense at all, it raises
    [ZeroDivisionError] in the comparison with the base figures;
    otherwise it returns a summary over as many months as there are
    records, with the comparison filled in. *)
Theorem enhanced_summary_outcomes (transactions : list Transaction)
    (interest : dict Z) :
  match EnhancedSummary.get_enhanced_summary_metrics transactions interest with
  | EnhancedSummary.Returns None => False
  | EnhancedSummary.Returns (Some s) =>
      0 < CashFlow.total_expenses (get_summary_metrics transactions)
      /\ EnhancedSummary.comparison_with_base s <> None
      /\ exists ms, calculate_monthly_metrics transactions = Ok ms
                    /\ EnhancedSummary.total_months s = List.length ms
  | EnhancedSummary.Raises e => calculate_monthly_metrics transactions = Raise e
  | EnhancedSummary.RaisesZeroDivision =>
      (exists ms, calculate_monthly_metrics transactions = Ok ms)
      /\ CashFlow.total_expenses (get_summary_metrics transactions) = 0
  end.
Proof.
  unfold EnhancedSummary.get_enhanced_summary_metrics,
    EnhancedSummary._get_comparison_metrics,
    calculate_enhanced_monthly_metrics.
  destruct (calculate_monthly_metrics transactions) as [ms | e] eqn:E;
    cbn [bind]; [| reflexivity].
  pose proof (monthly_nonempty _ _ E) as Hne.
  destruct ms as [| m ms]; [contradiction |]. cbn [map].
  pose proof (base_average_zero transactions) as Hz.
  destruct (Qeq_bool (CashFlow.avg_monthly_expenses (get_summary_metrics transactions)) 0).
  - split; [eexists; reflexivity | now apply Hz].
  - cbn [EnhancedSummary.comparison_with_base EnhancedSummary.total_months].
    split; [| split; [discriminate |]].
    + destruct (summary_formula transactions) as (_ & _ & He). cbn zeta in He.
      pose proof (sum_abs_amounts_nonneg (filter (has_flow EXPENSE) transactions)).
      destruct (Z.eq_dec (CashFlow.total_expenses (get_summary_metrics transactions)) 0)
        as [H0 | H0]; [apply Hz in H0; discriminate | lia].
    + eexists. split; [reflexivity |]. cbn [List.length]. now rewrite length_map.
Qed.

(** * Further properties of the categorizer *)

Import TransactionCategorizer CategorizerNotions.

(** *** What [categorize] reads and what [categorize_all] writes *)

Lemma categorize_result_stats (re_search : string -> string -> bool)
    (token_sort_ratio : string -> string -> Z) (config : Config)
    (s s' : Stats) (t : Transaction) :
  fst (categorize re_search token_sort_ratio config s t)
  = fst (categorize re_search token_sort_ratio config s' t).
Proof.
  unfold categorize.
  destruct (user_override t); [reflexivity |].
  destruct (_check_custom_rules re_search config t); [reflexivity |].
  destruct (_check_patterns re_search t); [reflexivity |].
  destruct (_fuzzy_match_merchant token_sort_ratio config t); reflexivity.
Qed.

Lemma categorize_result_reading (re_search : string -> string -> bool)
    (token_sort_ratio : string -> string -> Z) (config : Config)
    (s : Stats) (t t' : Transaction) :
  reads_alike t t' ->
  fst (categorize re_search token_sort_ratio config s t')
  = fst (categorize re_search token_sort_ratio config s t).
Proof.
  intros (Hd & Hf & Hv & Hc).
  unfold categorize, user_override, _check_custom_rules, _check_patterns,
    _fuzzy_match_merchant.
  rewrite Hd, Hf, Hv, Hc. reflexivity.
Qed.

Lemma with_result_reads_alike (t : Transaction) (r : Result) :
  reads_alike t (with_result t r).
Proof. repeat split. Qed.

Lemma with_result_twice (t : Transaction) (r r' : Result) :
  with_result (with_result t r) r' = with_result t r'.
Proof. reflexivity. Qed.

Lemma has_flow_type_alike (t t' : Transaction) :
  reads_alike t t' -> has_flow_type t' = has_flow_type t.
Proof. intros (_ & Hf & _). unfold has_flow_type. now rewrite Hf. Qed.

Lemma has_user_category_alike (t t' : Transaction) :
  reads_alike t t' -> has_user_category t' = has_user_category t.
Proof.
  intros (_ & _ & Hv & Hc). unfold has_user_category, user_override.
  now rewrite Hv, Hc.
Qed.

(** One iteration of [categorize_all], spelled out. *)
Lemma categorize_step_spec (re_search : string -> string -> bool)
    (token_sort_ratio : string -> string -> Z) (config : Config)
    (h : store) (s : Stats) (x : ref) :
  categorize_step re_search token_sort_ratio config (h, s) x
  = if has_flow_type (h x)
    then (update h x
            (with_result (h x)
               (fst (categorize re_search token_sort_ratio config new_stats
                       (h x)))),
          snd (categorize re_search token_sort_ratio config s (h x)))
    else (h, s).
Proof.
  unfold categorize_step, has_flow_type.
  destruct (flow_type (h x)); [| reflexivity].
  rewrite (categorize_result_stats _ _ _ new_stats s).
  destruct (categorize re_search token_sort_ratio config s (h x)) as [res s'].
  reflexivity.
Qed.

Lemma categorize_steps (re_search : string -> string -> bool)
    (token_sort_ratio : string -> string -> Z) (config : Config)
    (l : list ref) :
  forall (h : store) (s : Stats) (r : ref),
    let h' := fst (fold_left (categorize_step re_search token_sort_ratio config)
                     l (h, s)) in
    (In r l -> has_flow_type (h r) = true ->
     h' r = with_result (h r)
              (fst (categorize re_search token_sort_ratio config new_stats
                      (h r))))
    /\ (~ In r l \/ has_flow_type (h r) = false -> h' r = h r).
Proof.
  induction l as [| x l IH]; intros h s r; cbn zeta.
  - cbn. split; [contradiction | reflexivity].
  - cbn [fold_left]. rewrite categorize_step_spec.
    destruct (has_flow_type (h x)) eqn:Hx.
    + set (res := fst (categorize re_search token_sort_ratio config new_stats
                         (h x))).
      set (h1 := update h x (with_result (h x) res)).
      set (s1 := snd (categorize re_search token_sort_ratio config s (h x))).
      destruct (IH h1 s1 r) as [IH1 IH2].
      assert (Halike : reads_alike (h r) (h1 r)).
      { unfold h1. destruct (Nat.eq_dec r x) as [-> | Hne].
        - rewrite update_same. apply with_result_reads_alike.
        - rewrite update_other by exact Hne. repeat split. }
      assert (Hres : with_result (h1 r)
                 (fst (categorize re_search token_sort_ratio config new_stats
                         (h1 r)))
               = with_result (h r)
                   (fst (categorize re_search token_sort_ratio config new_stats
                           (h r)))).
      { rewrite (categorize_result_reading _ _ _ _ _ _ Halike).
        unfold h1. destruct (Nat.eq_dec r x) as [-> | Hne].
        - rewrite update_same. apply with_result_twice.
        - rewrite update_other by exact Hne. reflexivity. }
      split.
      * intros Hin Hr.
        destruct (in_dec Nat.eq_dec r l) as [Hl | Hl].
        -- rewrite IH1; [exact Hres | exact Hl |].
           rewrite (has_flow_type_alike _ _ Halike). exact Hr.
        -- destruct Hin as [<- | Hin]; [| contradiction].
           rewrite IH2 by (left; exact Hl).
           unfold h1. rewrite update_same. reflexivity.
      * intros [Hnin | Hr].
        -- rewrite IH2 by (left; intros Hl; apply Hnin; right; exact Hl).
           unfold h1. rewrite update_other; [reflexivity |].
           intros ->. apply Hnin. left. reflexivity.
        -- rewrite IH2
             by (right; rewrite (has_flow_type_alike _ _ Halike); exact Hr).
           unfold h1. rewrite update_other; [reflexivity |].
           intros ->. congruence.
    + destruct (IH h s r) as [IH1 IH2]. split.
      * intros [<- | Hin] Hr; [congruence |]. apply IH1; assumption.
      * intros [Hnin | Hr].
        -- apply IH2. left. intros Hl. apply Hnin. right. exact Hl.
        -- apply IH2. right. exact Hr.
Qed.

Lemma categorize_all_at (re_search : string -> string -> bool)
    (token_sort_ratio : string -> string -> Z) (config : Config)
    (h : store) (transactions : list ref) (r : ref) :
  let h' := fst (categorize_all re_search token_sort_ratio config h
                   transactions) in
  (In r transactions -> has_flow_type (h r) = true ->
   h' r = with_result (h r)
            (fst (categorize re_search token_sort_ratio config new_stats
                    (h r))))
  /\ (~ In r transactions \/ has_flow_type (h r) = false -> h' r = h r).
Proof. exact (categorize_steps _ _ _ transactions h new_stats r). Qed.

(** X21. [categorize_all] treats every transaction on its own: a
    transaction of the batch that has a flow type ends with the category,
    the subcategory and the confidence [categorize] gives it as it stood
    before the pass, whatever the order of the batch, the other
    transactions and the number of times it occurs; a transaction outside
    the batch, or without a flow type, is left as it is. *)
Theorem categorize_all_pointwise (re_search : string -> string -> bool)
    (token_sort_ratio : string -> string -> Z) (config : Config)
    (h : store) (transactions : list ref) (r : ref) :
  let h' := fst (categorize_all re_search token_sort_ratio config h
                   transactions) in
  (In r transactions -> has_flow_type (h r) = true ->
   h' r = with_result (h r)
            (fst (categorize re_search token_sort_ratio config new_stats
                    (h r))))
  /\ (~ In r transactions \/ has_flow_type (h r) = false -> h' r = h r).
Proof. exact (categorize_all_at _ _ _ h transactions r). Qed.

(** X22. [categorize_all] never changes what the classifier decided nor
    what the transaction came with: the flow type, the pair mark and the
    pair id, the date, the description, the amount, the balance, the type
    tag and the user's fields of every transaction are as before; the
    flow type of a matched merchant is not consulted. *)
Theorem categorize_all_keeps_classification
    (re_search : string -> string -> bool)
    (token_sort_ratio : string -> string -> Z) (config : Config)
    (h : store) (transactions : list ref) (r : ref) :
  let t' := fst (categorize_all re_search token_sort_ratio config h
                   transactions) r in
  same_source (h r) t' /\ same_classification (h r) t'.
Proof.
  cbn zeta.
  destruct (categorize_all_at re_search token_sort_ratio config h transactions r)
    as [H1 H2].
  destruct (in_dec Nat.eq_dec r transactions) as [Hin | Hnin].
  - destruct (has_flow_type (h r)) eqn:Hf.
    + rewrite (H1 Hin eq_refl). split; repeat split.
    + rewrite H2 by (right; reflexivity). split; repeat split.
  - rewrite H2 by (left; exact Hnin). split; repeat split.
Qed.

(** X23. The outcome of [categorize_all] depends on the set of the batch
    only, and a second pass changes nothing: over two batches with the
    same members, the pass over one, the pass over the other, and the one
    after the other leave the same store. *)
Theorem categorize_all_is_stable (re_search : string -> string -> bool)
    (token_sort_ratio : string -> string -> Z) (config : Config)
    (h : store) (l l' : list ref) (r : ref) :
  (forall x, In x l <-> In x l') ->
  let once := fst (categorize_all re_search token_sort_ratio config h l) in
  fst (categorize_all re_search token_sort_ratio config h l') r = once r
  /\ fst (categorize_all re_search token_sort_ratio config once l') r = once r.
Proof.
  intros Hmem. cbn zeta.
  destruct (categorize_all_at re_search token_sort_ratio config h l r)
    as [A1 A2].
  destruct (categorize_all_at re_search token_sort_ratio config h l' r)
    as [B1 B2].
  destruct (categorize_all_at re_search token_sort_ratio config
              (fst (categorize_all re_search token_sort_ratio config h l))
              l' r) as [C1 C2].
  destruct (in_dec Nat.eq_dec r l) as [Hin | Hnin].
  - destruct (has_flow_type (h r)) eqn:Hf.
    + assert (Hin' : In r l') by (apply Hmem; exact Hin).
      split.
      * rewrite (B1 Hin' eq_refl), (A1 Hin eq_refl). reflexivity.
      * rewrite C1; [| exact Hin' |].
        -- rewrite (A1 Hin eq_refl).
           rewrite (categorize_result_reading _ _ _ _ _ _
                      (with_result_reads_alike _ _)).
           apply with_result_twice.
        -- rewrite (A1 Hin eq_refl).
           rewrite (has_flow_type_alike _ _ (with_result_reads_alike _ _)).
           exact Hf.
    + assert (E : fst (categorize_all re_search token_sort_ratio config h l) r
                  = h r) by (apply A2; right; reflexivity).
      split.
      * rewrite E. apply B2. right. reflexivity.
      * apply C2. right. rewrite E. exact Hf.
  - assert (Hnin' : ~ In r l') by (intros H; apply Hnin, Hmem, H).
    assert (E : fst (categorize_all re_search token_sort_ratio config h l) r
                = h r) by (apply A2; left; exact Hnin).
    split.
    + rewrite E. apply B2. left. exact Hnin'.
    + apply C2. left. exact Hnin'.
Qed.

Lemma categorize_all_is_stable_witness :
  (forall x, In x [0; 1; 2]%nat <-> In x [2; 1; 0; 1]%nat)
  /\ fst (categorize_all fragment_search equal_score coffee_config
            reviewed_store [2; 1; 0; 1]%nat) 1%nat
     = fst (categorize_all fragment_search equal_score coffee_config
              reviewed_store [0; 1; 2]%nat) 1%nat.
Proof.
  assert (Hmem : forall x, In x [0; 1; 2]%nat <-> In x [2; 1; 0; 1]%nat).
  { intros x. cbn. intuition. }
  split; [exact Hmem |].
  apply (categorize_all_is_stable fragment_search equal_score coffee_config
           reviewed_store [0; 1; 2]%nat [2; 1; 0; 1]%nat 1%nat Hmem).
Defined.

(** X24. The user's category wins: a verified transaction of the batch
    with a flow type and a category of the user that is not empty ends
    with that category, no subcategory and confidence 1, whatever the
    custom rules, the pattern tables and the merchant database hold. *)
Theorem user_category_wins (re_search : string -> string -> bool)
    (token_sort_ratio : string -> string -> Z) (config : Config)
    (h : store) (transactions : list ref) (r : ref) (c : string) :
  In r transactions ->
  flow_type (h r) <> None ->
  user_verified (h r) = true ->
  user_category (h r) = Some c ->
  c <> "" ->
  let t' := fst (categorize_all re_search token_sort_ratio config h
                   transactions) r in
  category t' = Some c /\ subcategory t' = None /\ confidence t' = 1%Q.
Proof.
  intros Hin Hf Hv Hc Hne. cbn zeta.
  destruct (categorize_all_at re_search token_sort_ratio config h transactions r)
    as [H1 _].
  rewrite H1; [| exact Hin |].
  - unfold categorize, user_override. rewrite Hv, Hc.
    destruct (String.eqb_spec c "") as [E | _]; [contradiction |].
    repeat split.
  - unfold has_flow_type. destruct (flow_type (h r)); congruence.
Qed.

Lemma user_category_wins_witness :
  let t' := fst (categorize_all fragment_search equal_score coffee_config
                   reviewed_store [0; 1; 2]%nat) 0%nat in
  category t' = Some "Household" /\ subcategory t' = None
  /\ confidence t' = 1%Q.
Proof.
  apply (user_category_wins fragment_search equal_score coffee_config
           reviewed_store [0; 1; 2]%nat 0%nat "Household").
  - cbn. left. reflexivity.
  - cbn. discriminate.
  - reflexivity.
  - reflexivity.
  - discriminate.
Defined.

(** *** The statistics *)

Lemma sum_values_dict_set (d : dict nat) (k : string) (v : nat) :
  (sum_values (dict_set d k v) + dict_get d k 0 = sum_values d + v)%nat.
Proof.
  induction d as [| [a b] r IH]; cbn [dict_set dict_get sum_values fold_right snd].
  - lia.
  - destruct (String.eqb a k); cbn [sum_values fold_right snd].
    + lia.
    + fold (sum_values (dict_set r k v)). fold (sum_values r). lia.
Qed.

Lemma track_method_spec (s : Stats) (m : string) :
  let s' := _track_method s m in
  total s' = total s
  /\ categorized s' = categorized s
  /\ uncategorized s' = uncategorized s
  /\ sum_values (by_method s') = S (sum_values (by_method s))
  /\ forall k, dict_get (by_method s') k 0%nat
               = ((if String.eqb m k then 1 else 0)
                  + dict_get (by_method s) k 0)%nat.
Proof.
  cbn zeta. unfold _track_method. cbn [total categorized uncategorized by_method].
  repeat (split; [reflexivity |]).
  destruct (dict_has (by_method s) m) eqn:Hhas.
  - split.
    + pose proof (sum_values_dict_set (by_method s) m
                    (dict_get (by_method s) m 0 + 1)%nat). lia.
    + intros k. rewrite dict_get_set.
      destruct (String.eqb_spec m k) as [<- | _]; lia.
  - pose proof (dict_get_absent (by_method s) m 0%nat Hhas) as Habs.
    split.
    + pose proof (sum_values_dict_set (by_method s) m 0%nat).
      pose proof (sum_values_dict_set (dict_set (by_method s) m 0%nat) m
                    (dict_get (dict_set (by_method s) m 0%nat) m 0 + 1)%nat).
      lia.
    + intros k. rewrite !dict_get_set. rewrite String.eqb_refl.
      destruct (String.eqb_spec m k) as [<- | _]; lia.
Qed.

(** One call of [categorize] and the counters. *)
Lemma categorize_counts (re_search : string -> string -> bool)
    (token_sort_ratio : string -> string -> Z) (config : Config)
    (s : Stats) (t : Transaction) :
  let s' := snd (categorize re_search token_sort_ratio config s t) in
  let n := if has_user_category t then 0%nat else 1%nat in
  total s' = (total s + 1)%nat
  /\ (categorized s' + uncategorized s' = categorized s + uncategorized s + n)%nat
  /\ sum_values (by_method s') = (sum_values (by_method s) + n)%nat
  /\ (dict_get (by_method s') "uncategorized" 0 + uncategorized s
      = dict_get (by_method s) "uncategorized" 0 + uncategorized s')%nat.
Proof.
  cbn zeta. unfold categorize, has_user_category.
  destruct (user_override t).
  - cbn [snd total categorized uncategorized by_method]. lia.
  - destruct (_check_custom_rules re_search config t);
      [| destruct (_check_patterns re_search t);
         [| destruct (_fuzzy_match_merchant token_sort_ratio config t)]];
      cbn [snd];
      match goal with
      | |- context [_track_method ?a ?m] =>
          destruct (track_method_spec a m) as (T1 & T2 & T3 & T4 & T5);
          rewrite T1, T2, T3, T4, (T5 "uncategorized")
      end;
      cbn [count_categorized total categorized uncategorized by_method String.eqb
           Ascii.eqb Bool.eqb];
      lia.
Qed.

Lemma categorize_steps_counts (re_search : string -> string -> bool)
    (token_sort_ratio : string -> string -> Z) (config : Config)
    (l : list ref) :
  forall (h : store) (s : Stats),
    let s' := snd (fold_left (categorize_step re_search token_sort_ratio config)
                     l (h, s)) in
    let seen := List.length (filter (fun r => has_flow_type (h r)) l) in
    let asked :=
      List.length
        (filter (fun r => has_flow_type (h r) && negb (has_user_category (h r)))
           l) in
    total s' = (total s + seen)%nat
    /\ (categorized s' + uncategorized s'
        = categorized s + uncategorized s + asked)%nat
    /\ sum_values (by_method s') = (sum_values (by_method s) + asked)%nat
    /\ (dict_get (by_method s') "uncategorized" 0 + uncategorized s
        = dict_get (by_method s) "uncategorized" 0 + uncategorized s')%nat.
Proof.
  induction l as [| x l IH]; intros h s; cbn zeta.
  - cbn. lia.
  - cbn [fold_left filter]. rewrite categorize_step_spec.
    destruct (has_flow_type (h x)) eqn:Hx.
    + set (h1 := update h x _).
      set (s1 := snd (categorize re_search token_sort_ratio config s (h x))).
      assert (Halike : forall r, reads_alike (h r) (h1 r)).
      { intros r. unfold h1. destruct (Nat.eq_dec r x) as [-> | Hne].
        - rewrite update_same. apply with_result_reads_alike.
        - rewrite update_other by exact Hne. repeat split. }
      specialize (IH h1 s1). cbn zeta in IH.
      rewrite (filter_ext (fun r => has_flow_type (h1 r))
                 (fun r => has_flow_type (h r))) in IH
        by (intros r; apply has_flow_type_alike, Halike).
      rewrite (filter_ext
                 (fun r => has_flow_type (h1 r)
                           && negb (has_user_category (h1 r)))
                 (fun r => has_flow_type (h r)
                           && negb (has_user_category (h r)))) in IH
        by (intros r; rewrite (has_flow_type_alike _ _ (Halike r)),
                        (has_user_category_alike _ _ (Halike r));
            reflexivity).
      destruct IH as (I1 & I2 & I3 & I4).
      destruct (categorize_counts re_search token_sort_ratio config s (h x))
        as (C1 & C2 & C3 & C4).
      fold s1 in C1, C2, C3, C4.
      cbn [andb]. destruct (has_user_category (h x));
        cbn [negb List.length] in *; lia.
    + cbn [andb]. apply IH.
Qed.

Lemma stats_of_batch (re_search : string -> string -> bool)
    (token_sort_ratio : string -> string -> Z) (config : Config)
    (h : store) (transactions : list ref) :
  let s := snd (categorize_all re_search token_sort_ratio config h
                  transactions) in
  total s = List.length (filter (fun r => has_flow_type (h r)) transactions)
  /\ (categorized s + uncategorized s)%nat
     = List.length
         (filter (fun r => has_flow_type (h r)
                           && negb (has_user_category (h r))) transactions)
  /\ sum_values (by_method s) = (categorized s + uncategorized s)%nat
  /\ dict_get (by_method s) "uncategorized" 0%nat = uncategorized s.
Proof.
  cbn zeta.
  destruct (categorize_steps_counts re_search token_sort_ratio config
              transactions h new_stats) as (H1 & H2 & H3 & H4).
  unfold categorize_all. cbn [new_stats total categorized uncategorized
    by_method sum_values fold_right dict_get] in H1, H2, H3, H4.
  repeat split; lia.
Qed.

(** X25. The statistics of a [categorize_all] pass: [total] counts the
    transactions of the batch that have a flow type, occurrence by
    occurrence; [categorized] and [uncategorized] together count those of
    them without a category of the user, so that the user's overrides are
    in [total] and in neither; the counts by method add up to
    [categorized + uncategorized], and the count of the method
    [uncategorized] is [uncategorized]. *)
Theorem stats_account_for_batch (re_search : string -> string -> bool)
    (token_sort_ratio : string -> string -> Z) (config : Config)
    (h : store) (transactions : list ref) :
  let s := snd (categorize_all re_search token_sort_ratio config h
                  transactions) in
  total s = List.length (filter (fun r => has_flow_type (h r)) transactions)
  /\ (categorized s + uncategorized s)%nat
     = List.length
         (filter (fun r => has_flow_type (h r)
                           && negb (has_user_category (h r))) transactions)
  /\ sum_values (by_method s) = (categorized s + uncategorized s)%nat
  /\ dict_get (by_method s) "uncategorized" 0%nat = uncategorized s.
Proof.
  exact (stats_of_batch re_search token_sort_ratio config h transactions).
Qed.

(** *** The merchant database *)

Lemma dict_lookup_set {V : Type} (d : dict V) (k k' : string) (v : V) :
  dict_lookup (dict_set d k v) k'
  = if String.eqb k k' then Some v else dict_lookup d k'.
Proof.
  induction d as [| [a b] r IH]; cbn [dict_set dict_lookup].
  - reflexivity.
  - destruct (String.eqb_spec a k) as [-> | Hak]; cbn [dict_lookup].
    + destruct (String.eqb k k'); reflexivity.
    + rewrite IH. destruct (String.eqb_spec a k') as [-> | Hak'];
        [| reflexivity].
      destruct (String.eqb_spec k k') as [-> | _]; [contradiction | reflexivity].
Qed.

Lemma dict_lookup_keys {V : Type} (d : dict V) (k : string) :
  In k (map fst d) <-> exists v, dict_lookup d k = Some v.
Proof.
  induction d as [| [a b] r IH]; cbn [map fst In dict_lookup].
  - split; [contradiction | intros [v Hv]; discriminate].
  - destruct (String.eqb_spec a k) as [-> | Hak].
    + split; [intros _; eexists; reflexivity | intros _; left; reflexivity].
    + rewrite <- IH. split; [intros [E | H]; [contradiction | exact H] |].
      intros H. right. exact H.
Qed.

(** [database.update(other)]: a key of [other] gets one of its values, any
    other key keeps its own. *)
Lemma dict_update_lookup {V : Type} (other : dict V) :
  forall (d : dict V) (k : string),
    (exists v, dict_lookup (dict_update d other) k = Some v /\ In (k, v) other)
    \/ (dict_lookup other k = None
        /\ dict_lookup (dict_update d other) k = dict_lookup d k).
Proof.
  unfold dict_update.
  induction other as [| [a b] r IH]; intros d k; cbn [fold_left fst snd].
  - right. split; reflexivity.
  - destruct (IH (dict_set d a b) k) as [(v & Hv & Hin) | (Hn & Hk)].
    + left. exists v. split; [exact Hv | right; exact Hin].
    + rewrite dict_lookup_set in Hk. cbn [dict_lookup].
      destruct (String.eqb_spec a k) as [-> | _].
      * left. exists b. split; [exact Hk | left; reflexivity].
      * right. split; assumption.
Qed.

(** The names of the standard merchants are distinct. *)
Lemma merchant_mappings_unique (k : string) (info : Merchant) :
  In (k, info) merchant_mappings -> dict_lookup merchant_mappings k = Some info.
Proof.
  unfold merchant_mappings. intros H. cbn [In] in H.
  repeat (destruct H as [H | H]; [inversion H; reflexivity |]).
  contradiction.
Qed.

(** The alias loop: a key holds the entry an alias of that name gave it,
    or what was there before. *)
Lemma alias_loop_lookup (aliases : dict string) :
  forall (d : dict Merchant) (k : string),
    match dict_lookup (fold_left add_alias aliases d) k with
    | Some info =>
        dict_lookup d k = Some info
        \/ exists standard,
             In (k, standard) aliases
             /\ dict_lookup merchant_mappings standard = Some info
    | None =>
        dict_lookup d k = None
        /\ forall standard, In (k, standard) aliases ->
                            dict_lookup merchant_mappings standard = None
    end.
Proof.
  induction aliases as [| [a st] rest IH]; intros d k; cbn [fold_left].
  - destruct (dict_lookup d k); [left; reflexivity |].
    split; [reflexivity | contradiction].
  - specialize (IH (add_alias d (a, st)) k).
    assert (Hstep : dict_lookup (add_alias d (a, st)) k
                    = match dict_lookup merchant_mappings st with
                      | Some info0 =>
                          if String.eqb a k then Some info0
                          else dict_lookup d k
                      | None => dict_lookup d k
                      end).
    { unfold add_alias. destruct (dict_lookup merchant_mappings st);
        [apply dict_lookup_set | reflexivity]. }
    destruct (dict_lookup (fold_left add_alias rest (add_alias d (a, st))) k)
      as [info |].
    + destruct IH as [Hd | (standard & Hin & Hst)].
      * rewrite Hstep in Hd.
        destruct (dict_lookup merchant_mappings st) as [info0 |] eqn:Hm.
        -- destruct (String.eqb_spec a k) as [-> | _].
           ++ right. exists st. split; [left; reflexivity |]. congruence.
           ++ left. exact Hd.
        -- left. exact Hd.
      * right. exists standard. split; [right; exact Hin | exact Hst].
    + destruct IH as [Hd Hall]. rewrite Hstep in Hd.
      destruct (dict_lookup merchant_mappings st) as [info0 |] eqn:Hm.
      * destruct (String.eqb_spec a k) as [-> | Hne]; [discriminate |].
        split; [exact Hd |].
        intros standard [E | Hin]; [congruence | apply Hall; exact Hin].
      * split; [exact Hd |].
        intros standard [E | Hin]; [| apply Hall; exact Hin].
        inversion E. subst. exact Hm.
Qed.

Lemma merchant_database_lookup (config : Config) (k : string) :
  let db := _build_merchant_database config in
  (forall info, dict_lookup merchant_mappings k = Some info ->
                dict_lookup db k = Some info)
  /\ (forall info, dict_lookup db k = Some info ->
        exists standard,
          dict_lookup merchant_mappings standard = Some info
          /\ (standard = k
              \/ exists aliases, merchant_aliases config = Some aliases
                                 /\ In (k, standard) aliases))
  /\ (forall aliases standard info,
        merchant_aliases config = Some aliases ->
        In (k, standard) aliases ->
        dict_lookup merchant_mappings standard = Some info ->
        exists info', dict_lookup db k = Some info').
Proof.
  cbn zeta. unfold _build_merchant_database.
  set (database := match merchant_aliases config with
                   | Some aliases => fold_left add_alias aliases []
                   | None => []
                   end).
  destruct (dict_update_lookup merchant_mappings database k)
    as [(v & Hv & Hin) | (Hn & Hk)].
  - apply merchant_mappings_unique in Hin.
    split; [| split].
    + intros info Hm. congruence.
    + intros info Hdb. exists k. split; [congruence | left; reflexivity].
    + intros. eexists. exact Hv.
  - rewrite Hk. split; [| split].
    + intros info Hm. congruence.
    + intros info Hdb. unfold database in Hdb.
      destruct (merchant_aliases config) as [aliases |]; [| discriminate].
      pose proof (alias_loop_lookup aliases [] k) as Hal.
      rewrite Hdb in Hal.
      destruct Hal as [Hd | (standard & Hin & Hst)]; [discriminate |].
      exists standard. split; [exact Hst |]. right.
      exists aliases. split; [reflexivity | exact Hin].
    + intros aliases standard info Hcfg Hin Hst.
      unfold database. rewrite Hcfg.
      pose proof (alias_loop_lookup aliases [] k) as Hal.
      destruct (dict_lookup (fold_left add_alias aliases []) k) as [info' |].
      * eexists. reflexivity.
      * destruct Hal as [_ Hall]. specialize (Hall standard Hin). congruence.
Qed.

Lemma merchant_database_nonempty (config : Config) :
  _build_merchant_database config <> [].
Proof.
  intros E.
  destruct (merchant_database_lookup config "WHOLE FOODS") as (H & _).
  specialize (H _ eq_refl). rewrite E in H. discriminate.
Qed.

(** X26. The merchant database of any configuration: a standard merchant
    keeps its standard entry, so an alias that takes the name of a
    standard merchant has no effect; every entry is the entry of a
    standard merchant, under its own name or under an alias of the
    configuration; an alias of a known standard merchant is a key; the
    database is never empty. *)
Theorem standard_merchants_win (config : Config) (k : string) :
  let db := _build_merchant_database config in
  db <> []
  /\ (forall info, dict_lookup merchant_mappings k = Some info ->
                   dict_lookup db k = Some info)
  /\ (forall info, dict_lookup db k = Some info ->
        exists standard,
          dict_lookup merchant_mappings standard = Some info
          /\ (standard = k
              \/ exists aliases, merchant_aliases config = Some aliases
                                 /\ In (k, standard) aliases))
  /\ (forall aliases standard info,
        merchant_aliases config = Some aliases ->
        In (k, standard) aliases ->
        dict_lookup merchant_mappings standard = Some info ->
        exists info', dict_lookup db k = Some info').
Proof.
  cbn zeta. split; [apply merchant_database_nonempty |].
  exact (merchant_database_lookup config k).
Qed.

(** *** Fuzzy matching *)

Lemma max_fold (r : list (string * Z)) :
  forall x : string * Z,
    let best := fold_left (fun best y => if snd best <? snd y then y else best)
                  r x in
    In best (x :: r) /\ forall y, In y (x :: r) -> snd y <= snd best.
Proof.
  induction r as [| a r IH]; intros x; cbn zeta; cbn [fold_left].
  - split; [left; reflexivity |].
    intros y [<- | []]. lia.
  - destruct (IH (if snd x <? snd a then a else x)) as [Hin Hmax].
    split.
    + destruct Hin as [E | Hin]; [| right; right; exact Hin].
      rewrite <- E. destruct (snd x <? snd a); [right; left | left]; reflexivity.
    + intros y Hy.
      assert (Hx : snd x <= snd (if snd x <? snd a then a else x)
                   /\ snd a <= snd (if snd x <? snd a then a else x)).
      { destruct (Z.ltb_spec (snd x) (snd a)); lia. }
      pose proof (Hmax _ (or_introl eq_refl)) as Hb.
      destruct Hy as [<- | [<- | Hy]]; [lia | lia |].
      apply Hmax. right. exact Hy.
Qed.

Lemma extractOne_spec (token_sort_ratio : string -> string -> Z)
    (query : string) (choices : list string) :
  match extractOne token_sort_ratio query choices with
  | Some (c, score) =>
      In c choices /\ score = token_sort_ratio query c /\ 0 <= score
      /\ forall c', In c' choices -> token_sort_ratio query c' <= score
  | None => forall c', In c' choices -> token_sort_ratio query c' < 0
  end.
Proof.
  unfold extractOne, max_by_score.
  set (scored := map (fun c => (c, token_sort_ratio query c)) choices).
  set (kept := filter (fun cs => 0 <=? snd cs) scored).
  assert (Hkept : forall cs, In cs kept <->
                    In (fst cs) choices
                    /\ snd cs = token_sort_ratio query (fst cs)
                    /\ 0 <= snd cs).
  { intros [c sc]. unfold kept, scored. rewrite filter_In, in_map_iff.
    cbn [fst snd]. rewrite Z.leb_le. split.
    - intros [(c0 & E & Hin) Hle]. inversion E. subst. auto.
    - intros (Hin & -> & Hle). split; [| exact Hle].
      exists c. split; [reflexivity | exact Hin]. }
  destruct kept as [| x r] eqn:Ek.
  - intros c' Hin.
    destruct (Z.ltb_spec (token_sort_ratio query c') 0) as [Hlt | Hge];
      [exact Hlt |].
    exfalso. apply (proj2 (Hkept (c', token_sort_ratio query c'))).
    cbn [fst snd]. auto.
  - destruct (max_fold r x) as [Hin Hmax].
    destruct (fold_left _ r x) as [c score].
    destruct (proj1 (Hkept (c, score)) Hin) as (Hc & Hs & H0).
    cbn [fst snd] in Hc, Hs, H0.
    repeat (split; [assumption |]).
    intros c' Hc'.
    destruct (Z.ltb_spec (token_sort_ratio query c') 0) as [Hlt | Hge];
      [lia |].
    apply (Hmax (c', token_sort_ratio query c')).
    apply (proj2 (Hkept (c', token_sort_ratio query c'))).
    cbn [fst snd]. auto.
Qed.

Lemma fuzzy_match_spec
    (token_sort_ratio : string -> string -> Z) (config : Config)
    (t : Transaction) :
  let db := _build_merchant_database config in
  let threshold :=
    match fuzzy_match_threshold config with Some n => n | None => 85 end in
  let q := upper (description t) in
  match _fuzzy_match_merchant token_sort_ratio config t with
  | Some r =>
      exists merchant info,
        dict_lookup db merchant = Some info
        /\ threshold <= token_sort_ratio q merchant
        /\ 0 <= token_sort_ratio q merchant
        /\ (forall c info', dict_lookup db c = Some info' ->
              token_sort_ratio q c <= token_sort_ratio q merchant)
        /\ r = mkResult (flow_type t) (merchant_category info)
                 (merchant_subcategory info)
                 (if 95 <=? token_sort_ratio q merchant then CONFIDENCE_HIGH
                  else CONFIDENCE_MEDIUM)
                 "fuzzy_match" (Some merchant)
  | None =>
      forall c info, dict_lookup db c = Some info ->
                     token_sort_ratio q c < Z.max threshold 0
  end.
Proof.
  cbn zeta. unfold _fuzzy_match_merchant, merchant_database.
  pose proof (merchant_database_nonempty config) as Hne.
  set (db := _build_merchant_database config) in *.
  set (threshold := match fuzzy_match_threshold config with
                    | Some n => n
                    | None => 85
                    end).
  set (q := upper (description t)).
  destruct db as [| e db'] eqn:Edb; [contradiction |].
  rewrite <- Edb. clear Hne.
  pose proof (extractOne_spec token_sort_ratio q (map fst db)) as Hex.
  destruct (extractOne token_sort_ratio q (map fst db)) as [[m score] |].
  - destruct Hex as (Hin & Hs & H0 & Hmax).
    destruct (proj1 (dict_lookup_keys db m) Hin) as [info Hinfo].
    destruct (Z.leb_spec threshold score) as [Hle | Hlt].
    + rewrite Hinfo. exists m, info. subst score.
      repeat (split; [assumption |]).
      split; [| reflexivity].
      intros c info' Hc. apply Hmax.
      apply dict_lookup_keys. eexists. exact Hc.
    + intros c info' Hc.
      assert (token_sort_ratio q c <= score).
      { apply Hmax. apply dict_lookup_keys. eexists. exact Hc. }
      lia.
  - intros c info' Hc.
    assert (token_sort_ratio q c < 0).
    { apply Hex. apply dict_lookup_keys. eexists. exact Hc. }
    lia.
Qed.

(** X27. [_fuzzy_match_merchant] returns a result exactly when some
    merchant of the database scores at least the threshold (85 unless the
    configuration sets one) and at least the cutoff 0: the result then
    names a merchant of the highest score and carries that merchant's
    category and subcategory, the flow type of the transaction, and
    confidence 0.9 from score 95, 0.7 below.  The lookup of the matched
    merchant never fails. *)
Theorem fuzzy_match_is_best_merchant
    (token_sort_ratio : string -> string -> Z) (config : Config)
    (t : Transaction) :
  let db := _build_merchant_database config in
  let threshold :=
    match fuzzy_match_threshold config with Some n => n | None => 85 end in
  let q := upper (description t) in
  match _fuzzy_match_merchant token_sort_ratio config t with
  | Some r =>
      exists merchant info,
        dict_lookup db merchant = Some info
        /\ threshold <= token_sort_ratio q merchant
        /\ 0 <= token_sort_ratio q merchant
        /\ (forall c info', dict_lookup db c = Some info' ->
              token_sort_ratio q c <= token_sort_ratio q merchant)
        /\ r = mkResult (flow_type t) (merchant_category info)
                 (merchant_subcategory info)
                 (if 95 <=? token_sort_ratio q merchant then CONFIDENCE_HIGH
                  else CONFIDENCE_MEDIUM)
                 "fuzzy_match" (Some merchant)
  | None =>
      forall c info, dict_lookup db c = Some info ->
                     token_sort_ratio q c < Z.max threshold 0
  end.
Proof. exact (fuzzy_match_spec token_sort_ratio config t). Qed.

(** *** Confidence and the low-confidence report *)

Lemma first_rule_In (re_search : string -> string -> bool)
    (rules : list Rule) (description : string) (rule : Rule) (matched : string) :
  first_rule re_search rules description = Some (rule, matched) ->
  In rule rules.
Proof.
  induction rules as [| a rest IH]; cbn [first_rule]; [discriminate |].
  destruct (rule_match re_search description a).
  - intros E. inversion E. left. reflexivity.
  - intros E. right. apply IH. exact E.
Qed.

Lemma Qltb_false_of_le (x y : Q) : (y <= x)%Q -> Qltb x y = false.
Proof.
  intros H. unfold Qltb. apply (proj2 (Qle_bool_iff y x)) in H.
  now rewrite H.
Qed.

(** The method of a result and its confidence. *)
Lemma categorize_method (re_search : string -> string -> bool)
    (token_sort_ratio : string -> string -> Z) (config : Config)
    (s : Stats) (t : Transaction) :
  (forall rule, In rule (_load_custom_rules config) ->
                match rule_confidence rule with
                | Some c => (CONFIDENCE_MEDIUM <= c)%Q
                | None => True
                end) ->
  let r := fst (categorize re_search token_sort_ratio config s t) in
  (Qltb (result_confidence r) CONFIDENCE_MEDIUM = true <-> method r = "default")
  /\ (method r = "default" ->
      result_category r = _get_default_category (flow_type t)
      /\ result_subcategory r = None
      /\ result_confidence r = CONFIDENCE_LOW).
Proof.
  intros Hrules. cbn zeta. unfold categorize.
  destruct (user_override t).
  { cbn. split; [split; discriminate | discriminate]. }
  unfold _check_custom_rules, rules.
  destruct (first_rule re_search (_load_custom_rules config)
              (upper (description t))) as [[rule matched] |] eqn:Hrule.
  { cbn [fst method result_confidence].
    split; [| discriminate].
    split; [| discriminate].
    intros Hlow. exfalso.
    specialize (Hrules rule (first_rule_In _ _ _ _ _ Hrule)).
    destruct (rule_confidence rule) as [c |].
    - rewrite (Qltb_false_of_le _ _ Hrules) in Hlow. discriminate.
    - discriminate. }
  unfold _check_patterns.
  destruct (flow_type t) as [f |] eqn:Hf.
  - destruct (first_pattern re_search (patterns f) (upper (description t)))
      as [[category p] |].
    { cbn. split; [split; discriminate | discriminate]. }
    pose proof (fuzzy_match_spec token_sort_ratio config t)
      as Hfz.
    cbn zeta in Hfz.
    destruct (_fuzzy_match_merchant token_sort_ratio config t) as [fr |].
    + destruct Hfz as (m & info & _ & _ & _ & _ & ->).
      cbn [fst method result_confidence].
      split; [| discriminate]. split; [| discriminate].
      destruct (95 <=? _); discriminate.
    + cbn. repeat split; reflexivity.
  - pose proof (fuzzy_match_spec token_sort_ratio config t)
      as Hfz.
    cbn zeta in Hfz.
    destruct (_fuzzy_match_merchant token_sort_ratio config t) as [fr |].
    + destruct Hfz as (m & info & _ & _ & _ & _ & ->).
      cbn [fst method result_confidence].
      split; [| discriminate]. split; [| discriminate].
      destruct (95 <=? _); discriminate.
    + cbn. repeat split; reflexivity.
Qed.

Lemma filter_map {A B : Type} (f : B -> bool) (g : A -> B) (l : list A) :
  filter f (map g l) = map g (filter (fun a => f (g a)) l).
Proof.
  induction l as [| a l IH]; cbn [map filter]; [reflexivity |].
  destruct (f (g a)); cbn [map]; now rewrite IH.
Qed.

(** X28. Where no custom rule carries a confidence below 0.7 and every
    transaction of the batch has a flow type, the transactions
    [get_low_confidence_transactions] reports of a categorized batch at
    its default threshold are those [categorize] sent to the default, in
    batch order; each of them has the category [Other_...] of its flow
    type, no subcategory and confidence 0.5. *)
Theorem low_confidence_is_default (re_search : string -> string -> bool)
    (token_sort_ratio : string -> string -> Z) (config : Config)
    (h : store) (transactions : list ref) :
  (forall rule, In rule (_load_custom_rules config) ->
                match rule_confidence rule with
                | Some c => (CONFIDENCE_MEDIUM <= c)%Q
                | None => True
                end) ->
  (forall r, In r transactions -> has_flow_type (h r) = true) ->
  let h' := fst (categorize_all re_search token_sort_ratio config h
                   transactions) in
  let low :=
    get_low_confidence_transactions (map h' transactions) CONFIDENCE_MEDIUM in
  low = map h'
          (filter
             (fun r =>
                String.eqb
                  (method (fst (categorize re_search token_sort_ratio config
                                  new_stats (h r))))
                  "default")
             transactions)
  /\ forall t, In t low ->
       category t = Some (_get_default_category (flow_type t))
       /\ subcategory t = None
       /\ confidence t = CONFIDENCE_LOW.
Proof.
  intros Hrules Hall. cbn zeta.
  set (h' := fst (categorize_all re_search token_sort_ratio config h
                    transactions)).
  assert (Hat : forall r, In r transactions ->
            h' r = with_result (h r)
                     (fst (categorize re_search token_sort_ratio config
                             new_stats (h r)))).
  { intros r Hin.
    apply (categorize_all_at re_search token_sort_ratio config h transactions r);
      [exact Hin | apply Hall; exact Hin]. }
  assert (Hlow : forall r, In r transactions ->
            Qltb (confidence (h' r)) CONFIDENCE_MEDIUM
            = String.eqb
                (method (fst (categorize re_search token_sort_ratio config
                                new_stats (h r))))
                "default").
  { intros r Hin. rewrite (Hat r Hin).
    destruct (categorize_method re_search token_sort_ratio config new_stats
                (h r) Hrules) as [Hiff _].
    cbn [with_result set_confidence confidence].
    destruct (String.eqb_spec
                (method (fst (categorize re_search token_sort_ratio config
                                new_stats (h r)))) "default") as [E | E].
    - apply Hiff. exact E.
    - destruct (Qltb _ CONFIDENCE_MEDIUM) eqn:Q; [| reflexivity].
      exfalso. apply E, Hiff. reflexivity. }
  assert (Hfilter : get_low_confidence_transactions (map h' transactions)
                      CONFIDENCE_MEDIUM
                    = map h'
                        (filter
                           (fun r =>
                              String.eqb
                                (method
                                   (fst (categorize re_search token_sort_ratio
                                           config new_stats (h r))))
                                "default")
                           transactions)).
  { unfold get_low_confidence_transactions. rewrite filter_map.
    f_equal. apply filter_ext_in. exact Hlow. }
  split; [exact Hfilter |].
  intros t Ht. rewrite Hfilter in Ht.
  apply in_map_iff in Ht. destruct Ht as (r & <- & Hr).
  apply filter_In in Hr. destruct Hr as [Hin Hm].
  apply String.eqb_eq in Hm.
  destruct (categorize_method re_search token_sort_ratio config new_stats
              (h r) Hrules) as [_ Hdef].
  destruct (Hdef Hm) as (E1 & E2 & E3).
  rewrite (Hat r Hin). cbn. rewrite E1, E2, E3. repeat split.
Qed.

Lemma low_confidence_is_default_witness :
  let h' := fst (categorize_all fragment_search equal_score coffee_config
                   reviewed_store [0; 1; 2]%nat) in
  let low :=
    get_low_confidence_transactions (map h' [0; 1; 2]%nat) CONFIDENCE_MEDIUM in
  low = map h'
          (filter
             (fun r =>
                String.eqb
                  (method (fst (categorize fragment_search equal_score
                                  coffee_config new_stats (reviewed_store r))))
                  "default")
             [0; 1; 2]%nat)
  /\ forall t, In t low ->
       category t = Some (_get_default_category (flow_type t))
       /\ subcategory t = None
       /\ confidence t = CONFIDENCE_LOW.
Proof.
  apply (low_confidence_is_default fragment_search equal_score coffee_config
           reviewed_store [0; 1; 2]%nat).
  - intros rule [<- | []]. exact I.
  - intros r [<- | [<- | [<- | []]]]; reflexivity.
Defined.

(** *** The pipeline: classification, then categorization *)

Lemma filter_all {A : Type} (f : A -> bool) (l : list A) :
  (forall a, In a l -> f a = true) -> filter f l = l.
Proof.
  induction l as [| a l IH]; intros H; cbn [filter]; [reflexivity |].
  rewrite (H a (or_introl eq_refl)). f_equal.
  apply IH. intros b Hb. apply H. right. exact Hb.
Qed.

Lemma classify_all_has_flow_type (h : store) (transactions : list ref)
    (r : ref) :
  In r transactions -> has_flow_type (classify_all h transactions r) = true.
Proof.
  intros Hin.
  destruct (in_split_last r transactions Hin) as (l1 & l2 & -> & Hnin).
  destruct (classify_all_assigns h l1 l2 r Hnin) as (Hf & _).
  unfold has_flow_type. now rewrite Hf.
Qed.

(** X29. The two passes of the pipeline, one after the other over the same
    batch: every transaction of the batch keeps the flow type and the pair
    marks [classify_all] gave it, and its category, subcategory and
    confidence are replaced by those of [categorize], so that nothing of
    the classifier's category and confidence remains; no transaction is
    skipped, and [total] is the length of the batch. *)
Theorem pipeline_classifies_then_categorizes
    (re_search : string -> string -> bool)
    (token_sort_ratio : string -> string -> Z) (config : Config)
    (h : store) (transactions : list ref) (r : ref) :
  In r transactions ->
  let classified := classify_all h transactions in
  let out := categorize_all re_search token_sort_ratio config classified
               transactions in
  let res := fst (categorize re_search token_sort_ratio config new_stats
                    (classified r)) in
  (exists f, flow_type (fst out r) = Some f)
  /\ same_classification (classified r) (fst out r)
  /\ category (fst out r) = Some (result_category res)
  /\ subcategory (fst out r) = result_subcategory res
  /\ confidence (fst out r) = result_confidence res
  /\ total (snd out) = List.length transactions.
Proof.
  intros Hin. cbn zeta.
  set (classified := classify_all h transactions).
  pose proof (classify_all_has_flow_type h transactions r Hin) as Hf.
  fold classified in Hf.
  destruct (categorize_all_at re_search token_sort_ratio config classified
              transactions r) as [H1 _].
  destruct (stats_of_batch re_search token_sort_ratio config classified
              transactions) as (Htotal & _).
  rewrite (H1 Hin Hf).
  split; [| split; [| split; [| split; [| split]]]]; try reflexivity.
  - unfold has_flow_type in Hf. cbn.
    destruct (flow_type (classified r)) as [f |]; [| discriminate].
    exists f. reflexivity.
  - repeat split.
  - rewrite Htotal. f_equal. apply filter_all.
    intros a Ha. apply classify_all_has_flow_type. exact Ha.
Qed.

Lemma pipeline_classifies_then_categorizes_witness :
  let classified := classify_all three_way [0; 1; 2]%nat in
  let out := categorize_all fragment_search equal_score coffee_config classified
               [0; 1; 2]%nat in
  let res := fst (categorize fragment_search equal_score coffee_config new_stats
                    (classified 1%nat)) in
  (exists f, flow_type (fst out 1%nat) = Some f)
  /\ same_classification (classified 1%nat) (fst out 1%nat)
  /\ category (fst out 1%nat) = Some (result_category res)
  /\ subcategory (fst out 1%nat) = result_subcategory res
  /\ confidence (fst out 1%nat) = result_confidence res
  /\ total (snd out) = List.length [0; 1; 2]%nat.
Proof.
  apply (pipeline_classifies_then_categorizes fragment_search equal_score
           coffee_config three_way [0; 1; 2]%nat 1%nat).
  cbn. right. left. reflexivity.
Defined.

(** * Further properties of the mortgage layer: the interest a run takes up *)

Lemma sum_metric_add (f g : MonthlyMetrics -> Z) (l : list MonthlyMetrics) :
  EnhancedSummary.sum_metric (fun b => f b + g b) l
  = EnhancedSummary.sum_metric f l + EnhancedSummary.sum_metric g l.
Proof.
  unfold EnhancedSummary.sum_metric.
  induction l as [| a l IH]; cbn [fold_right]; lia.
Qed.

Lemma sum_metric_ext (f g : MonthlyMetrics -> Z) (l : list MonthlyMetrics) :
  (forall b, In b l -> f b = g b) ->
  EnhancedSummary.sum_metric f l = EnhancedSummary.sum_metric g l.
Proof.
  unfold EnhancedSummary.sum_metric.
  induction l as [| a l IH]; intros H; cbn [fold_right]; [reflexivity |].
  rewrite (H a (or_introl eq_refl)), IH; [reflexivity |].
  intros b Hb. apply H. right. exact Hb.
Qed.

Lemma sum_metric_map (f : MonthlyMetrics -> Z)
    (g : MonthlyMetrics -> MonthlyMetrics) (l : list MonthlyMetrics) :
  EnhancedSummary.sum_metric f (map g l)
  = EnhancedSummary.sum_metric (fun b => f (g b)) l.
Proof.
  unfold EnhancedSummary.sum_metric.
  induction l as [| a l IH]; cbn [map fold_right]; [reflexivity |].
  now rewrite IH.
Qed.

(** Over records of distinct months, one month is met at most once. *)
Lemma sum_metric_one_month (ym : string) (v : Z) (l : list MonthlyMetrics) :
  0 <= v -> NoDup (map month l) ->
  0 <= EnhancedSummary.sum_metric
         (fun b => if String.eqb ym (month b) then v else 0) l <= v
  /\ (~ In ym (map month l) ->
      EnhancedSummary.sum_metric
        (fun b => if String.eqb ym (month b) then v else 0) l = 0).
Proof.
  intros Hv. unfold EnhancedSummary.sum_metric.
  induction l as [| a l IH]; cbn [map fold_right]; intros Hnd.
  - split; [lia | reflexivity].
  - inversion Hnd as [| x xs Hnin Hnd']. subst.
    destruct (IH Hnd') as [Hb Hz].
    destruct (String.eqb_spec ym (month a)) as [-> | Hne].
    + rewrite (Hz Hnin). split; [lia |].
      intros H. exfalso. apply H. left. reflexivity.
    + split; [lia |].
      intros H. rewrite Hz; [reflexivity |].
      intros Hin. apply H. right. exact Hin.
Qed.

Lemma interest_of_run_bounded (ledger : list MortgageTransaction.t)
    (l : list MonthlyMetrics) :
  NoDup (map month l) ->
  0 <= EnhancedSummary.sum_metric (fun b => interest_of_month (month b) ledger) l
    <= interest_of_ledger ledger.
Proof.
  intros Hnd. induction ledger as [| m rest IH].
  - unfold interest_of_month, interest_of_ledger. cbn [fold_right].
    assert (E : EnhancedSummary.sum_metric (fun _ => 0) l = 0).
    { unfold EnhancedSummary.sum_metric.
      induction l as [| a l' IHl]; cbn [fold_right]; [reflexivity |].
      inversion Hnd. subst. rewrite IHl by assumption. reflexivity. }
    rewrite E. lia.
  - unfold interest_of_month, interest_of_ledger. cbn [fold_right].
    fold (interest_of_ledger rest).
    rewrite (sum_metric_ext _
               (fun b =>
                  (if String.eqb (MortgageTransaction.year_month m) (month b)
                   then if counts_as_interest m
                        then MortgageTransaction.interest m else 0
                   else 0)
                  + interest_of_month (month b) rest)).
    + rewrite sum_metric_add.
      assert (Hv : 0 <= (if counts_as_interest m
                         then MortgageTransaction.interest m else 0)).
      { unfold counts_as_interest.
        destruct (String.eqb _ "MONTHLY PAYMENT"); cbn [andb]; [| lia].
        destruct (Z.ltb_spec 0 (MortgageTransaction.interest m)); lia. }
      destruct (sum_metric_one_month (MortgageTransaction.year_month m) _ l
                  Hv Hnd) as [Hb _].
      lia.
    + intros b _. fold (interest_of_month (month b) rest).
      destruct (counts_as_interest m); cbn [andb];
        destruct (String.eqb (MortgageTransaction.year_month m) (month b));
        reflexivity.
Qed.

Lemma sum_of_values_set (d : dict Z) (k : string) (v : Z) :
  sum_of_values (dict_set d k v) = sum_of_values d - dict_get d k 0 + v.
Proof.
  exact (weigh_dict_set (fun _ x => x) 0 d k v eq_refl).
Qed.

Lemma monthly_interest_total (ledger : list MortgageTransaction.t) :
  sum_of_values (get_monthly_interest_payments ledger)
  = interest_of_ledger ledger.
Proof.
  unfold get_monthly_interest_payments.
  assert (G : forall d, sum_of_values (fold_left add_interest ledger d)
                        = sum_of_values d + interest_of_ledger ledger).
  { induction ledger as [| m l IH]; intros d; cbn [fold_left].
    - cbn. lia.
    - rewrite IH. unfold interest_of_ledger. cbn [fold_right].
      fold (interest_of_ledger l).
      unfold add_interest. fold (counts_as_interest m).
      destruct (counts_as_interest m); [| lia].
      destruct (dict_has d (MortgageTransaction.year_month m)) eqn:Hhas.
      + rewrite sum_of_values_set. lia.
      + rewrite !sum_of_values_set, dict_get_set, String.eqb_refl.
        rewrite (dict_get_absent _ _ 0 Hhas). lia. }
  rewrite G. cbn. lia.
Qed.

(** X30. The totals of an enhanced run over the mapping of the mortgage
    loader: the incomes are those of the base run; the expenses are the
    base expenses plus the interest of the months of the run, and the net
    cash flows the base ones less that interest; the interest taken up is
    at most the sum of the mapping, which is the ledger's interest over
    all its months, with or without transactions. *)
Theorem enhanced_totals_add_interest (transactions : list Transaction)
    (ledger : list MortgageTransaction.t) (es : list MonthlyMetrics) :
  let interest := get_monthly_interest_payments ledger in
  calculate_enhanced_monthly_metrics transactions interest = Ok es ->
  exists bs,
    calculate_monthly_metrics transactions = Ok bs
    /\ let added :=
         EnhancedSummary.sum_metric
           (fun b => interest_of_month (month b) ledger) bs in
       EnhancedSummary.sum_metric gross_income es
       = EnhancedSummary.sum_metric gross_income bs
       /\ EnhancedSummary.sum_metric true_expenses es
          = EnhancedSummary.sum_metric true_expenses bs + added
       /\ EnhancedSummary.sum_metric net_cash_flow es
          = EnhancedSummary.sum_metric net_cash_flow bs - added
       /\ sum_of_values interest = interest_of_ledger ledger
       /\ 0 <= added <= sum_of_values interest.
Proof.
  cbn zeta. unfold calculate_enhanced_monthly_metrics.
  destruct (calculate_monthly_metrics transactions) as [bs | e] eqn:Hb;
    cbn [bind]; [| discriminate].
  intros E. inversion E as [Hes]. clear E.
  exists bs. split; [reflexivity |].
  rewrite !sum_metric_map.
  assert (Hnd : NoDup (map month bs)).
  { destruct (monthly_keys _ _ Hb) as (_ & Hk & _). rewrite Hk.
    destruct (unique_from_spec [] (map year_month transactions)) as [Hn _].
    fold (unique String.eqb (map year_month transactions)) in Hn.
    apply (sorted_spec _ Hn). }
  split; [reflexivity |].
  split.
  { rewrite <- sum_metric_add. apply sum_metric_ext.
    intros b _. cbn [enhance true_expenses].
    rewrite monthly_interest_get. reflexivity. }
  split.
  { assert (En : EnhancedSummary.sum_metric net_cash_flow bs
                 = EnhancedSummary.sum_metric
                     (fun b => net_cash_flow
                                 (enhance (get_monthly_interest_payments ledger) b)
                               + interest_of_month (month b) ledger) bs).
    { apply sum_metric_ext. intros b Hin.
      destruct (monthly_member _ _ _ Hb Hin) as [ym Hm].
      destruct (month_metrics_formula _ _ _ Hm) as (_ & Hnet & _).
      cbn [enhance net_cash_flow]. rewrite monthly_interest_get. lia. }
    rewrite En, sum_metric_add. lia. }
  rewrite monthly_interest_total.
  split; [reflexivity |].
  apply interest_of_run_bounded. exact Hnd.
Qed.

Lemma enhanced_totals_add_interest_witness :
  match calculate_enhanced_monthly_metrics two_months
          (get_monthly_interest_payments winter_ledger) with
  | Ok es =>
      exists bs,
        calculate_monthly_metrics two_months = Ok bs
        /\ EnhancedSummary.sum_metric true_expenses es
           = EnhancedSummary.sum_metric true_expenses bs
             + EnhancedSummary.sum_metric
                 (fun b => interest_of_month (month b) winter_ledger) bs
  | Raise _ => False
  end.
Proof.
  destruct (calculate_enhanced_monthly_metrics two_months
              (get_monthly_interest_payments winter_ledger)) as [es | e] eqn:E.
  - destruct (enhanced_totals_add_interest two_months winter_ledger es E)
      as (bs & Hb & _ & He & _).
    exists bs. split; [exact Hb | exact He].
  - vm_compute in E. discriminate E.
Defined.
